(** * Nazara Engine: renderer state cache and deferred render queue

    A shallow embedding of [NzRenderer] (the process-wide cache of pipeline
    state, its derived-matrix slots and its per-context table of vertex
    array objects) and of [NzDeferredRenderQueue] (the batching queue and
    its ordering comparators).

    Conventions of the embedding.
    - A C++ pointer is its address, a number of type [N]; [nullptr] is 0.
      Two pointers are equal when the addresses are, and [p1 < p2] compares
      addresses.
    - The file-scope variables [s_...] of Renderer.cpp are the fields of one
      record, passed explicitly; a member function that mutates them takes
      the record and returns the new one.
    - What the functions ask of objects defined in other translation units
      (contexts, buffers, shader programs, textures, declarations) is read
      from a record [World]; what they ask the GPU or another object to do
      is appended to a list of [Call]s.
      The objects called are taken not to call the renderer or the queue
      back, resource destruction apart, which is modelled.
    - The build modelled is the checked one: both [NAZARA_DEBUG] and
      [NAZARA_RENDERER_SAFE] (and [NAZARA_GRAPHICS_SAFE]) are on, so every
      guarded test of the source is present.  [NazaraError] and
      [NazaraWarning] only write to the log and are not modelled. *)

From stdpp Require Import gmap list functions sorting.

Abbreviation ptr := N (only parsing).
Definition nullptr : ptr := 0%N.

(** 32-bit unsigned arithmetic ([unsigned int], [nzUInt32]). *)
Definition UINT32 : Z := (2 ^ 32)%Z.
Definition not32 (x : Z) : Z := (Z.lnot x `mod` UINT32)%Z.
Definition add32 (x y : N) : N := ((x + y) `mod` 2 ^ 32)%N.

Module Renderer.

(** ** Enumerations *)

Inductive ResourceType :=
| ResourceType_Context
| ResourceType_IndexBuffer
| ResourceType_VertexBuffer
| ResourceType_VertexDeclaration.

(** The callback receives the tag as an [int]; the values are the
    enumerators' positions. *)
Definition ResourceType_of_index (index : Z) : option ResourceType :=
  if decide (index = 0%Z) then Some ResourceType_Context
  else if decide (index = 1%Z) then Some ResourceType_IndexBuffer
  else if decide (index = 2%Z) then Some ResourceType_VertexBuffer
  else if decide (index = 3%Z) then Some ResourceType_VertexDeclaration
  else None.

Definition index_of_ResourceType (t : ResourceType) : Z :=
  match t with
  | ResourceType_Context => 0%Z
  | ResourceType_IndexBuffer => 1%Z
  | ResourceType_VertexBuffer => 2%Z
  | ResourceType_VertexDeclaration => 3%Z
  end.

Definition Update_None : Z := 0%Z.
Definition Update_Matrices : Z := 0x1%Z.
Definition Update_Program : Z := 0x2%Z.
Definition Update_Textures : Z := 0x4%Z.
Definition Update_VAO : Z := 0x8%Z.

(** [nzMatrixType], in the order in which Renderer.cpp lists the slots
    (base matrices, products, inverses); [nzMatrixType_Max] is the last. *)
Inductive nzMatrixType :=
| nzMatrixType_Projection
| nzMatrixType_View
| nzMatrixType_World
| nzMatrixType_ViewProj
| nzMatrixType_WorldView
| nzMatrixType_WorldViewProj
| nzMatrixType_InvProjection
| nzMatrixType_InvView
| nzMatrixType_InvViewProj
| nzMatrixType_InvWorld
| nzMatrixType_InvWorldView
| nzMatrixType_InvWorldViewProj.

#[global] Instance nzMatrixType_eq_dec : EqDecision nzMatrixType.
Proof. solve_decision. Defined.

(** The range [0 .. nzMatrixType_Max] of the loops over the slots. *)
Definition all_matrix_types : list nzMatrixType :=
  [ nzMatrixType_Projection; nzMatrixType_View; nzMatrixType_World;
    nzMatrixType_ViewProj; nzMatrixType_WorldView; nzMatrixType_WorldViewProj;
    nzMatrixType_InvProjection; nzMatrixType_InvView; nzMatrixType_InvViewProj;
    nzMatrixType_InvWorld; nzMatrixType_InvWorldView;
    nzMatrixType_InvWorldViewProj ].

Inductive nzShaderUniform :=
| nzShaderUniform_ProjMatrix
| nzShaderUniform_ViewMatrix
| nzShaderUniform_WorldMatrix
| nzShaderUniform_ViewProjMatrix
| nzShaderUniform_WorldViewMatrix
| nzShaderUniform_WorldViewProjMatrix
| nzShaderUniform_InvProjMatrix
| nzShaderUniform_InvViewMatrix
| nzShaderUniform_InvViewProjMatrix
| nzShaderUniform_InvWorldMatrix
| nzShaderUniform_InvWorldViewMatrix
| nzShaderUniform_InvWorldViewProjMatrix
| nzShaderUniform_InvTargetSize
| nzShaderUniform_TargetSize.

Inductive nzBufferType :=
| nzBufferType_Index
| nzBufferType_Vertex.

(** ** Value types owned by other modules

    [NzMatrix4f], [NzTextureSampler] and [NzRenderStates] are declared in
    headers outside this file; the renderer only uses the operations
    below. *)

Class NzMatrix4 (Matrix : Type) := {
  (** [NzMatrix4f::MakeIdentity] *)
  MakeIdentity : Matrix;
  (** [a * b] *)
  Multiply : Matrix → Matrix → Matrix;
  (** [a.ConcatenateAffine(b)], the new value of [a] *)
  ConcatenateAffine : Matrix → Matrix → Matrix;
  (** [a.Concatenate(b)], the new value of [a] *)
  Concatenate : Matrix → Matrix → Matrix;
  (** [src.GetInverse(&dest)]: the returned flag and the new value of
      [dest], given its old one *)
  GetInverse : Matrix → Matrix → bool * Matrix
}.

Class NzTextureSamplerOps (Sampler : Type) := {
  (** a default-constructed [NzTextureSampler] *)
  DefaultSampler : Sampler;
  (** [sampler.UseMipmaps(b)]: the returned flag and the new value of
      [sampler] *)
  UseMipmaps : Sampler → bool → bool * Sampler
}.

(** ** What the renderer reads from the rest of the engine *)

Record World := {
  (** [NzContext::GetCurrent()] *)
  NzContext_GetCurrent : ptr;
  (** [buffer->IsHardware()] *)
  IsHardware : ptr → bool;
  (** [program->IsCompiled()] *)
  IsCompiled : ptr → bool;
  (** [program->m_impl->GetUniformLocation(u)]; -1 when absent *)
  GetUniformLocation : ptr → nzShaderUniform → Z;
  (** [target->GetWidth()], [target->GetHeight()] *)
  GetWidth : ptr → N;
  GetHeight : ptr → N;
  (** [target->HasContext()], [target->IsRenderable()] and the result of
      [target->Activate()] *)
  HasContext : ptr → bool;
  IsRenderable : ptr → bool;
  Activate : ptr → bool;
  (** [texture->HasMipmaps()], [GetType()], [GetOpenGLID()] *)
  HasMipmaps : ptr → bool;
  GetType : ptr → N;
  GetOpenGLID : ptr → N;
  (** [vertexBuffer->GetVertexDeclaration()] *)
  GetVertexDeclaration : ptr → ptr;
  (** [buffer->GetStartOffset()] *)
  GetStartOffset : ptr → N;
  (** [declaration->GetStride()] *)
  GetStride : ptr → N;
  (** [declaration->GetAttribute(usage, &enabled, &type, &offset)] *)
  GetAttribute : ptr → N → bool * N * N;
  (** [buffer->GetBuffer()->GetImpl()->GetOpenGLID()] *)
  GetHardwareBufferID : ptr → N;
  (** the name the next [glGenVertexArrays(1, &vao)] writes *)
  glGenVertexArrays_name : N;
  (** the address of [s_instanceBuffer] *)
  s_instanceBuffer : ptr;
  (** [nzAttributeUsage_FirstVertexData .. nzAttributeUsage_LastVertexData]
      and [nzAttributeUsage_FirstInstanceData ..
      nzAttributeUsage_LastInstanceData] *)
  vertexDataUsages : list N;
  instanceDataUsages : list N;
  (** the tables [NzOpenGL::AttributeIndex], [NzOpenGL::AttributeType],
      [NzVertexDeclaration::GetAttributeSize] and the enumerator
      [nzAttributeType_Color] *)
  AttributeIndex : N → N;
  AttributeType : N → N;
  GetAttributeSize : N → N;
  nzAttributeType_Color : N
}.

(** ** The cached state *)

Record MatrixUnit (Matrix : Type) := {
  matrix : Matrix;
  updated : bool;
  location : Z
}.
Arguments matrix {Matrix} _.
Arguments updated {Matrix} _.
Arguments location {Matrix} _.

Record TextureUnit (Sampler : Type) := {
  sampler : Sampler;
  texture : ptr;
  samplerUpdated : bool;
  textureUpdated : bool
}.
Arguments sampler {Sampler} _.
Arguments texture {Sampler} _.
Arguments samplerUpdated {Sampler} _.
Arguments textureUpdated {Sampler} _.

(** [std::tuple<const NzIndexBuffer*, const NzVertexBuffer*,
    const NzVertexDeclaration*, const NzVertexDeclaration*>] *)
Abbreviation VAO_Key := (N * N * N * N)%type (only parsing).

Definition key_indexBuffer (key : VAO_Key) : ptr := key.1.1.1.
Definition key_vertexBuffer (key : VAO_Key) : ptr := key.1.1.2.
Definition key_vertexDeclaration (key : VAO_Key) : ptr := key.1.2.
Definition key_instancingDeclaration (key : VAO_Key) : ptr := key.2.

Record State (Matrix Sampler RenderStates : Type) := {
  (** [VAO_Map]: context, then key, to the vertex array's name *)
  s_vaos : gmap N (gmap (N * N * N * N) N);
  s_dirtyTextureUnits : gset N;
  s_textureUnits : list (TextureUnit Sampler);
  s_currentVAO : N;
  s_matrices : nzMatrixType → MatrixUnit Matrix;
  s_states : RenderStates;
  s_targetSize : N * N;
  s_updateFlags : Z;
  s_indexBuffer : ptr;
  s_target : ptr;
  s_program : ptr;
  s_vertexBuffer : ptr;
  s_instancingDeclaration : ptr;
  s_instancing : bool;
  s_useSamplerObjects : bool;
  s_useVertexArrayObjects : bool;
  s_maxTextureUnit : N
}.
Arguments s_vaos {_ _ _} _.
Arguments s_dirtyTextureUnits {_ _ _} _.
Arguments s_textureUnits {_ _ _} _.
Arguments s_currentVAO {_ _ _} _.
Arguments s_matrices {_ _ _} _.
Arguments s_states {_ _ _} _.
Arguments s_targetSize {_ _ _} _.
Arguments s_updateFlags {_ _ _} _.
Arguments s_indexBuffer {_ _ _} _.
Arguments s_target {_ _ _} _.
Arguments s_program {_ _ _} _.
Arguments s_vertexBuffer {_ _ _} _.
Arguments s_instancingDeclaration {_ _ _} _.
Arguments s_instancing {_ _ _} _.
Arguments s_useSamplerObjects {_ _ _} _.
Arguments s_useVertexArrayObjects {_ _ _} _.
Arguments s_maxTextureUnit {_ _ _} _.

(** ** Calls made on the GPU and on other objects *)

Inductive Call (Matrix Sampler RenderStates : Type) :=
| call_Desactivate (target : ptr)
| call_Activate (target : ptr)
| call_SetTarget (target : ptr)
| call_EnsureTargetUpdated (target : ptr)
| call_ProgramBind (program : ptr)
| call_GetUniformLocation (program : ptr) (u : nzShaderUniform)
| call_BindTextures (program : ptr)
| call_SendInvTargetSize (program : ptr) (location : Z) (size : N * N)
| call_SendTargetSize (program : ptr) (location : Z) (size : N * N)
| call_BindTextureUnit (unit : N)
| call_EnsureMipmapsUpdate (texture : ptr)
| call_SamplerBind (sampler : Sampler) (unit : N)
| call_SamplerApply (sampler : Sampler) (texture : ptr)
| call_SendMatrix (program : ptr) (location : Z) (m : Matrix)
| call_AddResourceListener (resource : ptr) (index : ResourceType)
| call_glGenVertexArrays (vao : N)
| call_glBindVertexArray (vao : N)
| call_glBindBuffer (target : nzBufferType) (id : N)
| call_glEnableVertexAttribArray (index : N)
| call_glVertexAttribPointer (index size type : N) (normalized : bool)
    (stride pointer : N)
| call_glVertexAttribDivisor (index divisor : N)
| call_glDisableVertexAttribArray (index : N)
| call_SetBuffer (type : nzBufferType) (id : N)
| call_BindTexture (unit type id : N)
| call_ApplyStates (states : RenderStates).

Arguments call_Desactivate {_ _ _} _.
Arguments call_Activate {_ _ _} _.
Arguments call_SetTarget {_ _ _} _.
Arguments call_EnsureTargetUpdated {_ _ _} _.
Arguments call_ProgramBind {_ _ _} _.
Arguments call_GetUniformLocation {_ _ _} _ _.
Arguments call_BindTextures {_ _ _} _.
Arguments call_SendInvTargetSize {_ _ _} _ _ _.
Arguments call_SendTargetSize {_ _ _} _ _ _.
Arguments call_BindTextureUnit {_ _ _} _.
Arguments call_EnsureMipmapsUpdate {_ _ _} _.
Arguments call_SamplerBind {_ _ _} _ _.
Arguments call_SamplerApply {_ _ _} _ _.
Arguments call_SendMatrix {_ _ _} _ _ _.
Arguments call_AddResourceListener {_ _ _} _ _.
Arguments call_glGenVertexArrays {_ _ _} _.
Arguments call_glBindVertexArray {_ _ _} _.
Arguments call_glBindBuffer {_ _ _} _ _.
Arguments call_glEnableVertexAttribArray {_ _ _} _.
Arguments call_glVertexAttribPointer {_ _ _} _ _ _ _ _ _.
Arguments call_glVertexAttribDivisor {_ _ _} _ _.
Arguments call_glDisableVertexAttribArray {_ _ _} _.
Arguments call_SetBuffer {_ _ _} _ _.
Arguments call_BindTexture {_ _ _} _ _ _.
Arguments call_ApplyStates {_ _ _} _.

Section Renderer.
Context {Matrix Sampler RenderStates : Type}.
Context `{!NzMatrix4 Matrix} `{!NzTextureSamplerOps Sampler}.

Abbreviation State := (State Matrix Sampler RenderStates).
Abbreviation Call := (Call Matrix Sampler RenderStates).
Abbreviation MatrixUnit := (MatrixUnit Matrix).
Abbreviation TextureUnit := (TextureUnit Sampler).

(** Assignment to one file-scope variable. *)
Definition set_s_vaos (v : gmap N (gmap (N * N * N * N) N)) (s : State)
    : State :=
  {| s_vaos := v; s_dirtyTextureUnits := s_dirtyTextureUnits s;
     s_textureUnits := s_textureUnits s; s_currentVAO := s_currentVAO s;
     s_matrices := s_matrices s; s_states := s_states s;
     s_targetSize := s_targetSize s; s_updateFlags := s_updateFlags s;
     s_indexBuffer := s_indexBuffer s; s_target := s_target s;
     s_program := s_program s; s_vertexBuffer := s_vertexBuffer s;
     s_instancingDeclaration := s_instancingDeclaration s;
     s_instancing := s_instancing s;
     s_useSamplerObjects := s_useSamplerObjects s;
     s_useVertexArrayObjects := s_useVertexArrayObjects s;
     s_maxTextureUnit := s_maxTextureUnit s |}.

Definition set_s_dirtyTextureUnits (v : gset N) (s : State) : State :=
  {| s_vaos := s_vaos s; s_dirtyTextureUnits := v;
     s_textureUnits := s_textureUnits s; s_currentVAO := s_currentVAO s;
     s_matrices := s_matrices s; s_states := s_states s;
     s_targetSize := s_targetSize s; s_updateFlags := s_updateFlags s;
     s_indexBuffer := s_indexBuffer s; s_target := s_target s;
     s_program := s_program s; s_vertexBuffer := s_vertexBuffer s;
     s_instancingDeclaration := s_instancingDeclaration s;
     s_instancing := s_instancing s;
     s_useSamplerObjects := s_useSamplerObjects s;
     s_useVertexArrayObjects := s_useVertexArrayObjects s;
     s_maxTextureUnit := s_maxTextureUnit s |}.

Definition set_s_textureUnits (v : list TextureUnit) (s : State) : State :=
  {| s_vaos := s_vaos s; s_dirtyTextureUnits := s_dirtyTextureUnits s;
     s_textureUnits := v; s_currentVAO := s_currentVAO s;
     s_matrices := s_matrices s; s_states := s_states s;
     s_targetSize := s_targetSize s; s_updateFlags := s_updateFlags s;
     s_indexBuffer := s_indexBuffer s; s_target := s_target s;
     s_program := s_program s; s_vertexBuffer := s_vertexBuffer s;
     s_instancingDeclaration := s_instancingDeclaration s;
     s_instancing := s_instancing s;
     s_useSamplerObjects := s_useSamplerObjects s;
     s_useVertexArrayObjects := s_useVertexArrayObjects s;
     s_maxTextureUnit := s_maxTextureUnit s |}.

Definition set_s_currentVAO (v : N) (s : State) : State :=
  {| s_vaos := s_vaos s; s_dirtyTextureUnits := s_dirtyTextureUnits s;
     s_textureUnits := s_textureUnits s; s_currentVAO := v;
     s_matrices := s_matrices s; s_states := s_states s;
     s_targetSize := s_targetSize s; s_updateFlags := s_updateFlags s;
     s_indexBuffer := s_indexBuffer s; s_target := s_target s;
     s_program := s_program s; s_vertexBuffer := s_vertexBuffer s;
     s_instancingDeclaration := s_instancingDeclaration s;
     s_instancing := s_instancing s;
     s_useSamplerObjects := s_useSamplerObjects s;
     s_useVertexArrayObjects := s_useVertexArrayObjects s;
     s_maxTextureUnit := s_maxTextureUnit s |}.

Definition set_s_matrices (v : nzMatrixType → MatrixUnit) (s : State)
    : State :=
  {| s_vaos := s_vaos s; s_dirtyTextureUnits := s_dirtyTextureUnits s;
     s_textureUnits := s_textureUnits s; s_currentVAO := s_currentVAO s;
     s_matrices := v; s_states := s_states s; s_targetSize := s_targetSize s;
     s_updateFlags := s_updateFlags s; s_indexBuffer := s_indexBuffer s;
     s_target := s_target s; s_program := s_program s;
     s_vertexBuffer := s_vertexBuffer s;
     s_instancingDeclaration := s_instancingDeclaration s;
     s_instancing := s_instancing s;
     s_useSamplerObjects := s_useSamplerObjects s;
     s_useVertexArrayObjects := s_useVertexArrayObjects s;
     s_maxTextureUnit := s_maxTextureUnit s |}.

Definition set_s_targetSize (v : N * N) (s : State) : State :=
  {| s_vaos := s_vaos s; s_dirtyTextureUnits := s_dirtyTextureUnits s;
     s_textureUnits := s_textureUnits s; s_currentVAO := s_currentVAO s;
     s_matrices := s_matrices s; s_states := s_states s; s_targetSize := v;
     s_updateFlags := s_updateFlags s; s_indexBuffer := s_indexBuffer s;
     s_target := s_target s; s_program := s_program s;
     s_vertexBuffer := s_vertexBuffer s;
     s_instancingDeclaration := s_instancingDeclaration s;
     s_instancing := s_instancing s;
     s_useSamplerObjects := s_useSamplerObjects s;
     s_useVertexArrayObjects := s_useVertexArrayObjects s;
     s_maxTextureUnit := s_maxTextureUnit s |}.

Definition set_s_updateFlags (v : Z) (s : State) : State :=
  {| s_vaos := s_vaos s; s_dirtyTextureUnits := s_dirtyTextureUnits s;
     s_textureUnits := s_textureUnits s; s_currentVAO := s_currentVAO s;
     s_matrices := s_matrices s; s_states := s_states s;
     s_targetSize := s_targetSize s; s_updateFlags := v;
     s_indexBuffer := s_indexBuffer s; s_target := s_target s;
     s_program := s_program s; s_vertexBuffer := s_vertexBuffer s;
     s_instancingDeclaration := s_instancingDeclaration s;
     s_instancing := s_instancing s;
     s_useSamplerObjects := s_useSamplerObjects s;
     s_useVertexArrayObjects := s_useVertexArrayObjects s;
     s_maxTextureUnit := s_maxTextureUnit s |}.

Definition set_s_indexBuffer (v : ptr) (s : State) : State :=
  {| s_vaos := s_vaos s; s_dirtyTextureUnits := s_dirtyTextureUnits s;
     s_textureUnits := s_textureUnits s; s_currentVAO := s_currentVAO s;
     s_matrices := s_matrices s; s_states := s_states s;
     s_targetSize := s_targetSize s; s_updateFlags := s_updateFlags s;
     s_indexBuffer := v; s_target := s_target s; s_program := s_program s;
     s_vertexBuffer := s_vertexBuffer s;
     s_instancingDeclaration := s_instancingDeclaration s;
     s_instancing := s_instancing s;
     s_useSamplerObjects := s_useSamplerObjects s;
     s_useVertexArrayObjects := s_useVertexArrayObjects s;
     s_maxTextureUnit := s_maxTextureUnit s |}.

Definition set_s_target (v : ptr) (s : State) : State :=
  {| s_vaos := s_vaos s; s_dirtyTextureUnits := s_dirtyTextureUnits s;
     s_textureUnits := s_textureUnits s; s_currentVAO := s_currentVAO s;
     s_matrices := s_matrices s; s_states := s_states s;
     s_targetSize := s_targetSize s; s_updateFlags := s_updateFlags s;
     s_indexBuffer := s_indexBuffer s; s_target := v;
     s_program := s_program s; s_vertexBuffer := s_vertexBuffer s;
     s_instancingDeclaration := s_instancingDeclaration s;
     s_instancing := s_instancing s;
     s_useSamplerObjects := s_useSamplerObjects s;
     s_useVertexArrayObjects := s_useVertexArrayObjects s;
     s_maxTextureUnit := s_maxTextureUnit s |}.

Definition set_s_program (v : ptr) (s : State) : State :=
  {| s_vaos := s_vaos s; s_dirtyTextureUnits := s_dirtyTextureUnits s;
     s_textureUnits := s_textureUnits s; s_currentVAO := s_currentVAO s;
     s_matrices := s_matrices s; s_states := s_states s;
     s_targetSize := s_targetSize s; s_updateFlags := s_updateFlags s;
     s_indexBuffer := s_indexBuffer s; s_target := s_target s;
     s_program := v; s_vertexBuffer := s_vertexBuffer s;
     s_instancingDeclaration := s_instancingDeclaration s;
     s_instancing := s_instancing s;
     s_useSamplerObjects := s_useSamplerObjects s;
     s_useVertexArrayObjects := s_useVertexArrayObjects s;
     s_maxTextureUnit := s_maxTextureUnit s |}.

Definition set_s_vertexBuffer (v : ptr) (s : State) : State :=
  {| s_vaos := s_vaos s; s_dirtyTextureUnits := s_dirtyTextureUnits s;
     s_textureUnits := s_textureUnits s; s_currentVAO := s_currentVAO s;
     s_matrices := s_matrices s; s_states := s_states s;
     s_targetSize := s_targetSize s; s_updateFlags := s_updateFlags s;
     s_indexBuffer := s_indexBuffer s; s_target := s_target s;
     s_program := s_program s; s_vertexBuffer := v;
     s_instancingDeclaration := s_instancingDeclaration s;
     s_instancing := s_instancing s;
     s_useSamplerObjects := s_useSamplerObjects s;
     s_useVertexArrayObjects := s_useVertexArrayObjects s;
     s_maxTextureUnit := s_maxTextureUnit s |}.

Definition set_s_instancing (v : bool) (s : State) : State :=
  {| s_vaos := s_vaos s; s_dirtyTextureUnits := s_dirtyTextureUnits s;
     s_textureUnits := s_textureUnits s; s_currentVAO := s_currentVAO s;
     s_matrices := s_matrices s; s_states := s_states s;
     s_targetSize := s_targetSize s; s_updateFlags := s_updateFlags s;
     s_indexBuffer := s_indexBuffer s; s_target := s_target s;
     s_program := s_program s; s_vertexBuffer := s_vertexBuffer s;
     s_instancingDeclaration := s_instancingDeclaration s; s_instancing := v;
     s_useSamplerObjects := s_useSamplerObjects s;
     s_useVertexArrayObjects := s_useVertexArrayObjects s;
     s_maxTextureUnit := s_maxTextureUnit s |}.

Abbreviation Slots := (nzMatrixType → MatrixUnit).

Definition set_matrix (t : nzMatrixType) (m : Matrix) (ms : Slots) : Slots :=
  <[t := {| matrix := m; updated := updated (ms t);
            location := location (ms t) |}]> ms.

Definition set_updated (t : nzMatrixType) (b : bool) (ms : Slots) : Slots :=
  <[t := {| matrix := matrix (ms t); updated := b;
            location := location (ms t) |}]> ms.

Definition set_location (t : nzMatrixType) (l : Z) (ms : Slots) : Slots :=
  <[t := {| matrix := matrix (ms t); updated := updated (ms t);
            location := l |}]> ms.

(** ** [NzRenderer::Initialize]: the state it leaves

    The capabilities come from the driver; the rest is lines 767-773 and
    836-846, with the zero initialisation of the statics that
    [Initialize] does not assign. *)
Definition Initialize (useSamplerObjects useVertexArrayObjects : bool)
    (maxTextureUnit : N) (states : RenderStates) : State :=
  {| s_vaos := ∅;
     s_dirtyTextureUnits := ∅;
     s_textureUnits :=
       replicate (N.to_nat maxTextureUnit)
         {| sampler := DefaultSampler; texture := nullptr;
            samplerUpdated := false; textureUpdated := true |};
     s_currentVAO := 0%N;
     s_matrices := λ _,
       {| matrix := MakeIdentity; updated := true; location := (-1)%Z |};
     s_states := states;
     s_targetSize := (0%N, 0%N);
     s_updateFlags :=
       Z.lor (Z.lor Update_Matrices Update_Program) Update_VAO;
     s_indexBuffer := nullptr;
     s_target := nullptr;
     s_program := nullptr;
     s_vertexBuffer := nullptr;
     s_instancingDeclaration := nullptr;
     s_instancing := false;
     s_useSamplerObjects := useSamplerObjects;
     s_useVertexArrayObjects := useVertexArrayObjects;
     s_maxTextureUnit := maxTextureUnit |}.

(** ** The setters *)

(** [NzRenderer::EnableInstancing] *)
Definition EnableInstancing (instancing : bool) (s : State) : State :=
  if bool_decide (s_instancing s ≠ instancing) then
    set_s_instancing instancing
      (set_s_updateFlags (Z.lor (s_updateFlags s) Update_VAO) s)
  else s.

(** [NzRenderer::SetIndexBuffer] *)
Definition SetIndexBuffer (W : World) (indexBuffer : ptr) (s : State) : State :=
  if bool_decide (indexBuffer ≠ nullptr) && negb (IsHardware W indexBuffer)
  then s
  else if bool_decide (s_indexBuffer s ≠ indexBuffer) then
    set_s_updateFlags (Z.lor (s_updateFlags s) Update_VAO)
      (set_s_indexBuffer indexBuffer s)
  else s.

(** [NzRenderer::SetVertexBuffer] *)
Definition SetVertexBuffer (W : World) (vertexBuffer : ptr) (s : State)
    : State :=
  if bool_decide (vertexBuffer ≠ nullptr) && negb (IsHardware W vertexBuffer)
  then s
  else if bool_decide (vertexBuffer ≠ nullptr)
          && bool_decide (s_vertexBuffer s ≠ vertexBuffer) then
    set_s_updateFlags (Z.lor (s_updateFlags s) Update_VAO)
      (set_s_vertexBuffer vertexBuffer s)
  else s.

(** [NzRenderer::SetShaderProgram] *)
Definition SetShaderProgram (W : World) (program : ptr) (s : State) : State :=
  if bool_decide (program ≠ nullptr) && negb (IsCompiled W program) then s
  else if bool_decide (s_program s ≠ program) then
    set_s_updateFlags (Z.lor (s_updateFlags s) Update_Program)
      (set_s_program program s)
  else s.

(** [NzRenderer::SetTarget]: the result, the state left and the calls
    made.  A target that cannot be activated leaves no target bound. *)
Definition SetTarget (W : World) (target : ptr) (s : State)
    : bool * State * list Call :=
  if bool_decide (s_target s = target) then (true, s, [])
  else
    let '(s, c1) :=
      if bool_decide (s_target s ≠ nullptr) then
        (set_s_target nullptr s,
         if negb (HasContext W (s_target s))
         then [call_Desactivate (s_target s)] else [])
      else (s, []) in
    if bool_decide (target ≠ nullptr) then
      if negb (IsRenderable W target) then (false, s, c1)
      else if negb (Activate W target) then
        (false, s, c1 ++ [call_Activate target])
      else
        (true, set_s_target target s,
         c1 ++ [call_Activate target; call_SetTarget target])
    else (true, s, c1 ++ [call_SetTarget (s_target s)]).

(** The slots whose [updated] flag [SetMatrix] clears, in the order of
    the assignments of each [case]. *)
Definition SetMatrix_invalidates (type : nzMatrixType) : list nzMatrixType :=
  match type with
  | nzMatrixType_Projection =>
      [ nzMatrixType_InvProjection; nzMatrixType_InvViewProj;
        nzMatrixType_InvWorldViewProj; nzMatrixType_ViewProj;
        nzMatrixType_WorldViewProj ]
  | nzMatrixType_View =>
      [ nzMatrixType_InvView; nzMatrixType_InvViewProj;
        nzMatrixType_InvWorld; nzMatrixType_InvWorldViewProj;
        nzMatrixType_ViewProj; nzMatrixType_World;
        nzMatrixType_WorldViewProj ]
  | nzMatrixType_World =>
      [ nzMatrixType_InvWorld; nzMatrixType_InvWorldView;
        nzMatrixType_InvWorldViewProj; nzMatrixType_WorldView;
        nzMatrixType_WorldViewProj ]
  | nzMatrixType_ViewProj => [ nzMatrixType_InvViewProj ]
  | nzMatrixType_WorldView =>
      [ nzMatrixType_InvWorldView; nzMatrixType_WorldViewProj ]
  | nzMatrixType_WorldViewProj => [ nzMatrixType_InvWorldViewProj ]
  | nzMatrixType_InvProjection
  | nzMatrixType_InvView
  | nzMatrixType_InvViewProj
  | nzMatrixType_InvWorld
  | nzMatrixType_InvWorldView
  | nzMatrixType_InvWorldViewProj => []
  end.

Definition invalidate (ts : list nzMatrixType) (ms : Slots) : Slots :=
  foldl (λ ms t, set_updated t false ms) ms ts.

(** [NzRenderer::SetMatrix] *)
Definition SetMatrix (type : nzMatrixType) (m : Matrix) (s : State) : State :=
  let ms := set_matrix type m (s_matrices s) in
  let ms := set_updated type true ms in
  let ms := invalidate (SetMatrix_invalidates type) ms in
  set_s_updateFlags (Z.lor (s_updateFlags s) Update_Matrices)
    (set_s_matrices ms s).

(** [std::set<unsigned int>::insert] is [{[unit]} ∪ _]; the units are
    visited in increasing order. *)
Definition dirty_units_in_order (dirty : gset N) : list N :=
  merge_sort N.le (elements dirty).

(** [NzRenderer::SetTexture].  [s_textureUnits] has [s_maxTextureUnit]
    elements once [Initialize] has run; a unit below the maximum and
    outside the vector is an access the source leaves undefined, and the
    model leaves the state alone. *)
Definition SetTexture (W : World) (unit : N) (tex : ptr) (s : State) : State :=
  if bool_decide (s_maxTextureUnit s ≤ unit)%N then s
  else
    match s_textureUnits s !! N.to_nat unit with
    | None => s
    | Some u =>
        if bool_decide (texture u ≠ tex) then
          let u1 :=
            {| sampler := sampler u; texture := tex;
               samplerUpdated := samplerUpdated u;
               textureUpdated := false |} in
          let u2 :=
            if bool_decide (tex ≠ nullptr) then
              let '(changed, smp) :=
                UseMipmaps (sampler u1) (HasMipmaps W tex) in
              {| sampler := smp; texture := texture u1;
                 samplerUpdated :=
                   if changed then false else samplerUpdated u1;
                 textureUpdated := textureUpdated u1 |}
            else u1 in
          set_s_updateFlags (Z.lor (s_updateFlags s) Update_Textures)
            (set_s_dirtyTextureUnits ({[unit]} ∪ s_dirtyTextureUnits s)
               (set_s_textureUnits
                  (<[N.to_nat unit := u2]> (s_textureUnits s)) s))
        else s
    end.

(** [NzRenderer::SetTextureSampler] *)
Definition SetTextureSampler (W : World) (unit : N) (smp : Sampler)
    (s : State) : State :=
  if bool_decide (s_maxTextureUnit s ≤ unit)%N then s
  else
    match s_textureUnits s !! N.to_nat unit with
    | None => s
    | Some u =>
        let u1 :=
          {| sampler := smp; texture := texture u;
             samplerUpdated := false;
             textureUpdated := textureUpdated u |} in
        let u2 :=
          if bool_decide (texture u1 ≠ nullptr) then
            {| sampler :=
                 (UseMipmaps (sampler u1) (HasMipmaps W (texture u1))).2;
               texture := texture u1;
               samplerUpdated := samplerUpdated u1;
               textureUpdated := textureUpdated u1 |}
          else u1 in
        set_s_updateFlags (Z.lor (s_updateFlags s) Update_Textures)
          (set_s_dirtyTextureUnits ({[unit]} ∪ s_dirtyTextureUnits s)
             (set_s_textureUnits
                (<[N.to_nat unit := u2]> (s_textureUnits s)) s))
    end.

(** ** [NzRenderer::UpdateMatrix]

    The function calls itself on the slot it reads when that slot is not
    current; the deepest chain is InvWorldViewProj, WorldViewProj,
    WorldView.  [UpdateMatrix_rec] carries the number of nested calls
    still allowed, and [UpdateMatrix] allows three. *)
Definition UpdateInverse (rec : nzMatrixType → Slots → Slots)
    (src dest : nzMatrixType) (ms : Slots) : Slots :=
  let ms := if updated (ms src) then ms else rec src ms in
  let '(_, inv) := GetInverse (matrix (ms src)) (matrix (ms dest)) in
  set_updated dest true (set_matrix dest inv ms).

Fixpoint UpdateMatrix_rec (depth : nat) (type : nzMatrixType) (ms : Slots)
    : Slots :=
  match depth with
  | O => ms
  | S depth =>
      let rec := UpdateMatrix_rec depth in
      match type with
      | nzMatrixType_Projection
      | nzMatrixType_View
      | nzMatrixType_World => set_updated type true ms
      | nzMatrixType_ViewProj =>
          let ms :=
            set_matrix nzMatrixType_ViewProj
              (Multiply (matrix (ms nzMatrixType_View))
                        (matrix (ms nzMatrixType_Projection))) ms in
          set_updated nzMatrixType_ViewProj true ms
      | nzMatrixType_WorldView =>
          let ms :=
            set_matrix nzMatrixType_WorldView
              (matrix (ms nzMatrixType_World)) ms in
          let ms :=
            set_matrix nzMatrixType_WorldView
              (ConcatenateAffine (matrix (ms nzMatrixType_WorldView))
                                 (matrix (ms nzMatrixType_View))) ms in
          set_updated nzMatrixType_WorldView true ms
      | nzMatrixType_WorldViewProj =>
          let ms :=
            if updated (ms nzMatrixType_WorldView) then ms
            else rec nzMatrixType_WorldView ms in
          let ms :=
            set_matrix nzMatrixType_WorldViewProj
              (matrix (ms nzMatrixType_WorldView)) ms in
          let ms :=
            set_matrix nzMatrixType_WorldViewProj
              (Concatenate (matrix (ms nzMatrixType_WorldViewProj))
                           (matrix (ms nzMatrixType_Projection))) ms in
          set_updated nzMatrixType_WorldViewProj true ms
      | nzMatrixType_InvProjection =>
          UpdateInverse rec nzMatrixType_Projection
            nzMatrixType_InvProjection ms
      | nzMatrixType_InvView =>
          UpdateInverse rec nzMatrixType_View nzMatrixType_InvView ms
      | nzMatrixType_InvViewProj =>
          UpdateInverse rec nzMatrixType_ViewProj nzMatrixType_InvViewProj ms
      | nzMatrixType_InvWorld =>
          UpdateInverse rec nzMatrixType_World nzMatrixType_InvWorld ms
      | nzMatrixType_InvWorldView =>
          UpdateInverse rec nzMatrixType_WorldView
            nzMatrixType_InvWorldView ms
      | nzMatrixType_InvWorldViewProj =>
          UpdateInverse rec nzMatrixType_WorldViewProj
            nzMatrixType_InvWorldViewProj ms
      end
  end.

Definition UpdateMatrix (type : nzMatrixType) (s : State) : State :=
  set_s_matrices (UpdateMatrix_rec 3 type (s_matrices s)) s.

(** [NzRenderer::GetMatrix]: the returned matrix and the state left. *)
Definition GetMatrix (type : nzMatrixType) (s : State) : Matrix * State :=
  let s := if updated (s_matrices s type) then s else UpdateMatrix type s in
  (matrix (s_matrices s type), s).

(** ** [ResourceListener::OnResourceReleased]

    The [while] loop walks one context's map and erases, through [it++],
    each entry whose key holds the released resource. *)
Definition erase_matching (test : N * N * N * N → bool)
    (vaos : gmap (N * N * N * N) N) : gmap (N * N * N * N) N :=
  foldl (λ m entry, if test entry.1 then delete entry.1 m else m)
    vaos (map_to_list vaos).

Definition released_test (type : ResourceType) (resource : ptr)
    (key : VAO_Key) : bool :=
  match type with
  | ResourceType_Context => false
  | ResourceType_IndexBuffer => bool_decide (key_indexBuffer key = resource)
  | ResourceType_VertexBuffer => bool_decide (key_vertexBuffer key = resource)
  | ResourceType_VertexDeclaration =>
      bool_decide (key_vertexDeclaration key = resource)
      || bool_decide (key_instancingDeclaration key = resource)
  end.

Definition OnResourceReleased (resource : ptr) (index : Z) (s : State)
    : State :=
  match ResourceType_of_index index with
  | Some ResourceType_Context => set_s_vaos (delete resource (s_vaos s)) s
  | Some type =>
      set_s_vaos (erase_matching (released_test type resource) <$> s_vaos s) s
  | None => s
  end.

(** ** [NzRenderer::EnsureStateUpdate] *)

Fixpoint for_each {A : Type} (body : A → State → State * list Call)
    (l : list A) (s : State) : State * list Call :=
  match l with
  | [] => (s, [])
  | x :: l =>
      let '(s, c1) := body x s in
      let '(s, c2) := for_each body l s in
      (s, c1 ++ c2)
  end.

Definition matrix_uniform (type : nzMatrixType) : nzShaderUniform :=
  match type with
  | nzMatrixType_Projection => nzShaderUniform_ProjMatrix
  | nzMatrixType_View => nzShaderUniform_ViewMatrix
  | nzMatrixType_World => nzShaderUniform_WorldMatrix
  | nzMatrixType_ViewProj => nzShaderUniform_ViewProjMatrix
  | nzMatrixType_WorldView => nzShaderUniform_WorldViewMatrix
  | nzMatrixType_WorldViewProj => nzShaderUniform_WorldViewProjMatrix
  | nzMatrixType_InvProjection => nzShaderUniform_InvProjMatrix
  | nzMatrixType_InvView => nzShaderUniform_InvViewMatrix
  | nzMatrixType_InvViewProj => nzShaderUniform_InvViewProjMatrix
  | nzMatrixType_InvWorld => nzShaderUniform_InvWorldMatrix
  | nzMatrixType_InvWorldView => nzShaderUniform_InvWorldViewMatrix
  | nzMatrixType_InvWorldViewProj => nzShaderUniform_InvWorldViewProjMatrix
  end.

(** Lines 1578-1600: the program changed since the last call. *)
Definition ResolveUniformLocations (W : World) (s : State)
    : State * list Call :=
  let program := s_program s in
  let ms :=
    foldl (λ ms t,
             set_location t
               (GetUniformLocation W program (matrix_uniform t)) ms)
      (s_matrices s) all_matrix_types in
  let s := set_s_matrices ms s in
  let s := set_s_targetSize (0%N, 0%N) s in
  let s := set_s_updateFlags (Z.lor (s_updateFlags s) Update_Matrices) s in
  let s :=
    set_s_updateFlags (Z.land (s_updateFlags s) (not32 Update_Program)) s in
  (s, (λ t, call_GetUniformLocation program (matrix_uniform t))
        <$> all_matrix_types).

(** Lines 1605-1619: the uniforms holding the target's size. *)
Definition SendTargetSize (W : World) (s : State) : State * list Call :=
  let targetSize := (GetWidth W (s_target s), GetHeight W (s_target s)) in
  if bool_decide (s_targetSize s ≠ targetSize) then
    let program := s_program s in
    let inv := GetUniformLocation W program nzShaderUniform_InvTargetSize in
    let size := GetUniformLocation W program nzShaderUniform_TargetSize in
    (set_s_targetSize targetSize s,
     [call_GetUniformLocation program nzShaderUniform_InvTargetSize]
     ++ (if bool_decide (inv ≠ (-1)%Z)
         then [call_SendInvTargetSize program inv targetSize] else [])
     ++ [call_GetUniformLocation program nzShaderUniform_TargetSize]
     ++ (if bool_decide (size ≠ (-1)%Z)
         then [call_SendTargetSize program size targetSize] else []))
  else (s, []).

(** Lines 1627-1647: one dirty unit, with sampler objects. *)
Definition UpdateTextureUnit_samplerObjects (i : N) (s : State)
    : State * list Call :=
  match s_textureUnits s !! N.to_nat i with
  | None => (s, [])
  | Some unit =>
      if bool_decide (texture unit ≠ nullptr) then
        let '(unit, c1) :=
          if textureUpdated unit then (unit, [])
          else
            ({| sampler := sampler unit; texture := texture unit;
                samplerUpdated := samplerUpdated unit;
                textureUpdated := true |},
             [call_BindTextureUnit i;
              call_EnsureMipmapsUpdate (texture unit)]) in
        let '(unit, c2) :=
          if samplerUpdated unit then (unit, [])
          else
            ({| sampler := sampler unit; texture := texture unit;
                samplerUpdated := true;
                textureUpdated := textureUpdated unit |},
             [call_SamplerBind (sampler unit) i]) in
        (set_s_textureUnits (<[N.to_nat i := unit]> (s_textureUnits s)) s,
         c1 ++ c2)
      else (s, [])
  end.

(** Lines 1651-1665: one dirty unit, without sampler objects. *)
Definition UpdateTextureUnit_fallback (i : N) (s : State)
    : State * list Call :=
  match s_textureUnits s !! N.to_nat i with
  | None => (s, [])
  | Some unit =>
      if bool_decide (texture unit ≠ nullptr) then
        (set_s_textureUnits
           (<[N.to_nat i :=
                {| sampler := sampler unit; texture := texture unit;
                   samplerUpdated := true; textureUpdated := true |}]>
              (s_textureUnits s)) s,
         [call_BindTextureUnit i;
          call_EnsureMipmapsUpdate (texture unit);
          call_SamplerApply (sampler unit) (texture unit)])
      else (s, [])
  end.

(** Lines 1623-1670 *)
Definition UpdateTextures (s : State) : State * list Call :=
  let body :=
    if s_useSamplerObjects s then UpdateTextureUnit_samplerObjects
    else UpdateTextureUnit_fallback in
  let '(s, c) :=
    for_each body (dirty_units_in_order (s_dirtyTextureUnits s)) s in
  let s := set_s_dirtyTextureUnits ∅ s in
  let s :=
    set_s_updateFlags (Z.land (s_updateFlags s) (not32 Update_Textures)) s in
  (s, c).

(** Lines 1676-1683: one slot of the loop over the matrices. *)
Definition SendMatrixUnit (type : nzMatrixType) (s : State)
    : State * list Call :=
  if bool_decide (location (s_matrices s type) ≠ (-1)%Z) then
    let s :=
      if updated (s_matrices s type) then s else UpdateMatrix type s in
    (s, [call_SendMatrix (s_program s) (location (s_matrices s type))
           (matrix (s_matrices s type))])
  else (s, []).

(** Lines 1672-1687 *)
Definition UpdateMatrices (s : State) : State * list Call :=
  let '(s, c) := for_each SendMatrixUnit all_matrix_types s in
  (set_s_updateFlags (Z.land (s_updateFlags s) (not32 Update_Matrices)) s, c).

(** Lines 1707-1746: the vertex array of [key] in the table of [context],
    created when the table has none.  The flag says whether it has to be
    programmed. *)
Definition FindOrCreateVAO (W : World) (context : ptr) (key : VAO_Key)
    (s : State) : State * bool * list Call :=
  let '(table, c1) :=
    match s_vaos s !! context with
    | Some _ => (s_vaos s, [])
    | None =>
        (<[context := ∅]> (s_vaos s),
         [call_AddResourceListener context ResourceType_Context])
    end in
  let vaos := default ∅ (table !! context) in
  match vaos !! key with
  | None =>
      let vao := glGenVertexArrays_name W in
      let s := set_s_currentVAO vao s in
      let s := set_s_vaos (<[context := <[key := vao]> vaos]> table) s in
      (s, true,
       c1 ++ [call_glGenVertexArrays vao; call_glBindVertexArray vao]
       ++ (if bool_decide (key_indexBuffer key ≠ nullptr)
           then [call_AddResourceListener (key_indexBuffer key)
                   ResourceType_IndexBuffer]
           else [])
       ++ [call_AddResourceListener (key_vertexBuffer key)
             ResourceType_VertexBuffer;
           call_AddResourceListener (key_vertexDeclaration key)
             ResourceType_VertexDeclaration]
       ++ (if bool_decide (key_instancingDeclaration key ≠ nullptr)
           then [call_AddResourceListener (key_instancingDeclaration key)
                   ResourceType_VertexDeclaration]
           else []))
  | Some vao =>
      (set_s_vaos table (set_s_currentVAO vao s), false, c1)
  end.

(** Lines 1768-1781 and 1797-1811: one attribute of a declaration. *)
Definition SetupAttribute (W : World) (perInstance : bool)
    (declaration : ptr) (stride bufferOffset : N) (i : N) : list Call :=
  let '(enabled, type, offset) := GetAttribute W declaration i in
  if enabled : bool then
    [call_glEnableVertexAttribArray (AttributeIndex W i);
     call_glVertexAttribPointer (AttributeIndex W i)
       (GetAttributeSize W type) (AttributeType W type)
       (bool_decide (type = nzAttributeType_Color W))
       stride (add32 bufferOffset offset)]
    ++ (if perInstance
        then [call_glVertexAttribDivisor (AttributeIndex W i) 1%N] else [])
  else [call_glDisableVertexAttribArray (AttributeIndex W i)].

(** Lines 1753-1828: programming the attributes and the index buffer. *)
Definition ProgramVertexArray (W : World) (s : State) : list Call :=
  let vertexBuffer := s_vertexBuffer s in
  let vertexDeclaration := GetVertexDeclaration W vertexBuffer in
  [call_glBindBuffer nzBufferType_Vertex (GetHardwareBufferID W vertexBuffer)]
  ++ concat
       (SetupAttribute W false vertexDeclaration
          (GetStride W vertexDeclaration) (GetStartOffset W vertexBuffer)
        <$> vertexDataUsages W)
  ++ (if s_instancing s then
        let instanceBuffer := s_instanceBuffer W in
        let instanceDeclaration := GetVertexDeclaration W instanceBuffer in
        [call_glBindBuffer nzBufferType_Vertex
           (GetHardwareBufferID W instanceBuffer)]
        ++ concat
             (SetupAttribute W true instanceDeclaration
                (GetStride W instanceDeclaration)
                (GetStartOffset W instanceBuffer)
              <$> instanceDataUsages W)
      else
        (λ i, call_glDisableVertexAttribArray (AttributeIndex W i))
          <$> instanceDataUsages W)
  ++ [call_glBindBuffer nzBufferType_Index
        (if bool_decide (s_indexBuffer s ≠ nullptr)
         then GetHardwareBufferID W (s_indexBuffer s) else 0%N)].

(** Lines 1699-1842, entered with a vertex buffer bound. *)
Definition UpdateVAO (W : World) (s : State) : State * list Call :=
  let '(s, update, c1) :=
    if s_useVertexArrayObjects s then
      let vertexDeclaration := GetVertexDeclaration W (s_vertexBuffer s) in
      let instancingDeclaration :=
        if s_instancing s then s_instancingDeclaration s else nullptr in
      FindOrCreateVAO W (NzContext_GetCurrent W)
        (s_indexBuffer s, s_vertexBuffer s, vertexDeclaration,
         instancingDeclaration) s
    else (s, true, []) in
  let c2 := if update : bool then ProgramVertexArray W s else [] in
  let '(s, c3) :=
    if s_useVertexArrayObjects s then
      (set_s_updateFlags (Z.land (s_updateFlags s) (not32 Update_VAO)) s,
       if update then [call_glBindVertexArray 0%N] else [])
    else (s, []) in
  (s, c1 ++ c2 ++ c3
      ++ [call_SetBuffer nzBufferType_Index 0%N;
          call_SetBuffer nzBufferType_Vertex 0%N]).

(** Lines 1851-1866: what every successful call ends with. *)
Definition BindCurrentState (W : World) (s : State) : list Call :=
  (if s_useVertexArrayObjects s
   then [call_glBindVertexArray (s_currentVAO s)] else [])
  ++ concat
       ((λ i : nat,
           match s_textureUnits s !! i with
           | Some unit =>
               if bool_decide (texture unit ≠ nullptr) then
                 [call_BindTexture (N.of_nat i) (GetType W (texture unit))
                    (GetOpenGLID W (texture unit))]
               else []
           | None => []
           end)
        <$> seq 0 (N.to_nat (s_maxTextureUnit s)))
  ++ [call_ApplyStates (s_states s)].

Definition has_flag (flags flag : Z) : bool :=
  bool_decide (Z.land flags flag ≠ 0%Z).

(** The result, the state left and the calls made, in order. *)
Definition EnsureStateUpdate (W : World) (s : State)
    : bool * State * list Call :=
  if bool_decide (NzContext_GetCurrent W = nullptr) then (false, s, [])
  else if bool_decide (s_program s = nullptr) then (false, s, [])
  else if bool_decide (s_target s = nullptr) then (false, s, [])
  else
    let c0 :=
      [call_EnsureTargetUpdated (s_target s);
       call_ProgramBind (s_program s)] in
    let '(s, c1) :=
      if has_flag (s_updateFlags s) Update_Program
      then ResolveUniformLocations W s else (s, []) in
    let c2 := [call_BindTextures (s_program s)] in
    let '(s, c3) := SendTargetSize W s in
    let before := c0 ++ c1 ++ c2 ++ c3 in
    if bool_decide (s_updateFlags s ≠ Update_None) then
      let '(s, c4) :=
        if has_flag (s_updateFlags s) Update_Textures
        then UpdateTextures s else (s, []) in
      let '(s, c5) :=
        if has_flag (s_updateFlags s) Update_Matrices
        then UpdateMatrices s else (s, []) in
      if has_flag (s_updateFlags s) Update_VAO then
        if bool_decide (s_vertexBuffer s = nullptr) then
          (false, s, before ++ c4 ++ c5)
        else
          let '(s, c6) := UpdateVAO W s in
          (true, s, before ++ c4 ++ c5 ++ c6 ++ BindCurrentState W s)
      else (true, s, before ++ c4 ++ c5 ++ BindCurrentState W s)
    else (true, s, before ++ BindCurrentState W s).

(** ** Notions used to state the properties *)

(** Everything but the texture units and the matrix slots. *)
Definition frame (s : State) :=
  (s_vaos s, s_dirtyTextureUnits s, s_currentVAO s, s_states s,
   s_targetSize s, s_updateFlags s, s_indexBuffer s, s_target s, s_program s,
   s_vertexBuffer s, s_instancingDeclaration s, s_instancing s,
   s_useSamplerObjects s, s_useVertexArrayObjects s, s_maxTextureUnit s).

(** What [EnsureStateUpdate] never assigns. *)
Definition bindings (s : State) :=
  (s_states s, s_indexBuffer s, s_target s, s_program s, s_vertexBuffer s,
   s_instancingDeclaration s, s_instancing s, s_useSamplerObjects s,
   s_useVertexArrayObjects s, s_maxTextureUnit s).

(** [NzVector2ui(s_target->GetWidth(), s_target->GetHeight())] *)
Definition target_size (W : World) (s : State) : N * N :=
  (GetWidth W (s_target s), GetHeight W (s_target s)).

(** The update flags after each conditional block of
    [EnsureStateUpdate]. *)
Definition after_program (f : Z) : Z :=
  if has_flag f Update_Program
  then Z.land (Z.lor f Update_Matrices) (not32 Update_Program) else f.

Definition after_textures (f : Z) : Z :=
  if has_flag f Update_Textures then Z.land f (not32 Update_Textures) else f.

Definition after_matrices (f : Z) : Z :=
  if has_flag f Update_Matrices then Z.land f (not32 Update_Matrices) else f.

(** The calls every successful [EnsureStateUpdate] makes, whatever is
    dirty: the target is brought up to date, the program bound, its
    textures bound, then the current vertex array, the texture of each
    unit that has one, and the render states. *)
Definition unconditional_calls (W : World) (s : State) : list Call :=
  [ call_EnsureTargetUpdated (s_target s); call_ProgramBind (s_program s);
    call_BindTextures (s_program s) ]
  ++ BindCurrentState W s.

(** The states the renderer can be in: [Initialize], then any sequence of
    the functions above. *)
Inductive reachable (W : World) : State → Prop :=
| reachable_Initialize useSamplerObjects useVertexArrayObjects max states :
    reachable W
      (Initialize useSamplerObjects useVertexArrayObjects max states)
| reachable_EnableInstancing instancing s :
    reachable W s → reachable W (EnableInstancing instancing s)
| reachable_SetIndexBuffer indexBuffer s :
    reachable W s → reachable W (SetIndexBuffer W indexBuffer s)
| reachable_SetVertexBuffer vertexBuffer s :
    reachable W s → reachable W (SetVertexBuffer W vertexBuffer s)
| reachable_SetShaderProgram program s :
    reachable W s → reachable W (SetShaderProgram W program s)
| reachable_SetTarget target s :
    reachable W s → reachable W (SetTarget W target s).1.2
| reachable_SetMatrix type m s :
    reachable W s → reachable W (SetMatrix type m s)
| reachable_GetMatrix type s :
    reachable W s → reachable W (GetMatrix type s).2
| reachable_SetTexture unit tex s :
    reachable W s → reachable W (SetTexture W unit tex s)
| reachable_SetTextureSampler unit smp s :
    reachable W s → reachable W (SetTextureSampler W unit smp s)
| reachable_OnResourceReleased resource index s :
    reachable W s → reachable W (OnResourceReleased resource index s)
| reachable_EnsureStateUpdate s :
    reachable W s → reachable W (EnsureStateUpdate W s).1.2.

End Renderer.

(** ** The dependency graph of the matrix slots

    The slots whose matrix [UpdateMatrix] reads when it recomputes a
    slot. *)
Definition UpdateMatrix_reads (type : nzMatrixType) : list nzMatrixType :=
  match type with
  | nzMatrixType_Projection | nzMatrixType_View | nzMatrixType_World => []
  | nzMatrixType_ViewProj => [ nzMatrixType_View; nzMatrixType_Projection ]
  | nzMatrixType_WorldView => [ nzMatrixType_World; nzMatrixType_View ]
  | nzMatrixType_WorldViewProj =>
      [ nzMatrixType_WorldView; nzMatrixType_Projection ]
  | nzMatrixType_InvProjection => [ nzMatrixType_Projection ]
  | nzMatrixType_InvView => [ nzMatrixType_View ]
  | nzMatrixType_InvViewProj => [ nzMatrixType_ViewProj ]
  | nzMatrixType_InvWorld => [ nzMatrixType_World ]
  | nzMatrixType_InvWorldView => [ nzMatrixType_WorldView ]
  | nzMatrixType_InvWorldViewProj => [ nzMatrixType_WorldViewProj ]
  end.

(** [depends_on derived base]: [base] is reached from [derived] through
    one to three reads, three being the longest chain of the graph. *)
Fixpoint depends_on_within (steps : nat) (derived base : nzMatrixType) : bool :=
  match steps with
  | O => false
  | S steps =>
      existsb
        (λ read,
           bool_decide (read = base) || depends_on_within steps read base)
        (UpdateMatrix_reads derived)
  end.

Definition depends_on (derived base : nzMatrixType) : bool :=
  depends_on_within 3 derived base.

(** The update flags only ever hold the four [Update_...] bits. *)
Definition flags_wf (flags : Z) : Prop := (0 ≤ flags ≤ 15)%Z.

(** A key whose four positions hold what their C++ types say: a resource of
    the position's kind, or no resource where the source allows
    [nullptr]. *)
Definition key_typed (kind : ptr → option ResourceType) (key : VAO_Key)
    : Prop :=
  (key_indexBuffer key = nullptr
   ∨ kind (key_indexBuffer key) = Some ResourceType_IndexBuffer)
  ∧ kind (key_vertexBuffer key) = Some ResourceType_VertexBuffer
  ∧ kind (key_vertexDeclaration key) = Some ResourceType_VertexDeclaration
  ∧ (key_instancingDeclaration key = nullptr
     ∨ kind (key_instancingDeclaration key)
       = Some ResourceType_VertexDeclaration).

(** The key holds the resource, in whichever position. *)
Definition key_contains (resource : ptr) (key : VAO_Key) : bool :=
  bool_decide
    (resource ∈ [ key_indexBuffer key; key_vertexBuffer key;
                  key_vertexDeclaration key; key_instancingDeclaration key ]).

(** The vertex array cached for [key] in the table of [context]. *)
Definition cached_vao {Matrix Sampler RenderStates : Type}
    (s : State Matrix Sampler RenderStates) (context : ptr) (key : VAO_Key)
    : option N :=
  s_vaos s !! context ≫= λ vaos, vaos !! key.

(** A sequence of look-ups, each in its own context, for its own key and
    with its own answer from [glGenVertexArrays]. *)
Definition lookups {Matrix Sampler RenderStates : Type}
    (l : list (World * ptr * (N * N * N * N)))
    (s : State Matrix Sampler RenderStates)
    : State Matrix Sampler RenderStates :=
  foldl (λ s r, (FindOrCreateVAO r.1.1 r.1.2 r.2 s).1.1) s l.

End Renderer.

Module DeferredRenderQueue.

(** ** Enumerations *)

Inductive ResourceType :=
| ResourceType_Material
| ResourceType_SkeletalMesh
| ResourceType_StaticMesh.

Definition index_of_ResourceType (t : ResourceType) : Z :=
  match t with
  | ResourceType_Material => 0%Z
  | ResourceType_SkeletalMesh => 1%Z
  | ResourceType_StaticMesh => 2%Z
  end.

Definition ResourceType_of_index (index : Z) : option ResourceType :=
  if decide (index = 0%Z) then Some ResourceType_Material
  else if decide (index = 1%Z) then Some ResourceType_SkeletalMesh
  else if decide (index = 2%Z) then Some ResourceType_StaticMesh
  else None.

Inductive nzLightType :=
| nzLightType_Directional
| nzLightType_Point
| nzLightType_Spot.

Inductive nzAnimationType :=
| nzAnimationType_Skeletal
| nzAnimationType_Static.

(** ** What the queue reads from the objects submitted to it *)

Record Scene := {
  (** [light->GetLightType()] *)
  GetLightType : ptr → nzLightType;
  (** [subMesh->GetAnimationType()] *)
  GetAnimationType : ptr → nzAnimationType;
  (** [material->IsEnabled(nzRendererParameter_Blend)] *)
  IsBlendEnabled : ptr → bool;
  (** [sprite->GetMaterial()] *)
  GetMaterial : ptr → ptr;
  (** [sprite->IsDrawable()] *)
  IsDrawable : ptr → bool;
  (** [material->GetShaderProgram(nzShaderTarget_Model, flags)] *)
  GetShaderProgram : ptr → Z → ptr;
  (** [material->GetDiffuseMap()] *)
  GetDiffuseMap : ptr → ptr;
  (** [subMesh->GetIndexBuffer()], [subMesh->GetVertexBuffer()] *)
  GetIndexBuffer : ptr → ptr;
  GetVertexBuffer : ptr → ptr;
  (** [indexBuffer->GetBuffer()], [vertexBuffer->GetBuffer()] *)
  GetBuffer : ptr → ptr;
  (** enumerators and the configuration macro, from headers outside this
      file *)
  nzShaderFlags_Deferred : Z;
  nzShaderFlags_Instancing : Z;
  NAZARA_GRAPHICS_INSTANCING_MIN_INSTANCES_COUNT : N
}.

(** ** The queue *)

(** The mapped type of [BatchedModelContainer]:
    [std::tuple<bool, bool, BatchedSkeletalMeshContainer,
    BatchedStaticMeshContainer>].  The maps are ordered by the comparators
    below, which end on the addresses: two keys are equivalent exactly when
    they are the same pointer. *)
Record BatchedModel (Matrix SkeletalData : Type) := {
  used : bool;
  enableInstancing : bool;
  skeletalMeshes : gmap N (list SkeletalData);
  staticMeshes : gmap N (list Matrix)
}.
Arguments used {_ _} _.
Arguments enableInstancing {_ _} _.
Arguments skeletalMeshes {_ _} _.
Arguments staticMeshes {_ _} _.

(** Calls received by the companion [NzForwardRenderQueue]. *)
Inductive ForwardCall (Matrix : Type) :=
| forward_AddLight (light : ptr)
| forward_AddSprite (sprite : ptr)
| forward_AddSubMesh (material subMesh : ptr) (transformMatrix : Matrix)
| forward_Clear (fully : bool).
Arguments forward_AddLight {_} _.
Arguments forward_AddSprite {_} _.
Arguments forward_AddSubMesh {_} _ _ _.
Arguments forward_Clear {_} _.

Record Queue (Matrix SkeletalData : Type) := {
  directionalLights : list ptr;
  pointLights : list ptr;
  spotLights : list ptr;
  opaqueModels : gmap N (BatchedModel Matrix SkeletalData);
  sprites : gmap N (list ptr);
  (** what [m_forwardQueue] has been asked, oldest first *)
  m_forwardQueue : list (ForwardCall Matrix);
  (** Modelled from the spec: the listener lists of the resources
      ([NzResource] is outside this file), restricted to this queue.  A
      resource is a key while the queue is registered on it; the value is
      the tag given at registration. *)
  listeners : gmap N Z
}.
Arguments directionalLights {_ _} _.
Arguments pointLights {_ _} _.
Arguments spotLights {_ _} _.
Arguments opaqueModels {_ _} _.
Arguments sprites {_ _} _.
Arguments m_forwardQueue {_ _} _.
Arguments listeners {_ _} _.

Section Queue.
Context {Matrix SkeletalData : Type}.

Abbreviation Queue := (Queue Matrix SkeletalData).
Abbreviation BatchedModel := (BatchedModel Matrix SkeletalData).

(** A default-initialised queue. *)
Definition empty_queue : Queue :=
  {| directionalLights := []; pointLights := []; spotLights := [];
     opaqueModels := ∅; sprites := ∅; m_forwardQueue := [];
     listeners := ∅ |}.

Definition set_lights (d p sp : list ptr) (q : Queue) : Queue :=
  {| directionalLights := d; pointLights := p; spotLights := sp;
     opaqueModels := opaqueModels q; sprites := sprites q;
     m_forwardQueue := m_forwardQueue q; listeners := listeners q |}.

Definition set_opaqueModels (m : gmap N BatchedModel) (q : Queue) : Queue :=
  {| directionalLights := directionalLights q; pointLights := pointLights q;
     spotLights := spotLights q; opaqueModels := m; sprites := sprites q;
     m_forwardQueue := m_forwardQueue q; listeners := listeners q |}.

Definition set_sprites (m : gmap N (list ptr)) (q : Queue) : Queue :=
  {| directionalLights := directionalLights q; pointLights := pointLights q;
     spotLights := spotLights q; opaqueModels := opaqueModels q; sprites := m;
     m_forwardQueue := m_forwardQueue q; listeners := listeners q |}.

Definition set_listeners (m : gmap N Z) (q : Queue) : Queue :=
  {| directionalLights := directionalLights q; pointLights := pointLights q;
     spotLights := spotLights q; opaqueModels := opaqueModels q;
     sprites := sprites q; m_forwardQueue := m_forwardQueue q;
     listeners := m |}.

(** A call on [m_forwardQueue]. *)
Definition forward (c : ForwardCall Matrix) (q : Queue) : Queue :=
  {| directionalLights := directionalLights q; pointLights := pointLights q;
     spotLights := spotLights q; opaqueModels := opaqueModels q;
     sprites := sprites q; m_forwardQueue := m_forwardQueue q ++ [c];
     listeners := listeners q |}.

(** Modelled from the spec: [resource->AddResourceListener(this, index)]
    registers the queue on the resource, with a type tag. *)
Definition AddResourceListener (resource : ptr) (index : ResourceType)
    (q : Queue) : Queue :=
  set_listeners (<[resource := index_of_ResourceType index]> (listeners q)) q.

(** Modelled from the spec: [resource->RemoveResourceListener(this)]
    deregisters the queue. *)
Definition RemoveResourceListener (resource : ptr) (q : Queue) : Queue :=
  set_listeners (delete resource (listeners q)) q.

(** [NzDeferredRenderQueue::AddLight] *)
Definition AddLight (S : Scene) (light : ptr) (q : Queue) : Queue :=
  if bool_decide (light = nullptr) then q
  else
    let q :=
      match GetLightType S light with
      | nzLightType_Directional =>
          set_lights (directionalLights q ++ [light]) (pointLights q)
            (spotLights q) q
      | nzLightType_Point =>
          set_lights (directionalLights q) (pointLights q ++ [light])
            (spotLights q) q
      | nzLightType_Spot =>
          set_lights (directionalLights q) (pointLights q)
            (spotLights q ++ [light]) q
      end in
    forward (forward_AddLight light) q.

(** [NzDeferredRenderQueue::AddSprite] *)
Definition AddSprite (S : Scene) (sprite : ptr) (q : Queue) : Queue :=
  if bool_decide (sprite = nullptr) then q
  else if negb (IsDrawable S sprite) then q
  else
    let material := GetMaterial S sprite in
    if IsBlendEnabled S material then forward (forward_AddSprite sprite) q
    else
      set_sprites
        (<[material := default [] (sprites q !! material) ++ [sprite]]>
           (sprites q)) q.

(** [BatchedModelContainer::mapped_type()] *)
Definition new_BatchedModel : BatchedModel :=
  {| used := false; enableInstancing := false;
     skeletalMeshes := ∅; staticMeshes := ∅ |}.

(** [staticDataContainer.resize(instanceCount)] followed by the assignment
    to [back().transformMatrix].  [instanceCount] is at most the size plus
    one, so [resize] keeps the first [instanceCount - 1] elements and the
    last one is the element assigned; with [instanceCount = 0] the vector
    is emptied and [back()] has no element to return. *)
Definition resize_and_assign_back (instanceCount : N)
    (transformMatrix : Matrix) (data : list Matrix) : list Matrix :=
  if bool_decide (instanceCount = 0%N) then []
  else take (N.to_nat (instanceCount - 1)) data ++ [transformMatrix].

(** [NzDeferredRenderQueue::AddSubMesh] *)
Definition AddSubMesh (S : Scene) (material subMesh : ptr)
    (transformMatrix : Matrix) (q : Queue) : Queue :=
  match GetAnimationType S subMesh with
  | nzAnimationType_Skeletal => q
  | nzAnimationType_Static =>
      if IsBlendEnabled S material then
        forward (forward_AddSubMesh material subMesh transformMatrix) q
      else
        let staticMesh := subMesh in
        let '(entry, q) :=
          match opaqueModels q !! material with
          | Some entry => (entry, q)
          | None =>
              (new_BatchedModel,
               AddResourceListener material ResourceType_Material q)
          end in
        let meshMap := staticMeshes entry in
        let '(staticDataContainer, q) :=
          match meshMap !! staticMesh with
          | Some data => (data, q)
          | None =>
              ([], AddResourceListener staticMesh ResourceType_StaticMesh q)
          end in
        let instanceCount :=
          ((N.of_nat (length staticDataContainer) + 1) `mod` 2 ^ 32)%N in
        let enable :=
          if bool_decide
               (NAZARA_GRAPHICS_INSTANCING_MIN_INSTANCES_COUNT S
                ≤ instanceCount)%N
          then true else enableInstancing entry in
        let staticDataContainer :=
          resize_and_assign_back instanceCount transformMatrix
            staticDataContainer in
        set_opaqueModels
          (<[material :=
               {| used := true; enableInstancing := enable;
                  skeletalMeshes := skeletalMeshes entry;
                  staticMeshes :=
                    <[staticMesh := staticDataContainer]> meshMap |}]>
             (opaqueModels q)) q
  end.

(** The loops of [Clear(true)] over the materials and their meshes. *)
Definition remove_all_listeners (q : Queue) : Queue :=
  foldl
    (λ q matIt,
       let q := RemoveResourceListener matIt.1 q in
       let q :=
         foldl (λ q meshIt, RemoveResourceListener meshIt.1 q) q
           (map_to_list (skeletalMeshes matIt.2)) in
       foldl (λ q meshIt, RemoveResourceListener meshIt.1 q) q
         (map_to_list (staticMeshes matIt.2)))
    q (map_to_list (opaqueModels q)).

(** [NzDeferredRenderQueue::Clear] *)
Definition Clear (fully : bool) (q : Queue) : Queue :=
  let q := set_lights [] [] [] q in
  let q :=
    if fully then
      set_sprites ∅ (set_opaqueModels ∅ (remove_all_listeners q))
    else q in
  forward (forward_Clear fully) q.

(** [NzDeferredRenderQueue::OnResourceDestroy]; the result is the answer
    to "keep listening?". *)
Definition OnResourceDestroy (resource : ptr) (index : Z) (q : Queue)
    : bool * Queue :=
  (false,
   match ResourceType_of_index index with
   | Some ResourceType_Material =>
       set_opaqueModels (delete resource (opaqueModels q)) q
   | Some ResourceType_SkeletalMesh =>
       set_opaqueModels
         ((λ e, {| used := used e; enableInstancing := enableInstancing e;
                   skeletalMeshes := delete resource (skeletalMeshes e);
                   staticMeshes := staticMeshes e |}) <$> opaqueModels q) q
   | Some ResourceType_StaticMesh =>
       set_opaqueModels
         ((λ e, {| used := used e; enableInstancing := enableInstancing e;
                   skeletalMeshes := skeletalMeshes e;
                   staticMeshes := delete resource (staticMeshes e) |})
            <$> opaqueModels q) q
   | None => q
   end).

(** [NzDeferredRenderQueue::OnResourceReleased] *)
Definition OnResourceReleased (resource : ptr) (index : Z) (q : Queue)
    : Queue :=
  (OnResourceDestroy resource index q).2.

(** Modelled from the spec: the destruction of a resource.  A registered
    listener is invoked synchronously with the tag of its registration;
    the resource and its listener list are gone afterwards. *)
Definition destroy_resource (resource : ptr) (q : Queue) : Queue :=
  match listeners q !! resource with
  | Some index =>
      set_listeners (delete resource (listeners q))
        (OnResourceReleased resource index q)
  | None => q
  end.

(** Whether the destruction of [resource] would call the queue back. *)
Definition callback_fires (resource : ptr) (q : Queue) : bool :=
  bool_decide (is_Some (listeners q !! resource)).

End Queue.

(** ** The ordering comparators *)

(** The loop of the material comparators over [possibleFlags]: the
    decision of the first flag under which the programs differ. *)
Fixpoint compare_programs (S : Scene) (possibleFlags : list Z)
    (mat1 mat2 : ptr) : option bool :=
  match possibleFlags with
  | [] => None
  | flag :: possibleFlags =>
      let program1 := GetShaderProgram S mat1 flag in
      let program2 := GetShaderProgram S mat2 flag in
      if bool_decide (program1 ≠ program2)
      then Some (bool_decide (program1 < program2)%N)
      else compare_programs S possibleFlags mat1 mat2
  end.

(** [BatchedModelMaterialComparator::operator()] *)
Definition BatchedModelMaterialComparator (S : Scene) (mat1 mat2 : ptr)
    : bool :=
  let possibleFlags :=
    [ nzShaderFlags_Deferred S;
      Z.lor (nzShaderFlags_Deferred S) (nzShaderFlags_Instancing S) ] in
  match compare_programs S possibleFlags mat1 mat2 with
  | Some decision => decision
  | None =>
      let diffuseMap1 := GetDiffuseMap S mat1 in
      let diffuseMap2 := GetDiffuseMap S mat2 in
      if bool_decide (diffuseMap1 ≠ diffuseMap2)
      then bool_decide (diffuseMap1 < diffuseMap2)%N
      else bool_decide (mat1 < mat2)%N
  end.

(** [BatchedSkeletalMeshComparator::operator()] *)
Definition BatchedSkeletalMeshComparator (S : Scene) (subMesh1 subMesh2 : ptr)
    : bool :=
  let iBuffer1 := GetIndexBuffer S subMesh1 in
  let buffer1 :=
    if bool_decide (iBuffer1 ≠ nullptr) then GetBuffer S iBuffer1
    else nullptr in
  let iBuffer2 := GetIndexBuffer S subMesh1 in
  let buffer2 :=
    if bool_decide (iBuffer2 ≠ nullptr) then GetBuffer S iBuffer2
    else nullptr in
  if bool_decide (buffer1 = buffer2) then bool_decide (subMesh1 < subMesh2)%N
  else bool_decide (buffer2 < buffer2)%N.

(** [BatchedStaticMeshComparator::operator()] *)
Definition BatchedStaticMeshComparator (S : Scene) (subMesh1 subMesh2 : ptr)
    : bool :=
  let iBuffer1 := GetIndexBuffer S subMesh1 in
  let buffer1 :=
    if bool_decide (iBuffer1 ≠ nullptr) then GetBuffer S iBuffer1
    else nullptr in
  let iBuffer2 := GetIndexBuffer S subMesh2 in
  let buffer2 :=
    if bool_decide (iBuffer2 ≠ nullptr) then GetBuffer S iBuffer2
    else nullptr in
  if bool_decide (buffer1 = buffer2) then
    let buffer1 := GetBuffer S (GetVertexBuffer S subMesh1) in
    let buffer2 := GetBuffer S (GetVertexBuffer S subMesh2) in
    if bool_decide (buffer1 = buffer2)
    then bool_decide (subMesh1 < subMesh2)%N
    else bool_decide (buffer1 < buffer2)%N
  else bool_decide (buffer1 < buffer2)%N.

(** The mesh order as the specification words it: the storage of the index
    buffers (none when a submesh has no index buffer), then the storage of
    the vertex buffers, then the submeshes themselves, each stage comparing
    what belongs to the first submesh with what belongs to the second; the
    first stage that differs decides. *)
Definition index_storage (S : Scene) (subMesh : ptr) : ptr :=
  if bool_decide (GetIndexBuffer S subMesh ≠ nullptr)
  then GetBuffer S (GetIndexBuffer S subMesh) else nullptr.

Definition vertex_storage (S : Scene) (subMesh : ptr) : ptr :=
  GetBuffer S (GetVertexBuffer S subMesh).

Definition three_stage_mesh_order_spec (S : Scene) (subMesh1 subMesh2 : ptr)
    : bool :=
  if bool_decide (index_storage S subMesh1 ≠ index_storage S subMesh2) then
    bool_decide (index_storage S subMesh1 < index_storage S subMesh2)%N
  else if bool_decide (vertex_storage S subMesh1 ≠ vertex_storage S subMesh2)
  then bool_decide (vertex_storage S subMesh1 < vertex_storage S subMesh2)%N
  else bool_decide (subMesh1 < subMesh2)%N.

(** ** Notions used to state the properties *)

(** The order the material comparator implements: the lexicographic order
    on the program under the deferred flag, the program under the deferred
    and instancing flags, the diffuse map and the material's address. *)
Definition material_lt (S : Scene) (mat1 mat2 : ptr) : Prop :=
  let deferred := nzShaderFlags_Deferred S in
  let instanced :=
    Z.lor (nzShaderFlags_Deferred S) (nzShaderFlags_Instancing S) in
  let p1 := GetShaderProgram S mat1 deferred in
  let p2 := GetShaderProgram S mat2 deferred in
  let i1 := GetShaderProgram S mat1 instanced in
  let i2 := GetShaderProgram S mat2 instanced in
  let d1 := GetDiffuseMap S mat1 in
  let d2 := GetDiffuseMap S mat2 in
  (p1 < p2
   ∨ p1 = p2 ∧ (i1 < i2 ∨ i1 = i2 ∧ (d1 < d2 ∨ d1 = d2 ∧ mat1 < mat2)))%N.

(** Submitting one submesh with one material, once per transform. *)
Definition submit_all {Matrix SkeletalData : Type} (S : Scene)
    (material subMesh : ptr) (transforms : list Matrix)
    (q : Queue Matrix SkeletalData) : Queue Matrix SkeletalData :=
  foldl (λ q t, AddSubMesh S material subMesh t q) q transforms.

(** The batch of a material all of whose submissions were of one static
    submesh. *)
Definition batch_of {Matrix SkeletalData : Type} (S : Scene) (subMesh : ptr)
    (transforms : list Matrix) : BatchedModel Matrix SkeletalData :=
  {| used := true;
     enableInstancing :=
       bool_decide (NAZARA_GRAPHICS_INSTANCING_MIN_INSTANCES_COUNT S
                    ≤ N.of_nat (length transforms))%N;
     skeletalMeshes := ∅;
     staticMeshes := {[ subMesh := transforms ]} |}.

(** The resources [Clear(true)] deregisters for one entry of
    [opaqueModels]. *)
Definition resources_of {Matrix SkeletalData : Type}
    (matIt : N * BatchedModel Matrix SkeletalData) : list ptr :=
  matIt.1 :: (map_to_list (skeletalMeshes matIt.2)).*1
          ++ (map_to_list (staticMeshes matIt.2)).*1.

End DeferredRenderQueue.

(** * Concrete instances, for evaluating the model *)

Module Examples.
Import Renderer.

(** Matrices as the terms that compute them. *)
Inductive SymMatrix :=
| Sym_Identity
| Sym_Var (name : N)
| Sym_Multiply (a b : SymMatrix)
| Sym_ConcatenateAffine (a b : SymMatrix)
| Sym_Concatenate (a b : SymMatrix)
| Sym_Inverse (a : SymMatrix).

#[global] Instance SymMatrix_ops : NzMatrix4 SymMatrix :=
  {| MakeIdentity := Sym_Identity;
     Multiply := Sym_Multiply;
     ConcatenateAffine := Sym_ConcatenateAffine;
     Concatenate := Sym_Concatenate;
     GetInverse := λ src _, (true, Sym_Inverse src) |}.

(** A sampler reduced to its mipmap switch. *)
#[global] Instance bool_sampler : NzTextureSamplerOps bool :=
  {| DefaultSampler := false;
     UseMipmaps := λ smp mipmaps, (bool_decide (smp ≠ mipmaps), mipmaps) |}.

Abbreviation ExState := (State SymMatrix bool unit).

(** A world with an active context (address 1), in which every buffer is
    in GPU memory, every program is compiled and has the uniforms
    WorldMatrix (location 0) and WorldViewProjMatrix (location 1), every
    target is 800 by 600 and can be activated, and a declaration has one
    vertex attribute. *)
Definition world : World :=
  {| NzContext_GetCurrent := 1%N;
     IsHardware := λ _, true;
     IsCompiled := λ _, true;
     GetUniformLocation := λ _ u,
       match u with
       | nzShaderUniform_WorldMatrix => 0%Z
       | nzShaderUniform_WorldViewProjMatrix => 1%Z
       | _ => (-1)%Z
       end;
     GetWidth := λ _, 800%N;
     GetHeight := λ _, 600%N;
     HasContext := λ _, true;
     IsRenderable := λ _, true;
     Activate := λ _, true;
     HasMipmaps := λ _, true;
     GetType := λ _, 1%N;
     GetOpenGLID := λ t, (t + 100)%N;
     GetVertexDeclaration := λ _, 40%N;
     GetStartOffset := λ _, 0%N;
     GetStride := λ _, 12%N;
     GetAttribute := λ _ usage, (bool_decide (usage = 0%N), 2%N, 0%N);
     GetHardwareBufferID := λ b, (b + 200)%N;
     glGenVertexArrays_name := 7%N;
     s_instanceBuffer := 50%N;
     vertexDataUsages := [0%N; 1%N];
     instanceDataUsages := [2%N];
     AttributeIndex := λ i, i;
     AttributeType := λ t, t;
     GetAttributeSize := λ _, 3%N;
     nzAttributeType_Color := 0%N |}.

(** After [Initialize], a program (address 10) and a target (address 20)
    are bound; no vertex buffer is. *)
Definition bound_program_and_target (useVertexArrayObjects : bool) : ExState :=
  (SetTarget world 20%N
     (SetShaderProgram world 10%N
        (Initialize true useVertexArrayObjects 2%N tt))).1.2.

(** The same, with a vertex buffer (address 30) and a texture (address 60)
    on unit 0. *)
Definition ready_to_draw (useVertexArrayObjects : bool) : ExState :=
  SetTexture world 0%N 60%N
    (SetVertexBuffer world 30%N
       (bound_program_and_target useVertexArrayObjects)).

(** A texture on unit 0, a program and a target, and no vertex buffer. *)
Definition textured_without_vertex_buffer : ExState :=
  SetTexture world 0%N 60%N (bound_program_and_target true).

(** The world matrix is set and the WorldView product is read, so that the
    product is cached and current. *)
Definition world_view_cached : ExState :=
  (GetMatrix nzMatrixType_WorldView
     (SetMatrix nzMatrixType_World (Sym_Var 1%N)
        (Initialize true true 2%N tt))).2.

(** Addresses 1 to 4 are an index buffer, a vertex buffer and two
    declarations. *)
Definition kind_of (p : ptr) : option ResourceType :=
  if bool_decide (p = 1%N) then Some ResourceType_IndexBuffer
  else if bool_decide (p = 2%N) then Some ResourceType_VertexBuffer
  else if bool_decide (p = 3%N) then Some ResourceType_VertexDeclaration
  else if bool_decide (p = 4%N) then Some ResourceType_VertexDeclaration
  else None.

(** The world of [world], in which [glGenVertexArrays] answers [name]. *)
Definition world_naming (name : N) : World :=
  {| NzContext_GetCurrent := NzContext_GetCurrent world;
     IsHardware := IsHardware world;
     IsCompiled := IsCompiled world;
     GetUniformLocation := GetUniformLocation world;
     GetWidth := GetWidth world;
     GetHeight := GetHeight world;
     HasContext := HasContext world;
     IsRenderable := IsRenderable world;
     Activate := Activate world;
     HasMipmaps := HasMipmaps world;
     GetType := GetType world;
     GetOpenGLID := GetOpenGLID world;
     GetVertexDeclaration := GetVertexDeclaration world;
     GetStartOffset := GetStartOffset world;
     GetStride := GetStride world;
     GetAttribute := GetAttribute world;
     GetHardwareBufferID := GetHardwareBufferID world;
     glGenVertexArrays_name := name;
     s_instanceBuffer := s_instanceBuffer world;
     vertexDataUsages := vertexDataUsages world;
     instanceDataUsages := instanceDataUsages world;
     AttributeIndex := AttributeIndex world;
     AttributeType := AttributeType world;
     GetAttributeSize := GetAttributeSize world;
     nzAttributeType_Color := nzAttributeType_Color world |}.

Import DeferredRenderQueue.

Abbreviation ExQueue := (Queue SymMatrix unit).

(** Every submesh is static.  Submesh 1 has its indices in buffer 20 and
    submesh 2 in buffer 10; submeshes 3 and 4 share the index storage 30
    and have their vertices in buffers 50 and 40.  Material 5 is opaque,
    material 6 blends.  Instancing starts at three instances. *)
Definition scene : Scene :=
  {| GetLightType := λ _, nzLightType_Point;
     GetAnimationType := λ _, nzAnimationType_Static;
     IsBlendEnabled := λ material, bool_decide (material = 6%N);
     GetMaterial := λ _, 5%N;
     IsDrawable := λ _, true;
     GetShaderProgram := λ material _, (material `mod` 2)%N;
     GetDiffuseMap := λ _, 0%N;
     GetIndexBuffer := λ subMesh, (subMesh + 10)%N;
     GetVertexBuffer := λ subMesh, (subMesh + 30)%N;
     GetBuffer := λ buffer,
       if bool_decide (buffer = 11%N) then 20%N
       else if bool_decide (buffer = 12%N) then 10%N
       else if bool_decide (buffer = 13%N) then 30%N
       else if bool_decide (buffer = 14%N) then 30%N
       else if bool_decide (buffer = 33%N) then 50%N
       else if bool_decide (buffer = 34%N) then 40%N
       else buffer;
     nzShaderFlags_Deferred := 1%Z;
     nzShaderFlags_Instancing := 2%Z;
     NAZARA_GRAPHICS_INSTANCING_MIN_INSTANCES_COUNT := 3%N |}.

(** Submesh 2 is submitted with material 5, then material 5 is destroyed. *)
Definition material_destroyed_mid_frame : ExQueue :=
  destroy_resource 5%N
    (AddSubMesh scene 5%N 2%N (Sym_Var 1%N) empty_queue).

End Examples.

(** * The rest of the renderer: release callbacks and draw calls *)

Module Drawing.
Import Renderer.

(** What the draw functions read besides [World]: the instancing
    capability as [Initialize] left it in [s_capabilities], the address of
    [s_fullscreenQuadBuffer], and values declared in headers outside this
    file. *)
Record Device := {
  (** [s_capabilities[nzRendererCap_Instancing]] *)
  cap_Instancing : bool;
  (** [&s_fullscreenQuadBuffer] *)
  s_fullscreenQuadBuffer : ptr;
  (** [vertexBuffer.GetVertexCount()] *)
  GetVertexCount : ptr → N;
  (** [indexBuffer->HasLargeIndices()] *)
  HasLargeIndices : ptr → bool;
  (** the table [NzOpenGL::PrimitiveMode], the enumerator
      [nzPrimitiveMode_Max] and the constant [GL_TRIANGLE_STRIP] *)
  PrimitiveMode : N → N;
  nzPrimitiveMode_Max : N;
  GL_TRIANGLE_STRIP : N
}.

Inductive IndexType :=
| GL_UNSIGNED_INT
| GL_UNSIGNED_SHORT.

(** The calls of a draw function: those of the state cache, and the draw
    itself. *)
Inductive DrawCall (Matrix Sampler RenderStates : Type) :=
| call_state (c : Call Matrix Sampler RenderStates)
| call_glDrawArrays (mode first count : N)
| call_glDrawElements (mode count : N) (type : IndexType) (offset : N)
| call_glDrawArraysInstanced (mode first count instanceCount : N)
| call_glDrawElementsInstanced (mode count : N) (type : IndexType)
    (offset instanceCount : N).
Arguments call_state {_ _ _} _.
Arguments call_glDrawArrays {_ _ _} _ _ _.
Arguments call_glDrawElements {_ _ _} _ _ _ _.
Arguments call_glDrawArraysInstanced {_ _ _} _ _ _ _.
Arguments call_glDrawElementsInstanced {_ _ _} _ _ _ _ _.

(** Whether the call draws. *)
Definition is_draw {Matrix Sampler RenderStates : Type}
    (c : DrawCall Matrix Sampler RenderStates) : bool :=
  match c with
  | call_state _ => false
  | _ => true
  end.

Section Drawing.
Context {Matrix Sampler RenderStates : Type}.
Context `{!NzMatrix4 Matrix} `{!NzTextureSamplerOps Sampler}.

Abbreviation State := (State Matrix Sampler RenderStates).
Abbreviation Call := (Call Matrix Sampler RenderStates).
Abbreviation DrawCall := (DrawCall Matrix Sampler RenderStates).

(** [NzRenderer::OnProgramReleased] *)
Definition OnProgramReleased (program : ptr) (s : State) : State :=
  if bool_decide (s_program s = program) then
    set_s_updateFlags (Z.lor (s_updateFlags s) Update_Program)
      (set_s_program nullptr s)
  else s.

(** [NzRenderer::OnTextureReleased] *)
Definition OnTextureReleased (tex : ptr) (s : State) : State :=
  set_s_textureUnits
    ((λ unit : TextureUnit Sampler,
        if bool_decide (texture unit = tex) then
          {| sampler := sampler unit; texture := nullptr;
             samplerUpdated := samplerUpdated unit;
             textureUpdated := textureUpdated unit |}
        else unit)
     <$> s_textureUnits s) s.

(** [NzRenderer::GetInstanceBuffer]: the pointer returned and the state
    left. *)
Definition GetInstanceBuffer (W : World) (D : Device) (s : State)
    : ptr * State :=
  if negb (cap_Instancing D) then (nullptr, s)
  else
    (s_instanceBuffer W,
     set_s_updateFlags (Z.lor (s_updateFlags s) Update_VAO) s).

(** The end of every draw function: [glBindVertexArray(0)] when vertex
    array objects are in use. *)
Definition unbind_vertex_array (s : State) : list DrawCall :=
  if s_useVertexArrayObjects s
  then [call_state (call_glBindVertexArray 0%N)] else [].

(** [EnsureStateUpdate] followed, when it succeeds, by the draw call and
    the unbinding; the calls of [EnsureStateUpdate] alone when it fails. *)
Definition update_then_draw (W : World) (draw : State → DrawCall) (s : State)
    : State * list DrawCall :=
  let '(ok, s, c) := EnsureStateUpdate W s in
  if ok : bool then
    (s, (call_state <$> c) ++ [draw s] ++ unbind_vertex_array s)
  else (s, call_state <$> c).

(** The index type and the byte offset of the first index: the start
    offset of the buffer plus [firstIndex] times the size of an index, in
    pointer arithmetic (64 bits). *)
Definition index_type (D : Device) (s : State) : IndexType :=
  if HasLargeIndices D (s_indexBuffer s)
  then GL_UNSIGNED_INT else GL_UNSIGNED_SHORT.

Definition index_offset (W : World) (D : Device) (firstIndex : N)
    (s : State) : N :=
  ((GetStartOffset W (s_indexBuffer s)
    + firstIndex * (if HasLargeIndices D (s_indexBuffer s) then 4 else 2))
   `mod` 2 ^ 64)%N.

(** [NzRenderer::DrawFullscreenQuad] *)
Definition DrawFullscreenQuad (W : World) (D : Device) (s : State)
    : State * list DrawCall :=
  if bool_decide (NzContext_GetCurrent W = nullptr) then (s, [])
  else
    let s := EnableInstancing false s in
    let s := SetIndexBuffer W nullptr s in
    let s := SetVertexBuffer W (s_fullscreenQuadBuffer D) s in
    update_then_draw W
      (λ _, call_glDrawArrays (GL_TRIANGLE_STRIP D) 0%N 4%N) s.

(** [NzRenderer::DrawIndexedPrimitives] *)
Definition DrawIndexedPrimitives (W : World) (D : Device)
    (mode firstIndex indexCount : N) (s : State) : State * list DrawCall :=
  if bool_decide (NzContext_GetCurrent W = nullptr) then (s, [])
  else if bool_decide (nzPrimitiveMode_Max D < mode)%N then (s, [])
  else if bool_decide (s_indexBuffer s = nullptr) then (s, [])
  else
    let s := EnableInstancing false s in
    update_then_draw W
      (λ s, call_glDrawElements (PrimitiveMode D mode) indexCount
              (index_type D s) (index_offset W D firstIndex s)) s.

(** [NzRenderer::DrawIndexedPrimitivesInstanced] *)
Definition DrawIndexedPrimitivesInstanced (W : World) (D : Device)
    (instanceCount mode firstIndex indexCount : N) (s : State)
    : State * list DrawCall :=
  if bool_decide (NzContext_GetCurrent W = nullptr) then (s, [])
  else if bool_decide (nzPrimitiveMode_Max D < mode)%N then (s, [])
  else if negb (cap_Instancing D) then (s, [])
  else if bool_decide (s_indexBuffer s = nullptr) then (s, [])
  else if bool_decide (instanceCount = 0%N) then (s, [])
  else if bool_decide (GetVertexCount D (s_instanceBuffer W) < instanceCount)%N
  then (s, [])
  else
    let s := EnableInstancing true s in
    update_then_draw W
      (λ s, call_glDrawElementsInstanced (PrimitiveMode D mode) indexCount
              (index_type D s) (index_offset W D firstIndex s)
              instanceCount) s.

(** [NzRenderer::DrawPrimitives] *)
Definition DrawPrimitives (W : World) (D : Device)
    (mode firstVertex vertexCount : N) (s : State) : State * list DrawCall :=
  if bool_decide (NzContext_GetCurrent W = nullptr) then (s, [])
  else if bool_decide (nzPrimitiveMode_Max D < mode)%N then (s, [])
  else
    let s := EnableInstancing false s in
    update_then_draw W
      (λ _, call_glDrawArrays (PrimitiveMode D mode) firstVertex vertexCount)
      s.

(** [NzRenderer::DrawPrimitivesInstanced] *)
Definition DrawPrimitivesInstanced (W : World) (D : Device)
    (instanceCount mode firstVertex vertexCount : N) (s : State)
    : State * list DrawCall :=
  if bool_decide (NzContext_GetCurrent W = nullptr) then (s, [])
  else if bool_decide (nzPrimitiveMode_Max D < mode)%N then (s, [])
  else if negb (cap_Instancing D) then (s, [])
  else if bool_decide (instanceCount = 0%N) then (s, [])
  else if bool_decide (GetVertexCount D (s_instanceBuffer W) < instanceCount)%N
  then (s, [])
  else
    let s := EnableInstancing true s in
    update_then_draw W
      (λ _, call_glDrawArraysInstanced (PrimitiveMode D mode) firstVertex
              vertexCount instanceCount) s.

(** The five draw functions, as one. *)
Inductive Draw :=
| draw_FullscreenQuad
| draw_IndexedPrimitives (mode firstIndex indexCount : N)
| draw_IndexedPrimitivesInstanced (instanceCount mode firstIndex indexCount : N)
| draw_Primitives (mode firstVertex vertexCount : N)
| draw_PrimitivesInstanced (instanceCount mode firstVertex vertexCount : N).

Definition run_draw (W : World) (D : Device) (d : Draw) (s : State)
    : State * list DrawCall :=
  match d with
  | draw_FullscreenQuad => DrawFullscreenQuad W D s
  | draw_IndexedPrimitives mode firstIndex indexCount =>
      DrawIndexedPrimitives W D mode firstIndex indexCount s
  | draw_IndexedPrimitivesInstanced instanceCount mode firstIndex indexCount =>
      DrawIndexedPrimitivesInstanced W D instanceCount mode firstIndex
        indexCount s
  | draw_Primitives mode firstVertex vertexCount =>
      DrawPrimitives W D mode firstVertex vertexCount s
  | draw_PrimitivesInstanced instanceCount mode firstVertex vertexCount =>
      DrawPrimitivesInstanced W D instanceCount mode firstVertex vertexCount s
  end.

(** Whether the function draws instances, and whether it reads the index
    buffer. *)
Definition instanced (d : Draw) : bool :=
  match d with
  | draw_IndexedPrimitivesInstanced _ _ _ _
  | draw_PrimitivesInstanced _ _ _ _ => true
  | _ => false
  end.

Definition indexed (d : Draw) : bool :=
  match d with
  | draw_IndexedPrimitives _ _ _
  | draw_IndexedPrimitivesInstanced _ _ _ _ => true
  | _ => false
  end.

(** The state in which [EnsureStateUpdate] is called by a draw function
    that gets past its own tests. *)
Definition prepared (W : World) (D : Device) (d : Draw) (s : State) : State :=
  match d with
  | draw_FullscreenQuad =>
      SetVertexBuffer W (s_fullscreenQuadBuffer D)
        (SetIndexBuffer W nullptr (EnableInstancing false s))
  | _ => EnableInstancing (instanced d) s
  end.

(** ** The renderer as a machine: one step per call of a member function *)

Inductive Operation :=
| op_EnableInstancing (instancing : bool)
| op_SetIndexBuffer (indexBuffer : ptr)
| op_SetVertexBuffer (vertexBuffer : ptr)
| op_SetShaderProgram (program : ptr)
| op_SetTarget (target : ptr)
| op_SetMatrix (type : nzMatrixType) (m : Matrix)
| op_GetMatrix (type : nzMatrixType)
| op_SetTexture (unit : N) (tex : ptr)
| op_SetTextureSampler (unit : N) (smp : Sampler)
| op_GetInstanceBuffer
| op_OnResourceReleased (resource : ptr) (index : Z)
| op_OnProgramReleased (program : ptr)
| op_OnTextureReleased (tex : ptr)
| op_EnsureStateUpdate
| op_Draw (d : Draw).

Definition step (W : World) (D : Device) (o : Operation) (s : State) : State :=
  match o with
  | op_EnableInstancing instancing => EnableInstancing instancing s
  | op_SetIndexBuffer indexBuffer => SetIndexBuffer W indexBuffer s
  | op_SetVertexBuffer vertexBuffer => SetVertexBuffer W vertexBuffer s
  | op_SetShaderProgram program => SetShaderProgram W program s
  | op_SetTarget target => (SetTarget W target s).1.2
  | op_SetMatrix type m => SetMatrix type m s
  | op_GetMatrix type => (GetMatrix type s).2
  | op_SetTexture unit tex => SetTexture W unit tex s
  | op_SetTextureSampler unit smp => SetTextureSampler W unit smp s
  | op_GetInstanceBuffer => (GetInstanceBuffer W D s).2
  | op_OnResourceReleased resource index =>
      OnResourceReleased resource index s
  | op_OnProgramReleased program => OnProgramReleased program s
  | op_OnTextureReleased tex => OnTextureReleased tex s
  | op_EnsureStateUpdate => (EnsureStateUpdate W s).1.2
  | op_Draw d => (run_draw W D d s).1
  end.

(** A sequence of operations.  One [World] and one [Device] answer for
    the whole sequence: the active context, the uniform locations of a
    program and the rest of what the objects report do not change from
    one operation to the next. *)
Definition run (W : World) (D : Device) (ops : list Operation) (s : State)
    : State :=
  foldl (λ s o, step W D o s) s ops.

(** The state reached from [Initialize] by a sequence of operations. *)
Definition reached (W : World) (D : Device) (ops : list Operation)
    (useSamplerObjects useVertexArrayObjects : bool) (maxTextureUnit : N)
    (states : RenderStates) : State :=
  run W D ops
    (Initialize useSamplerObjects useVertexArrayObjects maxTextureUnit
       states).

(** ** Notions used to state the properties *)

(** The vector of texture units has [s_maxTextureUnit] elements and the
    dirty units are below that number: [s_textureUnits[unit]] is an access
    within the vector wherever the source writes it. *)
Definition units_in_range (s : State) : Prop :=
  length (s_textureUnits s) = N.to_nat (s_maxTextureUnit s)
  ∧ ∀ i : N, i ∈ s_dirtyTextureUnits s → (i < s_maxTextureUnit s)%N.

(** Unit [i] has a texture whose binding or whose sampler is yet to be
    applied. *)
Definition unit_pending (s : State) (i : nat) : Prop :=
  ∃ u : TextureUnit Sampler,
    s_textureUnits s !! i = Some u ∧ texture u ≠ nullptr
    ∧ (textureUpdated u = false ∨ samplerUpdated u = false).

(** Slot [type] is one the program has a uniform for, and its matrix is
    yet to be recomputed. *)
Definition slot_pending (s : State) (type : nzMatrixType) : Prop :=
  location (s_matrices s type) ≠ (-1)%Z
  ∧ updated (s_matrices s type) = false.

(** The cached uniform locations are those of the bound program. *)
Definition locations_resolved (W : World) (s : State) : Prop :=
  ∀ type : nzMatrixType,
    location (s_matrices s type)
    = GetUniformLocation W (s_program s) (matrix_uniform type).

(** What the dirty marks promise.  The flags are among the four; a pending
    unit is in the set of dirty units, and [Update_Textures] is set; a
    pending slot has [Update_Matrices] set; the locations are those of the
    bound program unless [Update_Program] is set; [Update_VAO] is set
    while no vertex buffer is bound. *)
Record marks_sound (W : World) (s : State) : Prop := {
  marks_flags : flags_wf (s_updateFlags s);
  marks_range : units_in_range s;
  marks_textures :
    ∀ i : nat, unit_pending s i →
      N.of_nat i ∈ s_dirtyTextureUnits s
      ∧ has_flag (s_updateFlags s) Update_Textures = true;
  marks_matrices :
    ∀ type : nzMatrixType, slot_pending s type →
      has_flag (s_updateFlags s) Update_Matrices = true;
  marks_program :
    has_flag (s_updateFlags s) Update_Program = false →
    locations_resolved W s;
  marks_vertexBuffer :
    s_vertexBuffer s = nullptr →
    has_flag (s_updateFlags s) Update_VAO = true
}.

(** One update flag, or none. *)
Definition one_flag (x : Z) : Prop :=
  x = Update_None ∨ x = Update_Matrices ∨ x = Update_Program
  ∨ x = Update_Textures ∨ x = Update_VAO.

(** From [s] to [s'], the matrix slots are left alone, the vector of
    texture units keeps its length and no unit becomes pending. *)
Definition units_settle (s s' : State) : Prop :=
  s_matrices s' = s_matrices s
  ∧ length (s_textureUnits s') = length (s_textureUnits s)
  ∧ ∀ j : nat, ¬ unit_pending s j → ¬ unit_pending s' j.

(** From [s] to [s'], the texture units are left alone, the slots keep
    their locations and no current slot becomes stale. *)
Definition slots_settle (s s' : State) : Prop :=
  s_textureUnits s' = s_textureUnits s
  ∧ (∀ t, location (s_matrices s' t) = location (s_matrices s t))
  ∧ (∀ t, updated (s_matrices s t) = true → updated (s_matrices s' t) = true).

(** The key of the vertex array for what is bound. *)
Definition current_key (W : World) (s : State) : N * N * N * N :=
  (s_indexBuffer s, s_vertexBuffer s,
   GetVertexDeclaration W (s_vertexBuffer s),
   if s_instancing s then s_instancingDeclaration s else nullptr).

(** The three base matrices are set, in the order projection, view,
    world. *)
Definition set_base_matrices (projection view world : Matrix) (s : State)
    : State :=
  SetMatrix nzMatrixType_World world
    (SetMatrix nzMatrixType_View view
       (SetMatrix nzMatrixType_Projection projection s)).

(** A sequence of reads. *)
Definition read_matrices (types : list nzMatrixType) (s : State) : State :=
  foldl (λ s type, (GetMatrix type s).2) s types.

(** What each slot is to hold for given base matrices.  [GetInverse]
    writes its result over the matrix of the slot, [old] here, and may
    leave it when there is no inverse. *)
Definition derived_matrix (projection view world : Matrix)
    (old : nzMatrixType → Matrix) (type : nzMatrixType) : Matrix :=
  let viewProj := Multiply view projection in
  let worldView := ConcatenateAffine world view in
  let worldViewProj := Concatenate worldView projection in
  match type with
  | nzMatrixType_Projection => projection
  | nzMatrixType_View => view
  | nzMatrixType_World => world
  | nzMatrixType_ViewProj => viewProj
  | nzMatrixType_WorldView => worldView
  | nzMatrixType_WorldViewProj => worldViewProj
  | nzMatrixType_InvProjection => (GetInverse projection (old type)).2
  | nzMatrixType_InvView => (GetInverse view (old type)).2
  | nzMatrixType_InvViewProj => (GetInverse viewProj (old type)).2
  | nzMatrixType_InvWorld => (GetInverse world (old type)).2
  | nzMatrixType_InvWorldView => (GetInverse worldView (old type)).2
  | nzMatrixType_InvWorldViewProj => (GetInverse worldViewProj (old type)).2
  end.

(** The slots agree with the base matrices: the three base slots are
    current, a slot marked current holds what [derived_matrix] says, and
    a slot that is not holds the matrix it held before. *)
Definition slots_coherent (projection view world : Matrix)
    (old : nzMatrixType → Matrix) (ms : nzMatrixType → MatrixUnit Matrix)
    : Prop :=
  updated (ms nzMatrixType_Projection) = true
  ∧ updated (ms nzMatrixType_View) = true
  ∧ updated (ms nzMatrixType_World) = true
  ∧ ∀ type : nzMatrixType,
      matrix (ms type)
      = if updated (ms type)
        then derived_matrix projection view world old type else old type.

End Drawing.

End Drawing.

(** * The rest of the deferred render queue *)

Module QueueCommands.
Import DeferredRenderQueue.

(** What [AddModel] reads from a model, its mesh and the submeshes. *)
Record Models (Matrix : Type) := {
  (** [model->IsDrawable()] *)
  Model_IsDrawable : ptr → bool;
  (** [model->GetTransformMatrix()] *)
  GetTransformMatrix : ptr → Matrix;
  (** [model->GetMesh()] *)
  GetMesh : ptr → ptr;
  (** [mesh->GetSubMeshCount()], an [unsigned int] *)
  GetSubMeshCount : ptr → N;
  (** [mesh->GetSubMesh(i)] *)
  GetSubMesh : ptr → N → ptr;
  (** [subMesh->GetMaterialIndex()] *)
  GetMaterialIndex : ptr → N;
  (** [model->GetMaterial(index)] *)
  Model_GetMaterial : ptr → N → ptr
}.
Arguments Model_IsDrawable {_} _ _.
Arguments GetTransformMatrix {_} _ _.
Arguments GetMesh {_} _ _.
Arguments GetSubMeshCount {_} _ _.
Arguments GetSubMesh {_} _ _ _.
Arguments GetMaterialIndex {_} _ _.
Arguments Model_GetMaterial {_} _ _ _.

#[global] Instance nzLightType_eq_dec : EqDecision nzLightType.
Proof. solve_decision. Defined.

Section QueueCommands.
Context {Matrix SkeletalData : Type}.

Abbreviation Queue := (Queue Matrix SkeletalData).

(** The submeshes of a model with their materials, in the order of the
    loop of [AddModel]. *)
Definition model_parts (M : Models Matrix) (model : ptr) : list (ptr * ptr) :=
  let mesh := GetMesh M model in
  (λ i : nat,
     let subMesh := GetSubMesh M mesh (N.of_nat i) in
     (Model_GetMaterial M model (GetMaterialIndex M subMesh), subMesh))
  <$> seq 0 (N.to_nat (GetSubMeshCount M mesh)).

(** [NzDeferredRenderQueue::AddModel] *)
Definition AddModel (S : Scene) (M : Models Matrix) (model : ptr) (q : Queue)
    : Queue :=
  if bool_decide (model = nullptr) then q
  else if negb (Model_IsDrawable M model) then q
  else
    let transformMatrix := GetTransformMatrix M model in
    foldl (λ q part, AddSubMesh S part.1 part.2 transformMatrix q)
      q (model_parts M model).

(** The queue as a machine: the member functions, and the destruction of
    a resource the queue may be listening to. *)
Inductive Command :=
| cmd_AddLight (light : ptr)
| cmd_AddModel (model : ptr)
| cmd_AddSprite (sprite : ptr)
| cmd_AddSubMesh (material subMesh : ptr) (transformMatrix : Matrix)
| cmd_Clear (fully : bool)
| cmd_destroy (resource : ptr).

Definition execute (S : Scene) (M : Models Matrix) (c : Command) (q : Queue)
    : Queue :=
  match c with
  | cmd_AddLight light => AddLight S light q
  | cmd_AddModel model => AddModel S M model q
  | cmd_AddSprite sprite => AddSprite S sprite q
  | cmd_AddSubMesh material subMesh transformMatrix =>
      AddSubMesh S material subMesh transformMatrix q
  | cmd_Clear fully => Clear fully q
  | cmd_destroy resource => destroy_resource resource q
  end.

Definition execute_all (S : Scene) (M : Models Matrix) (cs : list Command)
    (q : Queue) : Queue :=
  foldl (λ q c, execute S M c q) q cs.

(** ** Notions used to state the properties *)

(** The resource is a key of the table of batches, or of the table of
    meshes of a batch. *)
Definition batched (q : Queue) (resource : ptr) : Prop :=
  is_Some (opaqueModels q !! resource)
  ∨ ∃ (material : ptr) entry,
      opaqueModels q !! material = Some entry
      ∧ (is_Some (skeletalMeshes entry !! resource)
         ∨ is_Some (staticMeshes entry !! resource)).

(** The materials and the submeshes a command names. *)
Definition command_parts (M : Models Matrix) (c : Command)
    : list (ptr * ptr) :=
  match c with
  | cmd_AddSubMesh material subMesh _ => [(material, subMesh)]
  | cmd_AddModel model => model_parts M model
  | _ => []
  end.

(** The command gives materials where the source has [NzMaterial*] and
    submeshes where it has [NzSubMesh*]: no address is both. *)
Definition well_typed (is_material : ptr → bool) (M : Models Matrix)
    (c : Command) : Prop :=
  ∀ part : ptr * ptr, part ∈ command_parts M c →
    is_material part.1 = true ∧ is_material part.2 = false.

(** The queue listens to every key of its model tables, under the tag of
    the key's kind: a material with a batch under [ResourceType_Material],
    a mesh of a batch under [ResourceType_StaticMesh]; no batch has a
    skeletal mesh. *)
Definition keys_registered (is_material : ptr → bool) (q : Queue) : Prop :=
  (∀ material : ptr,
     is_Some (opaqueModels q !! material) →
     is_material material = true
     ∧ listeners q !! material
       = Some (index_of_ResourceType ResourceType_Material))
  ∧ (∀ (material : ptr) entry (mesh : ptr),
       opaqueModels q !! material = Some entry →
       is_Some (staticMeshes entry !! mesh) →
       is_material mesh = false
       ∧ listeners q !! mesh
         = Some (index_of_ResourceType ResourceType_StaticMesh))
  ∧ (∀ (material : ptr) entry,
       opaqueModels q !! material = Some entry → skeletalMeshes entry = ∅).

(** The lights a sequence of submissions leaves in the list of [type]. *)
Definition lights_of_type (S : Scene) (type : nzLightType)
    (lights : list ptr) : list ptr :=
  filter (λ light, light ≠ nullptr ∧ GetLightType S light = type) lights.

End QueueCommands.

(** [BatchedSpriteMaterialComparator::operator()] *)
Definition BatchedSpriteMaterialComparator (S : Scene) (mat1 mat2 : ptr)
    : bool :=
  let possibleFlags := [ nzShaderFlags_Deferred S ] in
  match compare_programs S possibleFlags mat1 mat2 with
  | Some decision => decision
  | None =>
      let diffuseMap1 := GetDiffuseMap S mat1 in
      let diffuseMap2 := GetDiffuseMap S mat2 in
      if bool_decide (diffuseMap1 ≠ diffuseMap2)
      then bool_decide (diffuseMap1 < diffuseMap2)%N
      else bool_decide (mat1 < mat2)%N
  end.

(** A comparator that is a strict total order: irreflexive, transitive,
    and deciding between any two distinct keys. *)
Definition strict_total_order (lt : ptr → ptr → bool) : Prop :=
  (∀ a : ptr, lt a a = false)
  ∧ (∀ a b c : ptr, lt a b = true → lt b c = true → lt a c = true)
  ∧ (∀ a b : ptr, a ≠ b → lt a b = negb (lt b a)).

End QueueCommands.

(** * Further concrete instances *)

Module CoverageExamples.
Import Renderer Drawing Examples.

(** A device with instancing, whose instance buffer holds 100 instances
    and whose index buffers have 16-bit indices; the quad's buffer is at
    address 90. *)
Definition device : Device :=
  {| cap_Instancing := true;
     s_fullscreenQuadBuffer := 90%N;
     GetVertexCount := λ _, 100%N;
     HasLargeIndices := λ _, false;
     PrimitiveMode := λ mode, mode;
     nzPrimitiveMode_Max := 5%N;
     GL_TRIANGLE_STRIP := 5%N |}.

(** A program, a target, a vertex buffer, a texture on unit 0 and a world
    matrix are set. *)
Definition frame_setup : list (@Operation SymMatrix bool) :=
  [ op_SetShaderProgram 10%N; op_SetTarget 20%N; op_SetVertexBuffer 30%N;
    op_SetTexture 0%N 60%N;
    op_SetMatrix nzMatrixType_World (Sym_Var 1%N) ].

(** The state these operations reach, with vertex array objects. *)
Definition ready : ExState :=
  reached world device frame_setup true true 2%N ().

(** The world of [world], in which the target at address 20 is the only
    one that can be rendered to. *)
Definition world_with_one_target : World :=
  {| NzContext_GetCurrent := NzContext_GetCurrent world;
     IsHardware := IsHardware world;
     IsCompiled := IsCompiled world;
     GetUniformLocation := GetUniformLocation world;
     GetWidth := GetWidth world;
     GetHeight := GetHeight world;
     HasContext := HasContext world;
     IsRenderable := λ target, bool_decide (target = 20%N);
     Activate := Activate world;
     HasMipmaps := HasMipmaps world;
     GetType := GetType world;
     GetOpenGLID := GetOpenGLID world;
     GetVertexDeclaration := GetVertexDeclaration world;
     GetStartOffset := GetStartOffset world;
     GetStride := GetStride world;
     GetAttribute := GetAttribute world;
     GetHardwareBufferID := GetHardwareBufferID world;
     glGenVertexArrays_name := glGenVertexArrays_name world;
     s_instanceBuffer := s_instanceBuffer world;
     vertexDataUsages := vertexDataUsages world;
     instanceDataUsages := instanceDataUsages world;
     AttributeIndex := AttributeIndex world;
     AttributeType := AttributeType world;
     GetAttributeSize := GetAttributeSize world;
     nzAttributeType_Color := nzAttributeType_Color world |}.

Import DeferredRenderQueue QueueCommands.

(** The model at address 100 is drawable; its mesh has the submeshes 1
    and 2, the first with the opaque material 5 and the second with the
    blended material 6. *)
Definition models : Models SymMatrix :=
  {| Model_IsDrawable := λ _, true;
     GetTransformMatrix := λ model, Sym_Var model;
     GetMesh := λ model, (model + 100)%N;
     GetSubMeshCount := λ _, 2%N;
     GetSubMesh := λ _ i, (i + 1)%N;
     GetMaterialIndex := λ subMesh, (subMesh - 1)%N;
     Model_GetMaterial := λ _ index, (index + 5)%N |}.

(** Addresses 5 and 6 are materials. *)
Definition is_material (p : ptr) : bool :=
  bool_decide (p = 5%N) || bool_decide (p = 6%N).

(** A light, a model, a sprite and a submesh are submitted, the lights
    are cleared, and the submesh is destroyed. *)
Definition frame_commands : list (@Command SymMatrix) :=
  [ cmd_AddLight 70%N; cmd_AddModel 100%N; cmd_AddSprite 80%N;
    cmd_AddSubMesh 5%N 2%N (Sym_Var 1%N); cmd_Clear false; cmd_destroy 2%N ].

End CoverageExamples.

(** * Properties of the renderer *)

Section RendererFacts.
Import Renderer.
Context {Matrix Sampler RenderStates : Type}.
Context `{!NzMatrix4 Matrix} `{!NzTextureSamplerOps Sampler}.

Abbreviation State := (State Matrix Sampler RenderStates).
Abbreviation Call := (Call Matrix Sampler RenderStates).
Implicit Types (s : State) (W : World) (key : N * N * N * N).

(** ** The matrix slots *)

(** Three nested calls are all [UpdateMatrix] ever makes: allowing more
    changes nothing. *)
Lemma UpdateMatrix_rec_depth (n : nat) (type : nzMatrixType)
    (ms : nzMatrixType → MatrixUnit Matrix) :
  UpdateMatrix_rec (3 + n) type ms = UpdateMatrix_rec 3 type ms.
Proof. destruct type; reflexivity. Qed.

(** The [updated] flags [SetMatrix] leaves. *)
Lemma SetMatrix_updated (type t : nzMatrixType) (m : Matrix) s :
  updated (s_matrices (SetMatrix type m s) t)
  = if bool_decide (t ∈ SetMatrix_invalidates type) then false
    else if bool_decide (t = type) then true
    else updated (s_matrices s t).
Proof. destruct type, t; reflexivity. Qed.

(** Setting the projection clears the flag of exactly the slots that are
    computed from it. *)
Lemma SetMatrix_Projection_invalidates_dependents (t : nzMatrixType) :
  bool_decide (t ∈ SetMatrix_invalidates nzMatrixType_Projection)
  = depends_on t nzMatrixType_Projection.
Proof. destruct t; reflexivity. Qed.

(** So does setting the world matrix. *)
Lemma SetMatrix_World_invalidates_dependents (t : nzMatrixType) :
  bool_decide (t ∈ SetMatrix_invalidates nzMatrixType_World)
  = depends_on t nzMatrixType_World.
Proof. destruct t; reflexivity. Qed.

(** Setting the view matrix does not: WorldView and InvWorldView are
    computed from the view and keep their flag, while World and InvWorld,
    which are not, lose theirs.  On every other slot the [case] agrees
    with the graph. *)
Lemma SetMatrix_View_invalidates_other_slots (t : nzMatrixType) :
  bool_decide (t ∈ SetMatrix_invalidates nzMatrixType_View)
  = if bool_decide (t ∈ [ nzMatrixType_WorldView; nzMatrixType_InvWorldView;
                          nzMatrixType_World; nzMatrixType_InvWorld ])
    then negb (depends_on t nzMatrixType_View)
    else depends_on t nzMatrixType_View.
Proof. destruct t; reflexivity. Qed.

(** After the world matrix is set, the WorldViewProj slot is read as the
    product recomputed from the new world matrix and the current view and
    projection. *)
Lemma SetMatrix_World_recomputes_WorldViewProj (m : Matrix) s :
  (GetMatrix nzMatrixType_WorldViewProj (SetMatrix nzMatrixType_World m s)).1
  = Concatenate
      (ConcatenateAffine m (matrix (s_matrices s nzMatrixType_View)))
      (matrix (s_matrices s nzMatrixType_Projection)).
Proof. reflexivity. Qed.

(** C1 (the code departs from the specification, which has a slot derived
    from a base matrix read, once that matrix is set, as the value
    recomputed from the current base matrices, never as a cached product).
    What the code does when the base matrix is the view: if the WorldView
    slot was current before [SetMatrix(nzMatrixType_View, m)], it is still
    marked current afterwards, and [GetMatrix(nzMatrixType_WorldView)]
    returns the matrix cached before the call, whatever [m] is. *)
Theorem SetMatrix_View_serves_stale_WorldView (m : Matrix) s :
  updated (s_matrices s nzMatrixType_WorldView) = true →
  (GetMatrix nzMatrixType_WorldView (SetMatrix nzMatrixType_View m s)).1
  = matrix (s_matrices s nzMatrixType_WorldView).
Proof.
  intros Hup. unfold GetMatrix.
  rewrite SetMatrix_updated. simpl. rewrite Hup. reflexivity.
Qed.

(** ** The buffers *)

(** C9.  [SetVertexBuffer(nullptr)] changes nothing: the state returned is
    the state given, so the bound vertex buffer and the update flags are
    what they were.  [SetIndexBuffer(nullptr)] leaves no index buffer
    bound, and sets [Update_VAO] when one was bound. *)
Theorem SetVertexBuffer_nullptr_is_noop W s :
  SetVertexBuffer W nullptr s = s
  ∧ s_indexBuffer (SetIndexBuffer W nullptr s) = nullptr
  ∧ s_updateFlags (SetIndexBuffer W nullptr s)
    = if bool_decide (s_indexBuffer s ≠ nullptr)
      then Z.lor (s_updateFlags s) Update_VAO else s_updateFlags s.
Proof.
  split; [reflexivity|].
  unfold SetIndexBuffer. simpl.
  case_bool_decide as Hib; simpl; [done|].
  split; done.
Qed.

(** ** The texture units *)

Lemma SetTexture_noop W (unit : N) (tex : ptr) s (u : TextureUnit Sampler) :
  s_textureUnits s !! N.to_nat unit = Some u → texture u = tex →
  SetTexture W unit tex s = s.
Proof.
  intros Hu Htex. unfold SetTexture. rewrite Hu.
  case_bool_decide; [done|].
  rewrite bool_decide_eq_false_2; [done|]. by intros [].
Qed.

(** C10.  When unit [unit] already holds [tex], [SetTexture(unit, tex)]
    returns the state it was given: no field of the unit, the set of dirty
    units and the update flags included, is touched.  Hence two identical
    calls in a row leave what one leaves. *)
Theorem SetTexture_same_texture_is_noop W (unit : N) (tex : ptr) s :
  (∀ u : TextureUnit Sampler,
     s_textureUnits s !! N.to_nat unit = Some u → texture u = tex →
     SetTexture W unit tex s = s)
  ∧ SetTexture W unit tex (SetTexture W unit tex s) = SetTexture W unit tex s.
Proof.
  split; [intros u; apply SetTexture_noop|].
  destruct (decide (s_maxTextureUnit s ≤ unit)%N) as [Hmax|Hmax].
  { assert (SetTexture W unit tex s = s) as Hs
      by (unfold SetTexture; by rewrite bool_decide_eq_true_2).
    by rewrite !Hs. }
  destruct (s_textureUnits s !! N.to_nat unit) as [u|] eqn:Hu.
  2:{ assert (SetTexture W unit tex s = s) as Hs
        by (unfold SetTexture; by rewrite bool_decide_eq_false_2, Hu).
      by rewrite !Hs. }
  destruct (decide (texture u = tex)) as [Heq|Hne].
  { by rewrite !(SetTexture_noop W unit tex s u). }
  unfold SetTexture at 2 3. rewrite bool_decide_eq_false_2 by done.
  rewrite Hu, bool_decide_eq_true_2 by done.
  eapply SetTexture_noop.
  - cbn [set_s_updateFlags set_s_dirtyTextureUnits set_s_textureUnits
         s_textureUnits].
    apply list_lookup_insert_eq. by eapply lookup_lt_Some.
  - case_bool_decide; [destruct (UseMipmaps _ _)|]; reflexivity.
Qed.

(** ** The table of vertex array objects *)

(** What the erasing loop leaves, for any list of entries to visit. *)
Lemma erase_loop_lookup (test : N * N * N * N → bool)
    (l : list (N * N * N * N * N)) (m : gmap (N * N * N * N) N) key :
  foldl (λ m entry, if test entry.1 then delete entry.1 m else m) m l !! key
  = if test key && bool_decide (key ∈ l.*1) then None else m !! key.
Proof.
  revert m. induction l as [|[k v] l IH]; intros m.
  { simpl. by rewrite andb_false_r. }
  rewrite fmap_cons. cbn [foldl fst].
  rewrite IH. destruct (test key) eqn:Hkey; cbn [andb].
  2:{ destruct (test k) eqn:Hk; [|done].
      apply lookup_delete_ne. intros ->. congruence. }
  repeat case_bool_decide; try done.
  - exfalso. rewrite elem_of_cons in *. tauto.
  - assert (key = k) as -> by (rewrite elem_of_cons in *; tauto).
    rewrite Hkey. apply lookup_delete_eq.
  - destruct (test k); [|done]. apply lookup_delete_ne.
    rewrite elem_of_cons in *. intros ->. tauto.
Qed.

Lemma erase_matching_lookup (test : N * N * N * N → bool)
    (vaos : gmap (N * N * N * N) N) key :
  erase_matching test vaos !! key = if test key then None else vaos !! key.
Proof.
  unfold erase_matching. rewrite erase_loop_lookup.
  destruct (test key); [|done]. simpl.
  case_bool_decide as Hin; [done|].
  destruct (vaos !! key) as [v|] eqn:Hv; [|done].
  exfalso. apply Hin. apply list_elem_of_fmap. exists (key, v).
  split; [done|]. by apply elem_of_map_to_list.
Qed.

Lemma released_test_contains (kind : ptr → option ResourceType)
    (type : ResourceType) (resource : ptr) key :
  kind resource = Some type → resource ≠ nullptr → key_typed kind key →
  released_test type resource key = key_contains resource key.
Proof.
  intros Hkind Hnull (Hib & Hvb & Hvd & Hid).
  apply eq_bool_prop_intro. unfold key_contains, released_test.
  rewrite bool_decide_spec, !elem_of_cons, elem_of_nil.
  destruct key as [[[ib vb] vd] id].
  unfold key_indexBuffer, key_vertexBuffer, key_vertexDeclaration,
    key_instancingDeclaration in *. cbn [fst snd] in *.
  destruct type; rewrite ?orb_True, ?bool_decide_spec;
    intuition (subst; congruence).
Qed.

Lemma OnResourceReleased_cached (type : ResourceType) (resource : ptr) s
    (context : ptr) key :
  type ≠ ResourceType_Context →
  cached_vao (OnResourceReleased resource (index_of_ResourceType type) s)
    context key
  = if released_test type resource key then None else cached_vao s context key.
Proof.
  intros Htype. unfold cached_vao, OnResourceReleased.
  destruct type; try done; simpl; rewrite lookup_fmap;
    destruct (s_vaos s !! context) as [vaos|]; simpl;
    rewrite ?erase_matching_lookup; try done;
    by repeat case_match.
Qed.

Lemma FindOrCreateVAO_cached W (context : ptr) key s :
  cached_vao (FindOrCreateVAO W context key s).1.1 context key
  = Some (s_currentVAO (FindOrCreateVAO W context key s).1.1).
Proof.
  unfold FindOrCreateVAO, cached_vao.
  destruct (s_vaos s !! context) as [vaos|] eqn:Hctx; simpl.
  - rewrite Hctx. simpl. destruct (vaos !! key) as [vao|] eqn:Hkey; simpl.
    + by rewrite Hctx; simpl.
    + by rewrite lookup_insert_eq; simpl; rewrite lookup_insert_eq.
  - rewrite lookup_insert_eq. simpl. rewrite lookup_empty. simpl.
    by rewrite lookup_insert_eq; simpl; rewrite lookup_insert_eq.
Qed.

Lemma FindOrCreateVAO_hit W (context : ptr) key s (vao : N) :
  cached_vao s context key = Some vao →
  FindOrCreateVAO W context key s
  = (set_s_vaos (s_vaos s) (set_s_currentVAO vao s), false, []).
Proof.
  unfold cached_vao, FindOrCreateVAO. intros Hc.
  destruct (s_vaos s !! context) as [vaos|] eqn:Hctx; simpl in *; [|done].
  rewrite Hctx. simpl. by rewrite Hc.
Qed.

Lemma FindOrCreateVAO_preserves W (context' : ptr) (key' : N * N * N * N)
    (context : ptr) key s (vao : N) :
  cached_vao s context key = Some vao →
  cached_vao (FindOrCreateVAO W context' key' s).1.1 context key = Some vao.
Proof.
  unfold cached_vao, FindOrCreateVAO. intros Hc.
  destruct (s_vaos s !! context) as [vaos|] eqn:Hctx; simpl in *; [|done].
  destruct (s_vaos s !! context') as [vaos'|] eqn:Hctx'; simpl.
  - rewrite Hctx'. simpl. destruct (vaos' !! key') as [vao'|] eqn:Hkey'; simpl.
    + by rewrite Hctx.
    + destruct (decide (context' = context)) as [->|Hne].
      * rewrite lookup_insert_eq. simpl. simplify_eq.
        rewrite lookup_insert_ne; [done|]. intros ->. congruence.
      * rewrite lookup_insert_ne by done. by rewrite Hctx.
  - rewrite lookup_insert_eq. simpl. rewrite lookup_empty. simpl.
    assert (context' ≠ context) by (intros ->; congruence).
    rewrite !lookup_insert_ne by done. by rewrite Hctx.
Qed.

Lemma lookups_preserve (l : list (World * ptr * (N * N * N * N)))
    (context : ptr) key s (vao : N) :
  cached_vao s context key = Some vao →
  cached_vao (lookups l s) context key = Some vao.
Proof.
  revert s. induction l as [|[[W c] k] l IH]; intros s Hc; [done|].
  simpl. apply IH. by apply FindOrCreateVAO_preserves.
Qed.

(** C6.  In one context, a look-up for a key leaves current the vertex
    array the table of the context holds under the key: the one the table
    held before, or else the one [glGenVertexArrays] just named, which the
    look-up stores.  After any further look-ups (for any keys, in any
    contexts), the table still holds that vertex array under the key, and
    a look-up for the first key again makes it current, stores nothing
    new, asks for no programming and makes no call, whatever
    [glGenVertexArrays] would answer by then.  And when a resource of one
    of the three kinds a key is made of is released, with the tag of its
    kind, the entry of a well-typed key is gone from the table of every
    context if the key holds the resource in any position, and is what it
    was otherwise. *)
Theorem VAO_cache_lookup_and_purge :
  (∀ W W' (context : ptr) key s (l : list (World * ptr * (N * N * N * N))),
     let s1 := (FindOrCreateVAO W context key s).1.1 in
     let again := FindOrCreateVAO W' context key (lookups l s1) in
     cached_vao s1 context key = Some (s_currentVAO s1)
     ∧ s_currentVAO s1
       = default (glGenVertexArrays_name W) (cached_vao s context key)
     ∧ cached_vao (lookups l s1) context key = Some (s_currentVAO s1)
     ∧ cached_vao again.1.1 context key = Some (s_currentVAO s1)
     ∧ s_currentVAO again.1.1 = s_currentVAO s1
     ∧ again.1.2 = false
     ∧ again.2 = [])
  ∧ (∀ (kind : ptr → option ResourceType) (type : ResourceType)
       (resource : ptr) s (context : ptr) key,
       kind resource = Some type → type ≠ ResourceType_Context →
       resource ≠ nullptr →
       (is_Some (cached_vao s context key) → key_typed kind key) →
       cached_vao (OnResourceReleased resource (index_of_ResourceType type) s)
         context key
       = if key_contains resource key then None
         else cached_vao s context key).
Proof.
  split.
  - intros W W' context key s l s1 again.
    assert (cached_vao s1 context key = Some (s_currentVAO s1)) as Hfirst
      by apply FindOrCreateVAO_cached.
    assert (cached_vao (lookups l s1) context key = Some (s_currentVAO s1))
      as Hkept by by apply lookups_preserve.
    split; [exact Hfirst|]. split.
    { subst s1. destruct (cached_vao s context key) as [vao|] eqn:Hc.
      - by rewrite (FindOrCreateVAO_hit W context key s vao Hc).
      - unfold cached_vao, FindOrCreateVAO in *.
        destruct (s_vaos s !! context) as [vaos|] eqn:Hctx; simpl in *.
        + rewrite Hctx. simpl. by rewrite Hc.
        + rewrite lookup_insert_eq. simpl. by rewrite lookup_empty. }
    split; [exact Hkept|]. subst again.
    rewrite (FindOrCreateVAO_hit W' context key _ (s_currentVAO s1) Hkept).
    split; [exact Hkept|done].
  - intros kind type resource s context key Hkind Htype Hnull Htyped.
    rewrite OnResourceReleased_cached by done.
    destruct (cached_vao s context key) as [vao|] eqn:Hc.
    + by rewrite (released_test_contains kind) by eauto.
    + by repeat case_match.
Qed.

(** ** [EnsureStateUpdate] *)

(** What every turn of a loop preserves, the loop preserves. *)
Lemma for_each_preserves {A B : Type} (f : State → B)
    (body : A → State → State * list Call) (l : list A) s :
  (∀ x s, f (body x s).1 = f s) → f (for_each body l s).1 = f s.
Proof.
  intros Hbody. revert s. induction l as [|x l IH]; intros s; [done|].
  simpl. specialize (Hbody x s). destruct (body x s) as [s1 c1].
  specialize (IH s1). destruct (for_each body l s1) as [s2 c2].
  simpl in *. congruence.
Qed.

(** The bodies of the loops over the dirty units and over the matrix
    slots assign texture units and matrix slots only. *)
Lemma UpdateTextureUnit_samplerObjects_frame (i : N) s :
  frame (UpdateTextureUnit_samplerObjects i s).1 = frame s.
Proof.
  unfold UpdateTextureUnit_samplerObjects.
  destruct (s_textureUnits s !! N.to_nat i) as [u|]; [|done].
  case_bool_decide; [|done].
  by destruct (textureUpdated u), (samplerUpdated u).
Qed.

Lemma UpdateTextureUnit_fallback_frame (i : N) s :
  frame (UpdateTextureUnit_fallback i s).1 = frame s.
Proof.
  unfold UpdateTextureUnit_fallback.
  destruct (s_textureUnits s !! N.to_nat i) as [u|]; [|done].
  by case_bool_decide.
Qed.

Lemma SendMatrixUnit_frame (type : nzMatrixType) s :
  frame (SendMatrixUnit type s).1 = frame s.
Proof.
  unfold SendMatrixUnit. case_bool_decide; [|done].
  by destruct (updated (s_matrices s type)).
Qed.

Lemma frame_inv s s' :
  frame s' = frame s →
  bindings s' = bindings s
  ∧ s_updateFlags s' = s_updateFlags s
  ∧ s_dirtyTextureUnits s' = s_dirtyTextureUnits s
  ∧ s_targetSize s' = s_targetSize s.
Proof. unfold frame, bindings. intros [=]. repeat split; congruence. Qed.

(** Each block of [EnsureStateUpdate]: what it leaves of the bindings, the
    update flags, the set of dirty units and the recorded target size. *)
Lemma ResolveUniformLocations_spec W s :
  let s' := (ResolveUniformLocations W s).1 in
  bindings s' = bindings s
  ∧ s_updateFlags s'
    = Z.land (Z.lor (s_updateFlags s) Update_Matrices) (not32 Update_Program)
  ∧ s_dirtyTextureUnits s' = s_dirtyTextureUnits s
  ∧ s_targetSize s' = (0%N, 0%N).
Proof. done. Qed.

Lemma SendTargetSize_spec W s :
  let s' := (SendTargetSize W s).1 in
  bindings s' = bindings s
  ∧ s_updateFlags s' = s_updateFlags s
  ∧ s_dirtyTextureUnits s' = s_dirtyTextureUnits s
  ∧ s_targetSize s' = target_size W s.
Proof.
  unfold SendTargetSize, target_size. case_bool_decide as Hsize; [done|].
  simpl. repeat split; try done.
Qed.

Lemma UpdateTextures_spec s :
  let s' := (UpdateTextures s).1 in
  bindings s' = bindings s
  ∧ s_updateFlags s' = Z.land (s_updateFlags s) (not32 Update_Textures)
  ∧ s_dirtyTextureUnits s' = ∅
  ∧ s_targetSize s' = s_targetSize s.
Proof.
  unfold UpdateTextures.
  match goal with
  | |- context [for_each ?body ?l s] =>
      pose proof (for_each_preserves frame body l s) as Hframe
  end.
  destruct (for_each _ _ s) as [s1 c1]. simpl in *.
  destruct (frame_inv s s1) as (Hb & Hf & _ & Ht).
  { apply Hframe. intros i s0.
    destruct (s_useSamplerObjects s);
      [apply UpdateTextureUnit_samplerObjects_frame
      |apply UpdateTextureUnit_fallback_frame]. }
  unfold bindings in *. simpl. by rewrite Hf, Ht.
Qed.

Lemma UpdateMatrices_spec s :
  let s' := (UpdateMatrices s).1 in
  bindings s' = bindings s
  ∧ s_updateFlags s' = Z.land (s_updateFlags s) (not32 Update_Matrices)
  ∧ s_dirtyTextureUnits s' = s_dirtyTextureUnits s
  ∧ s_targetSize s' = s_targetSize s.
Proof.
  unfold UpdateMatrices.
  pose proof (for_each_preserves frame SendMatrixUnit all_matrix_types s
                SendMatrixUnit_frame) as Hframe.
  destruct (for_each _ _ s) as [s1 c1]. simpl in *.
  destruct (frame_inv s s1 Hframe) as (Hb & Hf & Hd & Ht).
  unfold bindings in *. simpl. by rewrite Hf, Ht, Hd.
Qed.

Lemma FindOrCreateVAO_frame W (context : ptr) (key : N * N * N * N) s :
  let s' := (FindOrCreateVAO W context key s).1.1 in
  bindings s' = bindings s
  ∧ s_updateFlags s' = s_updateFlags s
  ∧ s_dirtyTextureUnits s' = s_dirtyTextureUnits s
  ∧ s_targetSize s' = s_targetSize s.
Proof.
  unfold FindOrCreateVAO.
  destruct (s_vaos s !! context); simpl; by destruct (_ !! key).
Qed.

Lemma UpdateVAO_spec W s :
  let s' := (UpdateVAO W s).1 in
  bindings s' = bindings s
  ∧ s_updateFlags s'
    = (if s_useVertexArrayObjects s
       then Z.land (s_updateFlags s) (not32 Update_VAO) else s_updateFlags s)
  ∧ s_dirtyTextureUnits s' = s_dirtyTextureUnits s
  ∧ s_targetSize s' = s_targetSize s.
Proof.
  unfold UpdateVAO.
  destruct (s_useVertexArrayObjects s) eqn:Hvao; [|by rewrite Hvao].
  match goal with
  | |- context [FindOrCreateVAO W ?c ?k s] =>
      pose proof (FindOrCreateVAO_frame W c k s) as Hframe;
      destruct (FindOrCreateVAO W c k s) as [[s1 update] c1]
  end.
  simpl in Hframe. destruct Hframe as (Hb & Hf & Hd & Ht).
  assert (s_useVertexArrayObjects s1 = true) as ->
    by (unfold bindings in Hb; congruence).
  simpl. unfold bindings in *. simpl. by rewrite Hf.
Qed.

(** The arithmetic of the update flags, by cases on their sixteen
    values. *)
Lemma flags_cases (f : Z) :
  flags_wf f →
  (f = 0 ∨ f = 1 ∨ f = 2 ∨ f = 3 ∨ f = 4 ∨ f = 5 ∨ f = 6 ∨ f = 7 ∨ f = 8
   ∨ f = 9 ∨ f = 10 ∨ f = 11 ∨ f = 12 ∨ f = 13 ∨ f = 14 ∨ f = 15)%Z.
Proof. unfold flags_wf. lia. Qed.

Ltac each_flags_value H :=
  apply flags_cases in H;
  repeat (destruct H as [->|H]); try rewrite H in *.

Lemma flags_arith (f : Z) :
  flags_wf f →
  let f1 := after_program f in
  let f3 := after_matrices (after_textures f1) in
  has_flag f1 Update_Textures = has_flag f Update_Textures
  ∧ (f1 = Update_None → Z.land f Update_VAO = 0%Z)
  ∧ (has_flag f3 Update_VAO = true →
     f3 = Update_VAO ∧ has_flag f Update_VAO = true
     ∧ Z.land f3 (not32 Update_VAO) = Update_None
     ∧ Z.land f Update_VAO = Update_VAO)
  ∧ (has_flag f3 Update_VAO = false →
     f3 = Update_None ∧ Z.land f Update_VAO = 0%Z).
Proof.
  intros Hwf. each_flags_value Hwf; vm_compute; repeat split; congruence.
Qed.

(** The conditional blocks, entered or not. *)
Lemma Program_stage W s :
  let r :=
    if has_flag (s_updateFlags s) Update_Program
    then ResolveUniformLocations W s else (s, []) in
  bindings r.1 = bindings s
  ∧ s_updateFlags r.1 = after_program (s_updateFlags s)
  ∧ s_dirtyTextureUnits r.1 = s_dirtyTextureUnits s.
Proof.
  unfold after_program. destruct (has_flag _ _); [|done].
  by destruct (ResolveUniformLocations_spec W s) as (? & ? & ? & ?).
Qed.

Lemma Textures_stage s :
  let r :=
    if has_flag (s_updateFlags s) Update_Textures
    then UpdateTextures s else (s, []) in
  bindings r.1 = bindings s
  ∧ s_updateFlags r.1 = after_textures (s_updateFlags s)
  ∧ s_dirtyTextureUnits r.1
    = (if has_flag (s_updateFlags s) Update_Textures
       then ∅ else s_dirtyTextureUnits s)
  ∧ s_targetSize r.1 = s_targetSize s.
Proof.
  unfold after_textures. destruct (has_flag _ _); [|done].
  apply UpdateTextures_spec.
Qed.

Lemma Matrices_stage s :
  let r :=
    if has_flag (s_updateFlags s) Update_Matrices
    then UpdateMatrices s else (s, []) in
  bindings r.1 = bindings s
  ∧ s_updateFlags r.1 = after_matrices (s_updateFlags s)
  ∧ s_dirtyTextureUnits r.1 = s_dirtyTextureUnits s
  ∧ s_targetSize r.1 = s_targetSize s.
Proof.
  unfold after_matrices. destruct (has_flag _ _); [|done].
  apply UpdateMatrices_spec.
Qed.

Lemma bindings_inv s s' :
  bindings s' = bindings s →
  s_program s' = s_program s ∧ s_target s' = s_target s
  ∧ s_vertexBuffer s' = s_vertexBuffer s
  ∧ s_useVertexArrayObjects s' = s_useVertexArrayObjects s.
Proof. unfold bindings. intros [=]. by repeat split. Qed.

(** A call that passes the three preconditions either fails on the
    missing vertex buffer or succeeds; the flags it leaves in each case. *)
Lemma EnsureStateUpdate_cases W s (ok : bool) s' (c : list Call) :
  flags_wf (s_updateFlags s) →
  NzContext_GetCurrent W ≠ nullptr →
  s_program s ≠ nullptr →
  s_target s ≠ nullptr →
  EnsureStateUpdate W s = (ok, s', c) →
  bindings s' = bindings s
  ∧ s_targetSize s' = target_size W s
  ∧ (ok = false
     ∧ s_vertexBuffer s = nullptr
     ∧ has_flag (s_updateFlags s) Update_VAO = true
     ∧ s_updateFlags s' = Update_VAO
     ∧ s_dirtyTextureUnits s'
       = (if has_flag (s_updateFlags s) Update_Textures
          then ∅ else s_dirtyTextureUnits s)
     ∨ ok = true
       ∧ s_updateFlags s'
         = (if s_useVertexArrayObjects s then Update_None
            else Z.land (s_updateFlags s) Update_VAO)).
Proof.
  intros Hwf Hctx Hprog Htarget. unfold EnsureStateUpdate.
  rewrite !bool_decide_eq_false_2 by done.
  destruct (flags_arith _ Hwf) as (Htex & Hzero & Hvao & Hnovao).
  pose proof (Program_stage W s) as (B1 & F1 & D1).
  destruct (if has_flag (s_updateFlags s) Update_Program then _ else _)
    as [s1 c1]. cbn [fst] in B1, F1, D1.
  pose proof (SendTargetSize_spec W s1) as (B2 & F2 & D2 & T2).
  destruct (SendTargetSize W s1) as [s2 c2]. cbn [fst] in B2, F2, D2, T2.
  assert (target_size W s1 = target_size W s) as HT
    by (unfold target_size; destruct (bindings_inv _ _ B1) as (_ & -> & _); done).
  rewrite HT in T2. rewrite F1 in F2. rewrite D1 in D2. rewrite B1 in B2.
  clear B1 F1 D1 HT.
  case_bool_decide as Hdirty.
  2:{ intros [= <- <- <-]. split; [done|]. split; [done|]. right.
      split; [done|]. rewrite F2 in Hdirty. rewrite F2, Hdirty, (Hzero Hdirty).
      by destruct (s_useVertexArrayObjects s). }
  pose proof (Textures_stage s2) as (B3 & F3 & D3 & T3).
  destruct (if has_flag (s_updateFlags s2) Update_Textures then _ else _)
    as [s3 c3]. cbn [fst] in B3, F3, D3, T3.
  pose proof (Matrices_stage s3) as (B4 & F4 & D4 & T4).
  destruct (if has_flag (s_updateFlags s3) Update_Matrices then _ else _)
    as [s4 c4]. cbn [fst] in B4, F4, D4, T4.
  rewrite F2 in F3, D3. rewrite F3 in F4. rewrite D3, D2, Htex in D4.
  rewrite T3, T2 in T4. rewrite B3, B2 in B4.
  clear B2 F2 D2 T2 B3 F3 D3 T3.
  rewrite F4. destruct (has_flag _ Update_VAO) eqn:Hv.
  - destruct (Hvao eq_refl) as (Hf3 & Hfv & Hclr & Hland).
    destruct (bindings_inv _ _ B4) as (_ & _ & Hvb & Huse).
    case_bool_decide as Hnull.
    + intros [= <- <- <-]. split; [done|]. split; [done|]. left.
      rewrite F4, Hf3. repeat split; congruence.
    + pose proof (UpdateVAO_spec W s4) as (B5 & F5 & D5 & T5).
      destruct (UpdateVAO W s4) as [s5 c5]. cbn [fst] in B5, F5, D5, T5.
      intros [= <- <- <-]. split; [congruence|]. split; [congruence|].
      right. split; [done|]. rewrite F5, Huse, F4, Hf3.
      rewrite Hland. by destruct (s_useVertexArrayObjects s).
  - destruct (Hnovao eq_refl) as (Hf3 & Hland).
    intros [= <- <- <-]. split; [done|]. split; [done|]. right.
    split; [done|]. rewrite F4, Hf3, Hland.
    by destruct (s_useVertexArrayObjects s).
Qed.

(** With nothing dirty and the target size on record, a call changes
    nothing and makes the unconditional calls. *)
Lemma EnsureStateUpdate_clean W s :
  NzContext_GetCurrent W ≠ nullptr →
  s_program s ≠ nullptr →
  s_target s ≠ nullptr →
  s_updateFlags s = Update_None →
  s_targetSize s = target_size W s →
  EnsureStateUpdate W s = (true, s, unconditional_calls W s).
Proof.
  intros Hctx Hprog Htarget Hflags Hsize.
  unfold EnsureStateUpdate, unconditional_calls.
  rewrite !bool_decide_eq_false_2 by done.
  rewrite Hflags. cbn [has_flag]. 
  change (has_flag Update_None Update_Program) with false. cbn iota.
  unfold SendTargetSize. rewrite bool_decide_eq_false_2 by (by intros []).
  rewrite Hflags. by rewrite bool_decide_eq_false_2 by (by intros []).
Qed.

(** A failing call found one of the three preconditions violated, or ran
    up to the missing vertex buffer. *)
Lemma EnsureStateUpdate_precondition W s :
  NzContext_GetCurrent W = nullptr ∨ s_program s = nullptr
  ∨ s_target s = nullptr →
  EnsureStateUpdate W s = (false, s, []).
Proof.
  intros Hpre. unfold EnsureStateUpdate.
  destruct (decide (NzContext_GetCurrent W = nullptr));
    [by rewrite bool_decide_eq_true_2|rewrite bool_decide_eq_false_2 by done].
  destruct (decide (s_program s = nullptr));
    [by rewrite bool_decide_eq_true_2|rewrite bool_decide_eq_false_2 by done].
  rewrite bool_decide_eq_true_2; [done|]. tauto.
Qed.

(** C2 (amended).  A call that fails on a precondition (no active context,
    no shader program, no render target) returns the state it was given
    and has made no call.  A call that fails otherwise found no vertex
    buffer while [Update_VAO] was set, after the program, the textures and
    the matrices had been dealt with: it leaves [Update_VAO] as the only
    update flag, and the set of dirty texture units empty if
    [Update_Textures] was set (as it was, if not). *)
Theorem EnsureStateUpdate_failure_dirty_state W s s' (c : list Call) :
  flags_wf (s_updateFlags s) →
  EnsureStateUpdate W s = (false, s', c) →
  (NzContext_GetCurrent W = nullptr ∨ s_program s = nullptr
   ∨ s_target s = nullptr)
  ∧ s' = s ∧ c = []
  ∨ NzContext_GetCurrent W ≠ nullptr ∧ s_program s ≠ nullptr
    ∧ s_target s ≠ nullptr
    ∧ s_vertexBuffer s = nullptr
    ∧ has_flag (s_updateFlags s) Update_VAO = true
    ∧ s_updateFlags s' = Update_VAO
    ∧ s_dirtyTextureUnits s'
      = (if has_flag (s_updateFlags s) Update_Textures
         then ∅ else s_dirtyTextureUnits s).
Proof.
  intros Hwf Hrun.
  destruct (decide (NzContext_GetCurrent W = nullptr ∨ s_program s = nullptr
                    ∨ s_target s = nullptr)) as [Hpre|Hpre].
  - left. rewrite EnsureStateUpdate_precondition in Hrun by done.
    by injection Hrun as <- <-.
  - right.
    assert (NzContext_GetCurrent W ≠ nullptr ∧ s_program s ≠ nullptr
            ∧ s_target s ≠ nullptr) as (Hctx & Hprog & Htarget) by tauto.
    destruct (EnsureStateUpdate_cases W s false s' c Hwf Hctx Hprog Htarget
                Hrun) as (_ & _ & [Hfail|[Hok _]]); [|done].
    tauto.
Qed.

(** C4 (amended).  With vertex array objects in use, a call that succeeds
    leaves no update flag set, and a second call on the state it left
    succeeds, leaves that state as it is and makes the unconditional calls
    only: the target is brought up to date, the program and its textures
    are bound, the current vertex array is bound, each unit's texture is
    bound again and the render states are applied.  It resolves no uniform
    location, sends no matrix, updates no mipmap and no sampler, and
    programs no vertex attribute. *)
Theorem EnsureStateUpdate_twice W s s1 (c1 : list Call) :
  flags_wf (s_updateFlags s) →
  s_useVertexArrayObjects s = true →
  EnsureStateUpdate W s = (true, s1, c1) →
  s_updateFlags s1 = Update_None
  ∧ EnsureStateUpdate W s1 = (true, s1, unconditional_calls W s1).
Proof.
  intros Hwf Hvao Hrun.
  destruct (decide (NzContext_GetCurrent W = nullptr ∨ s_program s = nullptr
                    ∨ s_target s = nullptr)) as [Hpre|Hpre].
  { by rewrite EnsureStateUpdate_precondition in Hrun. }
  assert (NzContext_GetCurrent W ≠ nullptr ∧ s_program s ≠ nullptr
          ∧ s_target s ≠ nullptr) as (Hctx & Hprog & Htarget) by tauto.
  destruct (EnsureStateUpdate_cases W s true s1 c1 Hwf Hctx Hprog Htarget
              Hrun) as (Hb & Hsize & [[Hfail _]|[_ Hflags]]); [done|].
  rewrite Hvao in Hflags. split; [done|].
  destruct (bindings_inv _ _ Hb) as (Hp & Ht & _).
  apply EnsureStateUpdate_clean; try congruence.
  rewrite Hsize. unfold target_size. by rewrite Ht.
Qed.

(** ** The update flags stay among the four [Update_...] bits *)

(** Setting one of the four flags. *)
Lemma flags_wf_lor (f flag : Z) :
  flags_wf f →
  flag ∈ [Update_Matrices; Update_Program; Update_Textures; Update_VAO] →
  flags_wf (Z.lor f flag).
Proof.
  intros Hwf Hflag. rewrite !elem_of_cons, elem_of_nil in Hflag.
  destruct Hflag as [->|[->|[->|[->|[]]]]]; each_flags_value Hwf;
    by vm_compute.
Qed.

Ltac sets_one_flag :=
  apply flags_wf_lor; [done|]; rewrite !elem_of_cons; tauto.

Lemma EnsureStateUpdate_flags_wf W s :
  flags_wf (s_updateFlags s) →
  flags_wf (s_updateFlags (EnsureStateUpdate W s).1.2).
Proof.
  intros Hwf.
  destruct (decide (NzContext_GetCurrent W = nullptr ∨ s_program s = nullptr
                    ∨ s_target s = nullptr)) as [Hpre|Hpre].
  { by rewrite EnsureStateUpdate_precondition. }
  assert (NzContext_GetCurrent W ≠ nullptr ∧ s_program s ≠ nullptr
          ∧ s_target s ≠ nullptr) as (Hctx & Hprog & Htarget) by tauto.
  destruct (EnsureStateUpdate W s) as [[ok s'] c] eqn:Hrun. cbn [fst snd].
  destruct (EnsureStateUpdate_cases W s ok s' c Hwf Hctx Hprog Htarget Hrun)
    as (_ & _ & [(_ & _ & _ & -> & _)|[_ ->]]); [by vm_compute|].
  destruct (s_useVertexArrayObjects s); [by vm_compute|].
  each_flags_value Hwf; by vm_compute.
Qed.

Lemma SetTarget_flags W (target : ptr) s :
  s_updateFlags (SetTarget W target s).1.2 = s_updateFlags s.
Proof.
  unfold SetTarget. repeat case_bool_decide; try done;
    repeat (case_match; try done).
Qed.

Lemma OnResourceReleased_flags (resource : ptr) (index : Z) s :
  s_updateFlags (OnResourceReleased resource index s) = s_updateFlags s.
Proof. unfold OnResourceReleased. by repeat case_match. Qed.

(** Every state the renderer can be in satisfies the hypothesis on the
    flags made above. *)
Lemma reachable_flags_wf W s : reachable W s → flags_wf (s_updateFlags s).
Proof.
  induction 1 as
    [ | instancing s _ IH | indexBuffer s _ IH | vertexBuffer s _ IH
    | program s _ IH | target s _ IH | type m s _ IH | type s _ IH
    | unit tex s _ IH | unit smp s _ IH | resource index s _ IH | s _ IH ].
  - by vm_compute.
  - unfold EnableInstancing. case_bool_decide; [|done]. sets_one_flag.
  - unfold SetIndexBuffer. repeat case_match; try done; sets_one_flag.
  - unfold SetVertexBuffer. repeat case_match; try done; sets_one_flag.
  - unfold SetShaderProgram. repeat case_match; try done; sets_one_flag.
  - by rewrite SetTarget_flags.
  - unfold SetMatrix. sets_one_flag.
  - unfold GetMatrix. by destruct (updated _).
  - unfold SetTexture. repeat case_match; try done; sets_one_flag.
  - unfold SetTextureSampler. repeat case_match; try done; sets_one_flag.
  - by rewrite OnResourceReleased_flags.
  - by apply EnsureStateUpdate_flags_wf.
Qed.

End RendererFacts.

(** * Properties of the deferred render queue *)

Section QueueFacts.
Import DeferredRenderQueue.
Context {Matrix SkeletalData : Type}.

Abbreviation Queue := (Queue Matrix SkeletalData).
Implicit Types (S : Scene) (q : Queue).

(** ** [AddSubMesh] *)





(** ** [Clear] *)

(** [Clear(false)] empties the three lists of lights and forwards the
    call; the batches, the sprites and the registrations are what they
    were. *)
Lemma Clear_false_keeps_tables q :
  directionalLights (Clear false q) = []
  ∧ pointLights (Clear false q) = []
  ∧ spotLights (Clear false q) = []
  ∧ opaqueModels (Clear false q) = opaqueModels q
  ∧ sprites (Clear false q) = sprites q
  ∧ listeners (Clear false q) = listeners q
  ∧ m_forwardQueue (Clear false q) = m_forwardQueue q ++ [forward_Clear false].
Proof. by repeat split. Qed.

Lemma remove_meshes_listeners {A : Type} (l : list (N * A)) q :
  foldl (λ q meshIt, RemoveResourceListener meshIt.1 q) q l
  = set_listeners (foldl (λ L r, delete r L) (listeners q) l.*1) q.
Proof.
  revert q. induction l as [|[k v] l IH]; intros q; [by destruct q|].
  rewrite fmap_cons. cbn [foldl fst]. by rewrite IH.
Qed.

Lemma remove_all_listeners_eq q :
  remove_all_listeners q
  = set_listeners
      (foldl (λ L r, delete r L) (listeners q)
         (concat (resources_of <$> map_to_list (opaqueModels q)))) q.
Proof.
  unfold remove_all_listeners.
  generalize (map_to_list (opaqueModels q)) as l.
  intros l. revert q. induction l as [|matIt l IH]; intros q; [by destruct q|].
  rewrite fmap_cons. cbn [foldl concat].
  rewrite !remove_meshes_listeners, IH, foldl_app.
  unfold resources_of.
  cbn [foldl listeners set_listeners RemoveResourceListener].
  by rewrite foldl_app.
Qed.

Lemma lookup_foldl_delete (rs : list ptr) (L : gmap N Z) (r : ptr) :
  foldl (λ L r, delete r L) L rs !! r
  = if bool_decide (r ∈ rs) then None else L !! r.
Proof.
  revert L. induction rs as [|r' rs IH]; intros L; [done|].
  cbn [foldl]. rewrite IH.
  repeat case_bool_decide; rewrite elem_of_cons in *; try tauto.
  - assert (r = r') as -> by tauto. apply lookup_delete_eq.
  - apply lookup_delete_ne. intros ->. tauto.
Qed.

(** [Clear(true)] empties the lights, the batches and the sprites,
    forwards the call, and deregisters the queue from every material that
    has a batch and from every mesh of such a batch. *)
Lemma Clear_true_empties_and_deregisters q :
  directionalLights (Clear true q) = []
  ∧ pointLights (Clear true q) = []
  ∧ spotLights (Clear true q) = []
  ∧ opaqueModels (Clear true q) = ∅
  ∧ sprites (Clear true q) = ∅
  ∧ m_forwardQueue (Clear true q) = m_forwardQueue q ++ [forward_Clear true]
  ∧ ∀ (material : ptr) entry (mesh : ptr),
      opaqueModels q !! material = Some entry →
      listeners (Clear true q) !! material = None
      ∧ (is_Some (skeletalMeshes entry !! mesh)
         ∨ is_Some (staticMeshes entry !! mesh) →
         listeners (Clear true q) !! mesh = None).
Proof.
  unfold Clear. rewrite remove_all_listeners_eq.
  do 6 (split; [done|]).
  intros material entry mesh Hentry.
  cbn [opaqueModels set_lights listeners forward set_sprites set_opaqueModels
       set_listeners].
  rewrite !lookup_foldl_delete.
  apply elem_of_map_to_list in Hentry.
  assert (In (resources_of (material, entry))
            (resources_of <$> map_to_list (opaqueModels q))) as Hin
    by (apply in_map, list_elem_of_In, Hentry).
  split.
  - rewrite bool_decide_eq_true_2; [done|].
    apply list_elem_of_In, in_concat. eexists. split; [exact Hin|by left].
  - intros Hmesh. rewrite bool_decide_eq_true_2; [done|].
    apply list_elem_of_In, in_concat. eexists. split; [exact Hin|].
    right. apply in_app_iff. cbn [snd].
    destruct Hmesh as [[d Hd]|[d Hd]]; [left|right];
      apply list_elem_of_In, list_elem_of_fmap; exists (mesh, d);
      (split; [done|by apply elem_of_map_to_list]).
Qed.

End QueueFacts.

(** ** The comparators *)

Section ComparatorFacts.
Import DeferredRenderQueue.
Implicit Types (S : Scene).

(** The static comparator is the three-stage order. *)
Lemma BatchedStaticMeshComparator_three_stage S (subMesh1 subMesh2 : ptr) :
  BatchedStaticMeshComparator S subMesh1 subMesh2
  = three_stage_mesh_order_spec S subMesh1 subMesh2.
Proof.
  unfold BatchedStaticMeshComparator, three_stage_mesh_order_spec,
    index_storage, vertex_storage.
  repeat case_bool_decide; congruence.
Qed.

(** The skeletal comparator reads the index buffer of its first argument
    twice, finds the two storages equal and compares the addresses of the
    submeshes; its last branch is never taken. *)
Lemma BatchedSkeletalMeshComparator_raw S (subMesh1 subMesh2 : ptr) :
  BatchedSkeletalMeshComparator S subMesh1 subMesh2
  = bool_decide (subMesh1 < subMesh2)%N.
Proof.
  unfold BatchedSkeletalMeshComparator.
  by rewrite (bool_decide_eq_true_2 (_ = _)).
Qed.

Lemma BatchedModelMaterialComparator_lt S (a b : ptr) :
  BatchedModelMaterialComparator S a b = true ↔ material_lt S a b.
Proof.
  unfold BatchedModelMaterialComparator, material_lt. cbn [compare_programs].
  repeat case_bool_decide; split; intros; try done; try lia.
Qed.

(** C7.  The material comparator is a strict total order on materials
    (on their addresses): no material is before itself, the relation is
    transitive, and of two distinct materials exactly one is before the
    other. *)
Theorem BatchedModelMaterialComparator_strict_total_order S :
  (∀ a : ptr, BatchedModelMaterialComparator S a a = false)
  ∧ (∀ a b c : ptr,
       BatchedModelMaterialComparator S a b = true →
       BatchedModelMaterialComparator S b c = true →
       BatchedModelMaterialComparator S a c = true)
  ∧ (∀ a b : ptr, a ≠ b →
       BatchedModelMaterialComparator S a b
       = negb (BatchedModelMaterialComparator S b a)).
Proof.
  split; [|split].
  - intros a. apply not_true_is_false.
    rewrite BatchedModelMaterialComparator_lt. unfold material_lt. lia.
  - intros a b c. rewrite !BatchedModelMaterialComparator_lt.
    unfold material_lt. lia.
  - intros a b Hne.
    destruct (BatchedModelMaterialComparator S b a) eqn:Hba; simpl.
    + apply not_true_is_false. revert Hba.
      rewrite !BatchedModelMaterialComparator_lt. unfold material_lt. lia.
    + apply not_true_iff_false in Hba. revert Hba.
      rewrite !BatchedModelMaterialComparator_lt. unfold material_lt. lia.
Qed.

End ComparatorFacts.

(** * The properties on concrete instances *)

Section RendererEvaluations.
Import Renderer Examples.

(** The WorldView product is cached from the world matrix [Sym_Var 1] and
    the identity view; after the view is set to [Sym_Var 2] the product
    read is still the cached one. *)
Lemma SetMatrix_View_serves_stale_WorldView_witness :
  updated (s_matrices world_view_cached nzMatrixType_WorldView) = true
  ∧ (GetMatrix nzMatrixType_WorldView
       (SetMatrix nzMatrixType_View (Sym_Var 2%N) world_view_cached)).1
    = Sym_ConcatenateAffine (Sym_Var 1%N) Sym_Identity.
Proof.
  split; [reflexivity|].
  exact (SetMatrix_View_serves_stale_WorldView (Sym_Var 2%N) world_view_cached
           eq_refl).
Defined.

(** Recomputing the slot gives the product with the new view, and the
    WorldViewProj slot, which [SetMatrix] does invalidate, is rebuilt from
    the stale WorldView. *)
Lemma SetMatrix_View_stale_values :
  let s := SetMatrix nzMatrixType_View (Sym_Var 2%N) world_view_cached in
  matrix (s_matrices (UpdateMatrix nzMatrixType_WorldView s)
            nzMatrixType_WorldView)
  = Sym_ConcatenateAffine (Sym_Var 1%N) (Sym_Var 2%N)
  ∧ (GetMatrix nzMatrixType_WorldViewProj s).1
    = Sym_Concatenate (Sym_ConcatenateAffine (Sym_Var 1%N) Sym_Identity)
        Sym_Identity
  ∧ updated (s_matrices s nzMatrixType_World) = false.
Proof. by vm_compute. Qed.

(** C2 does not hold as first stated: with a program, a target and a texture
    set after [Initialize] and no vertex buffer, the call fails, yet the
    update flags go from all four to [Update_VAO] alone and the set of
    dirty texture units from unit 0 to none. *)
Lemma EnsureStateUpdate_failure_changes_dirty_state :
  let s := textured_without_vertex_buffer in
  let r := EnsureStateUpdate world s in
  r.1.1 = false
  ∧ s_updateFlags s = 15%Z ∧ s_updateFlags r.1.2 = 8%Z
  ∧ s_dirtyTextureUnits s = {[ 0%N ]} ∧ s_dirtyTextureUnits r.1.2 = ∅
  ∧ (s_updateFlags r.1.2, s_dirtyTextureUnits r.1.2)
    ≠ (s_updateFlags s, s_dirtyTextureUnits s).
Proof.
  cbv zeta. do 5 (split; [by vm_compute|]).
  intros [= Hflags _]; by vm_compute in Hflags.
Qed.

Lemma EnsureStateUpdate_failure_dirty_state_witness :
  let s := textured_without_vertex_buffer in
  let r := EnsureStateUpdate world s in
  flags_wf (s_updateFlags s)
  ∧ r = (false, r.1.2, r.2)
  ∧ s_updateFlags r.1.2 = Update_VAO
  ∧ s_dirtyTextureUnits r.1.2 = ∅.
Proof.
  cbv zeta.
  assert (flags_wf (s_updateFlags textured_without_vertex_buffer)) as Hwf
    by (by vm_compute).
  assert (EnsureStateUpdate world textured_without_vertex_buffer
          = (false,
             (EnsureStateUpdate world textured_without_vertex_buffer).1.2,
             (EnsureStateUpdate world textured_without_vertex_buffer).2))
    as Hrun by (vm_compute; reflexivity).
  split; [exact Hwf|]. split; [exact Hrun|].
  destruct (EnsureStateUpdate_failure_dirty_state world
              textured_without_vertex_buffer _ _ Hwf Hrun)
    as [[Hpre _]|(_ & _ & _ & _ & _ & Hflags & Hdirty)].
  - exfalso. vm_compute in Hpre. destruct Hpre as [|[|]]; discriminate.
  - split; [exact Hflags|]. exact Hdirty.
Defined.

(** C4 does not hold as first stated: without vertex array objects a
    successful call leaves [Update_VAO] set, and the second call programs
    the vertex attributes again. *)
Lemma EnsureStateUpdate_twice_without_vertex_array_objects :
  let r1 := EnsureStateUpdate world (ready_to_draw false) in
  let r2 := EnsureStateUpdate world r1.1.2 in
  r1.1.1 = true
  ∧ s_updateFlags r1.1.2 = Update_VAO
  ∧ r2.1.1 = true
  ∧ r2.2
    = [ call_EnsureTargetUpdated 20%N; call_ProgramBind 10%N;
        call_BindTextures 10%N;
        call_glBindBuffer nzBufferType_Vertex 230%N;
        call_glEnableVertexAttribArray 0%N;
        call_glVertexAttribPointer 0%N 3%N 2%N false 12%N 0%N;
        call_glDisableVertexAttribArray 1%N;
        call_glDisableVertexAttribArray 2%N;
        call_glBindBuffer nzBufferType_Index 0%N;
        call_SetBuffer nzBufferType_Index 0%N;
        call_SetBuffer nzBufferType_Vertex 0%N;
        call_BindTexture 0%N 1%N 160%N; call_ApplyStates () ].
Proof. by vm_compute. Qed.

Lemma EnsureStateUpdate_twice_witness :
  let r1 := EnsureStateUpdate world (ready_to_draw true) in
  flags_wf (s_updateFlags (ready_to_draw true))
  ∧ s_useVertexArrayObjects (ready_to_draw true) = true
  ∧ r1 = (true, r1.1.2, r1.2)
  ∧ s_updateFlags r1.1.2 = Update_None
  ∧ EnsureStateUpdate world r1.1.2
    = (true, r1.1.2, unconditional_calls world r1.1.2).
Proof.
  cbv zeta.
  assert (flags_wf (s_updateFlags (ready_to_draw true))) as Hwf
    by (by vm_compute).
  assert (EnsureStateUpdate world (ready_to_draw true)
          = (true, (EnsureStateUpdate world (ready_to_draw true)).1.2,
             (EnsureStateUpdate world (ready_to_draw true)).2))
    as Hrun by (vm_compute; reflexivity).
  split; [exact Hwf|]. split; [reflexivity|]. split; [exact Hrun|].
  exact (EnsureStateUpdate_twice world (ready_to_draw true) _ _ Hwf eq_refl
           Hrun).
Defined.

(** The calls of that second call. *)
Lemma EnsureStateUpdate_second_call_trace :
  unconditional_calls world
    (EnsureStateUpdate world (ready_to_draw true)).1.2
  = [ call_EnsureTargetUpdated 20%N; call_ProgramBind 10%N;
      call_BindTextures 10%N; call_glBindVertexArray 7%N;
      call_BindTexture 0%N 1%N 160%N; call_ApplyStates () ].
Proof. by vm_compute. Qed.

(** The first look-up creates vertex array 7 for the key; a look-up for
    another key creates and selects vertex array 8; the look-up for the
    first key again, when [glGenVertexArrays] would answer 9, selects the
    cached 7.  Releasing declaration 3, which the key holds, removes the
    entry; releasing declaration 4 keeps it. *)
Lemma VAO_cache_lookup_and_purge_witness :
  let s0 : ExState := Initialize true true 2%N () in
  let key := (1%N, 2%N, 3%N, 0%N) in
  let s1 := (FindOrCreateVAO world 1%N key s0).1.1 in
  let between := [(world_naming 8%N, 1%N, (0%N, 2%N, 3%N, 4%N))] in
  let s2 := lookups between s1 in
  let again := FindOrCreateVAO (world_naming 9%N) 1%N key s2 in
  (s_currentVAO s1 = 7%N ∧ s_currentVAO s2 = 8%N)
  ∧ cached_vao s1 1%N key = Some (s_currentVAO s1)
  ∧ cached_vao again.1.1 1%N key = Some (s_currentVAO s1)
  ∧ s_currentVAO again.1.1 = s_currentVAO s1
  ∧ again.1.2 = false
  ∧ again.2 = []
  ∧ cached_vao
      (OnResourceReleased 3%N
         (index_of_ResourceType ResourceType_VertexDeclaration) s2)
      1%N key
    = None
  ∧ cached_vao
      (OnResourceReleased 4%N
         (index_of_ResourceType ResourceType_VertexDeclaration) s2)
      1%N key
    = Some 7%N.
Proof.
  cbv zeta.
  destruct (@VAO_cache_lookup_and_purge SymMatrix bool ()) as [Hfind Hpurge].
  destruct (Hfind world (world_naming 9%N) 1%N (1%N, 2%N, 3%N, 0%N)
              (Initialize true true 2%N ())
              [(world_naming 8%N, 1%N, (0%N, 2%N, 3%N, 4%N))])
    as (Hfirst & _ & _ & Hcached & Hsame & Hflag & Hcalls).
  split; [split; reflexivity|].
  split; [exact Hfirst|]. split; [exact Hcached|]. split; [exact Hsame|].
  split; [exact Hflag|]. split; [exact Hcalls|]. split.
  - apply (Hpurge kind_of ResourceType_VertexDeclaration 3%N);
      [reflexivity|discriminate|discriminate|].
    intros _. vm_compute. tauto.
  - apply (Hpurge kind_of ResourceType_VertexDeclaration 4%N);
      [reflexivity|discriminate|discriminate|].
    intros _. vm_compute. tauto.
Defined.

Lemma SetTexture_same_texture_is_noop_witness :
  SetTexture world 0%N 60%N (ready_to_draw true) = ready_to_draw true
  ∧ SetTexture world 0%N 60%N (SetTexture world 0%N 60%N (ready_to_draw true))
    = SetTexture world 0%N 60%N (ready_to_draw true).
Proof.
  destruct (SetTexture_same_texture_is_noop world 0%N 60%N (ready_to_draw true))
    as [Hsame Htwice].
  split; [|exact Htwice].
  eapply Hsame; reflexivity.
Defined.

End RendererEvaluations.

Section QueueEvaluations.
Import DeferredRenderQueue Examples.


(** The flag after one to five submissions. *)
Lemma instancing_flag_by_count :
  (λ n : nat,
     enableInstancing
     <$> opaqueModels
           (submit_all scene 5%N 2%N (replicate n Sym_Identity)
              (empty_queue : ExQueue)) !! 5%N)
  <$> [1; 2; 3; 4; 5]
  = [Some false; Some false; Some true; Some true; Some true].
Proof. by vm_compute. Qed.

Lemma BatchedModelMaterialComparator_strict_total_order_witness :
  BatchedModelMaterialComparator scene 5%N 5%N = false
  ∧ BatchedModelMaterialComparator scene 6%N 7%N = true
  ∧ BatchedModelMaterialComparator scene 5%N 6%N
    = negb (BatchedModelMaterialComparator scene 6%N 5%N).
Proof.
  destruct (BatchedModelMaterialComparator_strict_total_order scene)
    as (Hirreflexive & Htransitive & Htotal).
  split; [apply Hirreflexive|]. split.
  - apply (Htransitive 6%N 5%N 7%N); reflexivity.
  - apply Htotal. discriminate.
Defined.

(** C3 (the code departs from the specification).  Submesh 1 has its
    indices in buffer 20, submesh 2 in buffer 10: the three-stage order
    puts submesh 2 first, and so does the static comparator; the skeletal
    comparator, which never looks at the second submesh's buffers, puts
    submesh 1 first.
    Submeshes 3 and 4 share their index storage and have their vertices in
    buffers 50 and 40: the three-stage order and the static comparator put
    submesh 4 first, the skeletal comparator, which has no vertex-buffer
    stage, submesh 3. *)
Theorem BatchedSkeletalMeshComparator_ignores_buffers :
  (index_storage scene 1%N = 20%N
   ∧ index_storage scene 2%N = 10%N
   ∧ three_stage_mesh_order_spec scene 1%N 2%N = false
   ∧ BatchedStaticMeshComparator scene 1%N 2%N = false
   ∧ BatchedSkeletalMeshComparator scene 1%N 2%N = true)
  ∧ (index_storage scene 3%N = index_storage scene 4%N
     ∧ vertex_storage scene 3%N = 50%N
     ∧ vertex_storage scene 4%N = 40%N
     ∧ three_stage_mesh_order_spec scene 3%N 4%N = false
     ∧ BatchedStaticMeshComparator scene 3%N 4%N = false
     ∧ BatchedSkeletalMeshComparator scene 3%N 4%N = true).
Proof. by vm_compute. Qed.

(** C8 (the code departs from the specification).  Submesh 2 is submitted
    with material 5, which registers the queue on both; material 5 is
    destroyed, and its batch is erased with the submesh in it.  [Clear(true)] then finds no
    batch, empties the tables and leaves the queue registered on submesh 2:
    destroying the submesh afterwards calls the queue back. *)
Theorem Clear_true_leaves_mesh_registered :
  let before : ExQueue := AddSubMesh scene 5%N 2%N (Sym_Var 1%N) empty_queue in
  let q := Clear true material_destroyed_mid_frame in
  callback_fires 5%N before = true
  ∧ callback_fires 2%N before = true
  ∧ opaqueModels material_destroyed_mid_frame = ∅
  ∧ opaqueModels q = ∅
  ∧ sprites q = ∅
  ∧ listeners q = {[ 2%N := index_of_ResourceType ResourceType_StaticMesh ]}
  ∧ callback_fires 2%N q = true.
Proof. by vm_compute. Qed.

End QueueEvaluations.

(** * Further properties of the renderer

    The dirty marks of the state cache: what each function leaves
    pending is covered by the flag it sets, and [EnsureStateUpdate]
    leaves nothing pending. *)

Section InvariantFacts.
Import Renderer Drawing.
Context {Matrix Sampler RenderStates : Type}.
Context `{!NzMatrix4 Matrix} `{!NzTextureSamplerOps Sampler}.

Abbreviation State := (State Matrix Sampler RenderStates).
Abbreviation Call := (Call Matrix Sampler RenderStates).
Abbreviation Slots := (nzMatrixType → MatrixUnit Matrix).
Implicit Types (s : State) (W : World) (D : Device) (ms : Slots).

Lemma location_set_matrix (t t' : nzMatrixType) (m : Matrix) ms :
  location (set_matrix t m ms t') = location (ms t').
Proof.
  unfold set_matrix. destruct (decide (t = t')) as [->|Hne].
  - by rewrite fn_lookup_insert.
  - by rewrite fn_lookup_insert_ne.
Qed.

Lemma updated_set_matrix (t t' : nzMatrixType) (m : Matrix) ms :
  updated (set_matrix t m ms t') = updated (ms t').
Proof.
  unfold set_matrix. destruct (decide (t = t')) as [->|Hne].
  - by rewrite fn_lookup_insert.
  - by rewrite fn_lookup_insert_ne.
Qed.

Lemma location_set_updated (t t' : nzMatrixType) (b : bool) ms :
  location (set_updated t b ms t') = location (ms t').
Proof.
  unfold set_updated. destruct (decide (t = t')) as [->|Hne].
  - by rewrite fn_lookup_insert.
  - by rewrite fn_lookup_insert_ne.
Qed.

Lemma updated_set_updated (t t' : nzMatrixType) (b : bool) ms :
  updated (set_updated t b ms t')
  = if decide (t = t') then b else updated (ms t').
Proof.
  unfold set_updated. destruct (decide (t = t')) as [->|Hne].
  - by rewrite fn_lookup_insert.
  - by rewrite fn_lookup_insert_ne.
Qed.

Ltac slot_fields :=
  rewrite ?location_set_updated, ?location_set_matrix,
    ?updated_set_updated, ?updated_set_matrix.

Lemma UpdateMatrix_rec_fields (depth : nat) (type t' : nzMatrixType) ms :
  location (UpdateMatrix_rec depth type ms t') = location (ms t')
  ∧ (updated (ms t') = true → updated (UpdateMatrix_rec depth type ms t') = true).
Proof.
  revert type ms. induction depth as [|depth IH]; intros type ms; [done|].
  assert (∀ src dest ms,
    location (UpdateInverse (UpdateMatrix_rec depth) src dest ms t') = location (ms t')
    ∧ (updated (ms t') = true →
       updated (UpdateInverse (UpdateMatrix_rec depth) src dest ms t') = true)) as Hinv.
  { intros src dest ms0. unfold UpdateInverse.
    destruct (updated (ms0 src)); destruct (GetInverse _ _) as [b inv];
      slot_fields; (split; [try done; apply IH|]); intros Hup;
      destruct (decide _); try done; by apply IH. }
  destruct type; cbn [UpdateMatrix_rec]; try apply Hinv; slot_fields;
    try (split; [done|]; intros Hup; by destruct (decide _)).
  destruct (updated (ms nzMatrixType_WorldView)); slot_fields;
    (split; [try done; apply IH|]); intros Hup;
    destruct (decide _); try done; by apply IH.
Qed.

Lemma UpdateMatrix_rec_updated (depth : nat) (type : nzMatrixType) ms :
  updated (UpdateMatrix_rec (S depth) type ms type) = true.
Proof.
  destruct type; cbn [UpdateMatrix_rec]; unfold UpdateInverse;
    repeat match goal with
    | |- context [if ?b then _ else _] => destruct b
    | |- context [GetInverse ?a ?b] => destruct (GetInverse a b)
    end; slot_fields; by rewrite decide_True.
Qed.


(** ** Loops *)

Lemma for_each_related {A : Type} (R : State → State → Prop)
    (body : A → State → State * list Call) (l : list A) s :
  (∀ s, R s s) → (∀ s1 s2 s3, R s1 s2 → R s2 s3 → R s1 s3) →
  (∀ x s, R s (body x s).1) →
  R s (for_each body l s).1.
Proof.
  intros Hrefl Htrans Hbody. revert s.
  induction l as [|x l IH]; intros s; [apply Hrefl|].
  cbn [for_each]. specialize (Hbody x s). destruct (body x s) as [s1 c1].
  specialize (IH s1). destruct (for_each body l s1) as [s2 c2].
  eapply Htrans; [exact Hbody|exact IH].
Qed.

Lemma for_each_handles {A : Type} (R : State → State → Prop)
    (Q : A → State → Prop)
    (body : A → State → State * list Call) (l : list A) s :
  (∀ s, R s s) → (∀ s1 s2 s3, R s1 s2 → R s2 s3 → R s1 s3) →
  (∀ x s, R s (body x s).1) →
  (∀ x s, Q x (body x s).1) →
  (∀ x s s', R s s' → Q x s → Q x s') →
  ∀ x, x ∈ l → Q x (for_each body l s).1.
Proof.
  intros Hrefl Htrans Hbody Hdone Hstable. revert s.
  induction l as [|y l IH]; intros s x Hx; [by apply elem_of_nil in Hx|].
  cbn [for_each].
  pose proof (Hbody y s) as HR. pose proof (Hdone y s) as HQ.
  destruct (body y s) as [s1 c1].
  pose proof (for_each_related R body l s1 Hrefl Htrans Hbody) as HR2.
  specialize (IH s1 x).
  destruct (for_each body l s1) as [s2 c2]. cbn [fst] in *.
  apply elem_of_cons in Hx as [->|Hx]; [|by apply IH].
  by eapply Hstable.
Qed.

(** ** The texture units *)

Lemma units_settle_refl s : units_settle s s.
Proof. by repeat split. Qed.

Lemma units_settle_trans s1 s2 s3 :
  units_settle s1 s2 → units_settle s2 s3 → units_settle s1 s3.
Proof.
  intros (M1 & L1 & P1) (M2 & L2 & P2). repeat split; try congruence.
  intros j Hj. by apply P2, P1.
Qed.

Lemma settle_unit s (i : nat) (u u' : TextureUnit Sampler) :
  s_textureUnits s !! i = Some u →
  textureUpdated u' = true → samplerUpdated u' = true →
  let s' := set_s_textureUnits (<[i := u']> (s_textureUnits s)) s in
  units_settle s s' ∧ ¬ unit_pending s' i.
Proof.
  intros Hu Htu Hsu s'.
  assert (¬ unit_pending s' i) as Hi.
  { intros (u0 & Hu0 & _ & Hp). cbn in Hu0.
    apply list_lookup_insert_Some in Hu0 as [(_ & <- & _)|[? _]]; [|done].
    destruct Hp; congruence. }
  split; [|done]. split; [done|]. split; [apply length_insert|].
  intros j Hj. destruct (decide (j = i)) as [->|Hne]; [done|].
  intros (u0 & Hu0 & Hp). apply Hj. exists u0. split; [|done].
  cbn in Hu0. by rewrite list_lookup_insert_ne in Hu0.
Qed.

Lemma not_pending_without_texture s (i : nat) :
  (∀ u : TextureUnit Sampler,
     s_textureUnits s !! i = Some u → texture u = nullptr) →
  ¬ unit_pending s i.
Proof. intros Hnull (u & Hu & Ht & _). by apply Ht, Hnull. Qed.

Lemma UpdateTextureUnit_samplerObjects_settles (i : N) s :
  let s' := (UpdateTextureUnit_samplerObjects i s).1 in
  units_settle s s' ∧ ¬ unit_pending s' (N.to_nat i).
Proof.
  unfold UpdateTextureUnit_samplerObjects.
  destruct (s_textureUnits s !! N.to_nat i) as [u|] eqn:Hu; cbn zeta.
  2:{ split; [apply units_settle_refl|].
      apply not_pending_without_texture. intros u. cbn. congruence. }
  case_bool_decide as Ht.
  - destruct (textureUpdated u) eqn:Htu, (samplerUpdated u) eqn:Hsu;
      by apply (settle_unit s _ u).
  - split; [apply units_settle_refl|].
    apply not_pending_without_texture. intros u0. cbn. rewrite Hu.
    intros [= <-]. by destruct (decide (texture u = nullptr)).
Qed.

Lemma UpdateTextureUnit_fallback_settles (i : N) s :
  let s' := (UpdateTextureUnit_fallback i s).1 in
  units_settle s s' ∧ ¬ unit_pending s' (N.to_nat i).
Proof.
  unfold UpdateTextureUnit_fallback.
  destruct (s_textureUnits s !! N.to_nat i) as [u|] eqn:Hu; cbn zeta.
  2:{ split; [apply units_settle_refl|].
      apply not_pending_without_texture. intros u. cbn. congruence. }
  case_bool_decide as Ht.
  - by apply (settle_unit s _ u).
  - split; [apply units_settle_refl|].
    apply not_pending_without_texture. intros u0. cbn. rewrite Hu.
    intros [= <-]. by destruct (decide (texture u = nullptr)).
Qed.

(** [UpdateTextures] leaves no dirty unit pending, and no unit pending
    that was not. *)
Lemma UpdateTextures_settles s :
  let s' := (UpdateTextures s).1 in
  s_matrices s' = s_matrices s
  ∧ length (s_textureUnits s') = length (s_textureUnits s)
  ∧ ∀ j : nat,
      N.of_nat j ∈ s_dirtyTextureUnits s ∨ ¬ unit_pending s j →
      ¬ unit_pending s' j.
Proof.
  unfold UpdateTextures.
  set (body := if s_useSamplerObjects s then _ else _).
  assert (∀ i s0, units_settle s0 (body i s0).1
                  ∧ ¬ unit_pending (body i s0).1 (N.to_nat i)) as Hbody.
  { intros i s0. unfold body. destruct (s_useSamplerObjects s);
      [apply UpdateTextureUnit_samplerObjects_settles
      |apply UpdateTextureUnit_fallback_settles]. }
  pose proof (for_each_related units_settle body
                (dirty_units_in_order (s_dirtyTextureUnits s)) s
                units_settle_refl units_settle_trans
                (λ i s0, proj1 (Hbody i s0))) as (HM & HL & HP).
  pose proof (for_each_handles units_settle
                (λ i s0, ¬ unit_pending s0 (N.to_nat i)) body
                (dirty_units_in_order (s_dirtyTextureUnits s)) s
                units_settle_refl units_settle_trans
                (λ i s0, proj1 (Hbody i s0))
                (λ i s0, proj2 (Hbody i s0))) as HQ.
  destruct (for_each body _ s) as [s1 c1]. cbn [fst] in *.
  assert (∀ j, unit_pending
                 (set_s_updateFlags
                    (Z.land (s_updateFlags (set_s_dirtyTextureUnits ∅ s1))
                       (not32 Update_Textures))
                    (set_s_dirtyTextureUnits ∅ s1)) j
               ↔ unit_pending s1 j) as Hsame by done.
  split; [done|]. split; [done|].
  intros j Hj. rewrite Hsame. destruct Hj as [Hj|Hj]; [|by apply HP].
  rewrite <- (Nat2N.id j). apply HQ.
  - intros i s0 s0' (_ & _ & Hp). apply Hp.
  - unfold dirty_units_in_order.
    rewrite merge_sort_Permutation. by apply elem_of_elements.
Qed.


(** ** The matrix slots *)

Lemma slots_settle_refl s : slots_settle s s.
Proof. by repeat split. Qed.

Lemma slots_settle_trans s1 s2 s3 :
  slots_settle s1 s2 → slots_settle s2 s3 → slots_settle s1 s3.
Proof.
  intros (U1 & L1 & P1) (U2 & L2 & P2). split; [congruence|]. split.
  - intros t. by rewrite L2.
  - intros t Ht. by apply P2, P1.
Qed.

Lemma UpdateMatrix_settles (type : nzMatrixType) s :
  slots_settle s (UpdateMatrix type s)
  ∧ updated (s_matrices (UpdateMatrix type s) type) = true.
Proof.
  unfold UpdateMatrix. cbn [set_s_matrices s_matrices].
  split; [|apply UpdateMatrix_rec_updated].
  split; [done|]. split; intros t; apply UpdateMatrix_rec_fields.
Qed.

Lemma SendMatrixUnit_settles (type : nzMatrixType) s :
  let s' := (SendMatrixUnit type s).1 in
  slots_settle s s' ∧ ¬ slot_pending s' type.
Proof.
  unfold SendMatrixUnit. case_bool_decide as Hloc; cbn zeta.
  - destruct (updated (s_matrices s type)) eqn:Hup; cbn [fst].
    + split; [apply slots_settle_refl|]. intros [_ ?]. congruence.
    + destruct (UpdateMatrix_settles type s) as [Hs Hu].
      split; [done|]. intros [_ ?]. congruence.
  - split; [apply slots_settle_refl|]. intros [? _]. cbn [fst] in *.
    by destruct (decide (location (s_matrices s type) = (-1)%Z)).
Qed.

Lemma elem_of_all_matrix_types (type : nzMatrixType) :
  type ∈ all_matrix_types.
Proof.
  unfold all_matrix_types. rewrite !elem_of_cons. destruct type; auto 20.
Qed.

(** [UpdateMatrices] leaves no slot pending. *)
Lemma UpdateMatrices_settles s :
  let s' := (UpdateMatrices s).1 in
  slots_settle s s' ∧ ∀ type, ¬ slot_pending s' type.
Proof.
  unfold UpdateMatrices.
  pose proof (for_each_related slots_settle SendMatrixUnit all_matrix_types s
                slots_settle_refl slots_settle_trans
                (λ t s0, proj1 (SendMatrixUnit_settles t s0))) as HR.
  pose proof (for_each_handles slots_settle (λ t s0, ¬ slot_pending s0 t)
                SendMatrixUnit all_matrix_types s
                slots_settle_refl slots_settle_trans
                (λ t s0, proj1 (SendMatrixUnit_settles t s0))
                (λ t s0, proj2 (SendMatrixUnit_settles t s0))) as HQ.
  destruct (for_each SendMatrixUnit all_matrix_types s) as [s1 c1].
  cbn [fst] in *. split; [done|]. intros type.
  change (¬ slot_pending s1 type). apply HQ; [|apply elem_of_all_matrix_types].
  intros t s0 s0' (_ & HL & HU) Hn [Hloc Hup]. apply Hn.
  split; [by rewrite <- HL|].
  destruct (updated (s_matrices s0 t)) eqn:E; [|done].
  apply HU in E. congruence.
Qed.

Lemma set_location_fields (t t' : nzMatrixType) (l : Z) ms :
  location (set_location t l ms t')
  = (if decide (t = t') then l else location (ms t'))
  ∧ updated (set_location t l ms t') = updated (ms t').
Proof.
  unfold set_location. destruct (decide (t = t')) as [->|Hne].
  - by rewrite fn_lookup_insert.
  - by rewrite fn_lookup_insert_ne.
Qed.

Lemma foldl_set_location_fields (f : nzMatrixType → Z)
    (ts : list nzMatrixType) (t : nzMatrixType) ms :
  let ms' := foldl (λ ms t, set_location t (f t) ms) ms ts in
  location (ms' t) = (if decide (t ∈ ts) then f t else location (ms t))
  ∧ updated (ms' t) = updated (ms t).
Proof.
  revert ms. induction ts as [|t0 ts IH]; intros ms; cbn zeta.
  { split; [|done]. rewrite decide_False; [done|]. apply not_elem_of_nil. }
  cbn [foldl]. destruct (IH (set_location t0 (f t0) ms)) as [-> ->].
  destruct (set_location_fields t0 t (f t0) ms) as [-> ->].
  split; [|done].
  repeat case_decide; rewrite ?elem_of_cons in *; subst; try done;
    exfalso; intuition congruence.
Qed.

(** [ResolveUniformLocations] assigns the locations of the bound program
    and nothing else of the slots. *)
Lemma ResolveUniformLocations_slots W s :
  let s' := (ResolveUniformLocations W s).1 in
  s_textureUnits s' = s_textureUnits s
  ∧ locations_resolved W s'
  ∧ ∀ t, updated (s_matrices s' t) = updated (s_matrices s t).
Proof.
  unfold ResolveUniformLocations, locations_resolved.
  cbn [fst set_s_updateFlags set_s_targetSize set_s_matrices s_matrices
       s_textureUnits s_program].
  split; [done|].
  split; intros t;
    destruct (foldl_set_location_fields
                (λ t, GetUniformLocation W (s_program s) (matrix_uniform t))
                all_matrix_types t (s_matrices s)) as [E1 E2]; [|done].
  rewrite E1, decide_True; [done|apply elem_of_all_matrix_types].
Qed.

Lemma SendTargetSize_slots W s :
  let s' := (SendTargetSize W s).1 in
  s_textureUnits s' = s_textureUnits s ∧ s_matrices s' = s_matrices s.
Proof. unfold SendTargetSize. by case_bool_decide. Qed.

Lemma UpdateVAO_slots W s :
  let s' := (UpdateVAO W s).1 in
  s_textureUnits s' = s_textureUnits s ∧ s_matrices s' = s_matrices s.
Proof.
  unfold UpdateVAO, FindOrCreateVAO.
  destruct (s_useVertexArrayObjects s) eqn:Hvao; [|by rewrite Hvao].
  destruct (s_vaos s !! NzContext_GetCurrent W); cbn;
    destruct (_ !! _); cbn; by rewrite Hvao.
Qed.


(** ** The blocks of [EnsureStateUpdate], entered or not *)

Lemma Program_stage_slots W s :
  let r :=
    if has_flag (s_updateFlags s) Update_Program
    then ResolveUniformLocations W s else (s, []) in
  s_textureUnits r.1 = s_textureUnits s
  ∧ (∀ t, updated (s_matrices r.1 t) = updated (s_matrices s t))
  ∧ (has_flag (s_updateFlags s) Update_Program = true →
     locations_resolved W r.1)
  ∧ (has_flag (s_updateFlags s) Update_Program = false →
     s_matrices r.1 = s_matrices s).
Proof.
  destruct (has_flag _ _); [|done].
  destruct (ResolveUniformLocations_slots W s) as (? & ? & ?). done.
Qed.

Lemma Textures_stage_units s :
  let r :=
    if has_flag (s_updateFlags s) Update_Textures
    then UpdateTextures s else (s, []) in
  s_matrices r.1 = s_matrices s
  ∧ length (s_textureUnits r.1) = length (s_textureUnits s)
  ∧ (has_flag (s_updateFlags s) Update_Textures = true →
     ∀ j : nat,
       N.of_nat j ∈ s_dirtyTextureUnits s ∨ ¬ unit_pending s j →
       ¬ unit_pending r.1 j)
  ∧ (has_flag (s_updateFlags s) Update_Textures = false →
     s_textureUnits r.1 = s_textureUnits s).
Proof.
  destruct (has_flag _ _); [|done].
  destruct (UpdateTextures_settles s) as (? & ? & ?). done.
Qed.

Lemma Matrices_stage_slots s :
  let r :=
    if has_flag (s_updateFlags s) Update_Matrices
    then UpdateMatrices s else (s, []) in
  s_textureUnits r.1 = s_textureUnits s
  ∧ (∀ t, location (s_matrices r.1 t) = location (s_matrices s t))
  ∧ (has_flag (s_updateFlags s) Update_Matrices = true →
     ∀ t, ¬ slot_pending r.1 t)
  ∧ (has_flag (s_updateFlags s) Update_Matrices = false →
     s_matrices r.1 = s_matrices s).
Proof.
  destruct (has_flag _ _); [|done].
  destruct (UpdateMatrices_settles s) as ((? & ? & ?) & ?). done.
Qed.

Ltac flags_by_cases H :=
  apply flags_cases in H;
  repeat (destruct H as [->|H]); try rewrite H in *.

Lemma flags_arith_marks (f : Z) :
  flags_wf f →
  let f1 := after_program f in
  let f2 := after_textures f1 in
  has_flag f1 Update_Textures = has_flag f Update_Textures
  ∧ has_flag f2 Update_Matrices = has_flag f1 Update_Matrices
  ∧ (has_flag f Update_Program = true →
     has_flag f1 Update_Matrices = true)
  ∧ (has_flag f Update_Program = false → f1 = f)
  ∧ (f1 = Update_None →
     has_flag f Update_Textures = false
     ∧ has_flag f Update_Matrices = false
     ∧ has_flag f Update_Program = false
     ∧ has_flag f Update_VAO = false)
  ∧ (has_flag (after_matrices f2) Update_VAO = false →
     has_flag f Update_VAO = false).
Proof.
  intros Hwf. flags_by_cases Hwf; vm_compute; repeat split; congruence.
Qed.

Lemma unit_pending_ext s s' (j : nat) :
  s_textureUnits s' = s_textureUnits s →
  unit_pending s' j ↔ unit_pending s j.
Proof. unfold unit_pending. by intros ->. Qed.

Lemma slot_pending_ext s s' (t : nzMatrixType) :
  s_matrices s' = s_matrices s → slot_pending s' t ↔ slot_pending s t.
Proof. unfold slot_pending. by intros ->. Qed.

(** A call that passes the three preconditions leaves nothing pending:
    no texture unit, no matrix slot, no uniform location; and it returns
    [true] only with a vertex buffer bound. *)
Lemma EnsureStateUpdate_walk W s (ok : bool) s' (c : list Call) :
  marks_sound W s →
  NzContext_GetCurrent W ≠ nullptr →
  s_program s ≠ nullptr →
  s_target s ≠ nullptr →
  EnsureStateUpdate W s = (ok, s', c) →
  length (s_textureUnits s') = length (s_textureUnits s)
  ∧ s_dirtyTextureUnits s' ⊆ s_dirtyTextureUnits s
  ∧ (∀ j, ¬ unit_pending s' j)
  ∧ (∀ t, ¬ slot_pending s' t)
  ∧ locations_resolved W s'
  ∧ (ok = true → s_vertexBuffer s ≠ nullptr).
Proof.
  intros [Hwf Hrange Htexm Hmatm Hprogm Hvbm] Hctx Hprog Htarget.
  unfold EnsureStateUpdate.
  rewrite !bool_decide_eq_false_2 by done.
  destruct (flags_arith _ Hwf) as (_ & _ & Hvao & _).
  destruct (flags_arith_marks _ Hwf) as (A1 & A2 & A3 & A4 & A5 & A6).
  pose proof (Program_stage W s) as (B1 & F1 & D1).
  pose proof (Program_stage_slots W s) as (U1 & P1 & L1 & M1).
  destruct (if has_flag (s_updateFlags s) Update_Program then _ else _)
    as [s1 c1]. cbn [fst] in B1, F1, D1, U1, P1, L1, M1.
  assert (locations_resolved W s1) as Hres1.
  { destruct (has_flag (s_updateFlags s) Update_Program) eqn:E;
      [by apply L1|].
    intros t. rewrite M1 by done.
    destruct (bindings_inv _ _ B1) as (-> & _). by apply Hprogm. }
  pose proof (SendTargetSize_spec W s1) as (B2 & F2 & D2 & _).
  pose proof (SendTargetSize_slots W s1) as (U2 & M2).
  destruct (SendTargetSize W s1) as [s2 c2].
  cbn [fst] in B2, F2, D2, U2, M2.
  rewrite F1 in F2. rewrite D1 in D2. rewrite B1 in B2. rewrite U1 in U2.
  assert (locations_resolved W s2) as Hres2.
  { intros t. rewrite M2.
    destruct (bindings_inv _ _ B2) as (-> & _).
    destruct (bindings_inv _ _ B1) as (<- & _). apply Hres1. }
  assert (∀ t, slot_pending s2 t →
               has_flag (after_program (s_updateFlags s)) Update_Matrices
               = true) as Hmat2.
  { intros t Ht.
    destruct (has_flag (s_updateFlags s) Update_Program) eqn:E;
      [by apply A3|].
    rewrite A4 by done. apply (Hmatm t).
    rewrite slot_pending_ext in Ht by exact M2.
    by rewrite slot_pending_ext in Ht by (by apply M1). }
  clear B1 F1 D1 U1 P1 L1 M1 Hres1.
  case_bool_decide as Hdirty.
  2:{ intros [= <- <- <-]. rewrite F2 in Hdirty.
      destruct (A5 Hdirty) as (Et & Em & Ep & Ev).
      split; [by rewrite U2|]. split; [by rewrite D2|].
      split.
      { intros j Hj. rewrite unit_pending_ext in Hj by exact U2.
        apply Htexm in Hj as [_ Hj]. congruence. }
      split.
      { intros t Ht. apply Hmat2 in Ht. rewrite A4 in Ht by done.
        congruence. }
      split; [done|]. intros _ Hnull. apply Hvbm in Hnull. congruence. }
  pose proof (Textures_stage s2) as (B3 & F3 & D3 & _).
  pose proof (Textures_stage_units s2) as (M3 & Len3 & T3 & U3).
  destruct (if has_flag (s_updateFlags s2) Update_Textures then _ else _)
    as [s3 c3]. cbn [fst] in B3, F3, D3, M3, Len3, T3, U3.
  rewrite F2 in F3, D3, T3, U3. rewrite A1 in D3, T3, U3.
  assert (∀ j, ¬ unit_pending s3 j) as Hnone3.
  { intros j.
    destruct (has_flag (s_updateFlags s) Update_Textures) eqn:E.
    - apply T3; [done|].
      destruct (decide (N.of_nat j ∈ s_dirtyTextureUnits s2)); [by left|].
      right. intros Hj. rewrite unit_pending_ext in Hj by exact U2.
      apply Htexm in Hj as [Hj _]. by rewrite D2 in *.
    - intros Hj. rewrite unit_pending_ext in Hj by (by apply U3).
      rewrite unit_pending_ext in Hj by exact U2.
      apply Htexm in Hj as [_ Hj]. congruence. }
  pose proof (Matrices_stage s3) as (B4 & F4 & D4 & _).
  pose proof (Matrices_stage_slots s3) as (U4 & L4 & P4 & M4).
  destruct (if has_flag (s_updateFlags s3) Update_Matrices then _ else _)
    as [s4 c4]. cbn [fst] in B4, F4, D4, U4, L4, P4, M4.
  rewrite F3 in F4, P4, M4. rewrite A2 in P4, M4.
  assert (∀ t, ¬ slot_pending s4 t) as Hnone4.
  { intros t.
    destruct (has_flag (after_program (s_updateFlags s)) Update_Matrices)
      eqn:E; [by apply P4|].
    intros Ht. rewrite slot_pending_ext in Ht by (by apply M4).
    rewrite slot_pending_ext in Ht by exact M3.
    apply Hmat2 in Ht. congruence. }
  assert (∀ j, ¬ unit_pending s4 j) as Hunits4
    by (intros j; by rewrite unit_pending_ext by exact U4).
  assert (locations_resolved W s4) as Hres4.
  { intros t. rewrite L4, M3.
    destruct (bindings_inv _ _ B4) as (-> & _).
    destruct (bindings_inv _ _ B3) as (-> & _). apply Hres2. }
  assert (length (s_textureUnits s4) = length (s_textureUnits s)) as Hlen4
    by (rewrite U4, Len3; by rewrite U2).
  assert (s_dirtyTextureUnits s4 ⊆ s_dirtyTextureUnits s) as Hsub4.
  { rewrite D4, D3, D2. by destruct (has_flag _ _). }
  assert (s_vertexBuffer s4 = s_vertexBuffer s) as Hvb4.
  { destruct (bindings_inv _ _ B4) as (_ & _ & -> & _).
    destruct (bindings_inv _ _ B3) as (_ & _ & -> & _).
    by destruct (bindings_inv _ _ B2) as (_ & _ & -> & _). }
  rewrite F4.
  destruct (has_flag
              (after_matrices
                 (after_textures (after_program (s_updateFlags s))))
              Update_VAO) eqn:Hv.
  - case_bool_decide as Hnull.
    + intros [= <- <- <-]. by repeat split.
    + pose proof (UpdateVAO_spec W s4) as (B5 & _ & D5 & _).
      pose proof (UpdateVAO_slots W s4) as (U5 & M5).
      destruct (UpdateVAO W s4) as [s5 c5]. cbn [fst] in B5, D5, U5, M5.
      intros [= <- <- <-].
      split; [by rewrite U5|]. split; [by rewrite D5|].
      split; [intros j; by rewrite unit_pending_ext by exact U5|].
      split; [intros t; by rewrite slot_pending_ext by exact M5|].
      split; [|intros _; by rewrite <- Hvb4].
      intros t. rewrite M5.
      destruct (bindings_inv _ _ B5) as (-> & _). apply Hres4.
  - intros [= <- <- <-]. do 5 (split; [done|]).
    intros _ Hnull. apply Hvbm in Hnull.
    rewrite A6 in Hnull by done. congruence.
Qed.


(** ** The dirty marks are sound in every state *)

Lemma flags_lor_marks (f x : Z) :
  flags_wf f → one_flag x →
  flags_wf (Z.lor f x)
  ∧ has_flag (Z.lor f x) Update_Matrices
    = has_flag f Update_Matrices || bool_decide (x = Update_Matrices)
  ∧ has_flag (Z.lor f x) Update_Program
    = has_flag f Update_Program || bool_decide (x = Update_Program)
  ∧ has_flag (Z.lor f x) Update_Textures
    = has_flag f Update_Textures || bool_decide (x = Update_Textures)
  ∧ has_flag (Z.lor f x) Update_VAO
    = has_flag f Update_VAO || bool_decide (x = Update_VAO).
Proof.
  intros Hwf Hx. unfold flags_wf.
  destruct Hx as [->|[->|[->|[->| ->]]]]; flags_by_cases Hwf;
    by vm_compute.
Qed.

(** An assignment that sets at most one flag keeps the marks sound when
    whatever it makes pending is covered by that flag. *)
Lemma marks_sound_update W s s' (x : Z) :
  marks_sound W s →
  one_flag x →
  s_updateFlags s' = Z.lor (s_updateFlags s) x →
  units_in_range s' →
  (∀ j, unit_pending s' j →
        N.of_nat j ∈ s_dirtyTextureUnits s'
        ∧ (unit_pending s j ∨ x = Update_Textures)) →
  (∀ t, slot_pending s' t → slot_pending s t ∨ x = Update_Matrices) →
  (locations_resolved W s → locations_resolved W s' ∨ x = Update_Program) →
  (s_vertexBuffer s' = nullptr →
   s_vertexBuffer s = nullptr ∨ x = Update_VAO) →
  marks_sound W s'.
Proof.
  intros [Hwf Hrange Htexm Hmatm Hprogm Hvbm] Hx Hf Hr Ht Hm Hp Hv.
  destruct (flags_lor_marks _ _ Hwf Hx) as (Hwf' & Em & Ep & Et & Ev).
  split; rewrite ?Hf; try done.
  - intros j Hj. apply Ht in Hj as [Hin [Hj| ->]]; (split; [done|]).
    + rewrite Et. apply Htexm in Hj as [_ ->]. done.
    + rewrite Et. by rewrite bool_decide_eq_true_2, orb_true_r.
  - intros t Hj. apply Hm in Hj as [Hj| ->]; rewrite Em.
    + by rewrite (Hmatm t Hj).
    + by rewrite bool_decide_eq_true_2, orb_true_r.
  - rewrite Ep. intros [Hc Hne]%orb_false_elim.
    destruct (Hp (Hprogm Hc)) as [?| ->]; [done|].
    by rewrite bool_decide_eq_true_2 in Hne.
  - intros Hnull. rewrite Ev. destruct (Hv Hnull) as [Hn| ->].
    + by rewrite (Hvbm Hn).
    + by rewrite bool_decide_eq_true_2, orb_true_r.
Qed.

Lemma Initialize_marks_sound W (useSamplerObjects useVertexArrayObjects : bool)
    (maxTextureUnit : N) (states : RenderStates) :
  marks_sound W
    (Initialize useSamplerObjects useVertexArrayObjects maxTextureUnit states).
Proof.
  split; cbn.
  - by vm_compute.
  - split; cbn; [by rewrite length_replicate|]. intros i Hi.
    by apply elem_of_empty in Hi.
  - intros j (u & Hu & Ht & _). cbn in Hu.
    apply lookup_replicate in Hu as [-> _]. done.
  - intros t [_ ?]. done.
  - by vm_compute.
  - done.
Qed.


Ltac sets_flag x :=
  eapply (marks_sound_update _ _ _ x);
    [eassumption | unfold one_flag; tauto
    | first [reflexivity | symmetry; apply Z.lor_0_r] | ..].

Ltac keeps_mark Hs :=
  match goal with
  | |- units_in_range _ => exact (marks_range _ _ Hs)
  | |- ∀ j, unit_pending _ j → _ =>
      let Hj := fresh in
      intros j Hj; split; [by apply (marks_textures _ _ Hs)|by left]
  | |- ∀ t, slot_pending _ t → _ => intros ? ?; by left
  | |- locations_resolved _ _ → _ => intros ?; by left
  | |- _ = nullptr → _ => intros ?; by left
  end.

Lemma EnableInstancing_marks W (instancing : bool) s :
  marks_sound W s → marks_sound W (EnableInstancing instancing s).
Proof.
  intros Hs. unfold EnableInstancing. case_bool_decide; [|done].
  sets_flag Update_VAO; keeps_mark Hs.
Qed.

Lemma SetIndexBuffer_marks W (indexBuffer : ptr) s :
  marks_sound W s → marks_sound W (SetIndexBuffer W indexBuffer s).
Proof.
  intros Hs. unfold SetIndexBuffer. repeat case_match; try done.
  sets_flag Update_VAO; keeps_mark Hs.
Qed.

Lemma SetVertexBuffer_marks W (vertexBuffer : ptr) s :
  marks_sound W s → marks_sound W (SetVertexBuffer W vertexBuffer s).
Proof.
  intros Hs. unfold SetVertexBuffer. repeat case_match; try done.
  sets_flag Update_VAO; try keeps_mark Hs. intros _. by right.
Qed.

Lemma SetShaderProgram_marks W (program : ptr) s :
  marks_sound W s → marks_sound W (SetShaderProgram W program s).
Proof.
  intros Hs. unfold SetShaderProgram. repeat case_match; try done.
  sets_flag Update_Program; try keeps_mark Hs. intros _. by right.
Qed.

Lemma SetTarget_marks W (target : ptr) s :
  marks_sound W s → marks_sound W (SetTarget W target s).1.2.
Proof.
  intros Hs. unfold SetTarget.
  repeat case_bool_decide; repeat (case_match; try done);
    cbn [fst snd]; try done; sets_flag Update_None; keeps_mark Hs.
Qed.

Lemma location_invalidate (ts : list nzMatrixType) (t : nzMatrixType)
    (ms : Slots) :
  location (invalidate ts ms t) = location (ms t).
Proof.
  unfold invalidate. revert ms. induction ts as [|t0 ts IH]; intros ms; [done|].
  cbn [foldl]. by rewrite IH, location_set_updated.
Qed.

Lemma SetMatrix_marks W (type : nzMatrixType) (m : Matrix) s :
  marks_sound W s → marks_sound W (SetMatrix type m s).
Proof.
  intros Hs. unfold SetMatrix.
  sets_flag Update_Matrices; try keeps_mark Hs.
  - intros t _. by right.
  - intros Hres. left. intros t. cbn.
    rewrite location_invalidate, location_set_updated, location_set_matrix.
    apply Hres.
Qed.

Lemma GetMatrix_marks W (type : nzMatrixType) s :
  marks_sound W s → marks_sound W (GetMatrix type s).2.
Proof.
  intros Hs. unfold GetMatrix.
  destruct (updated (s_matrices s type)); [done|]. cbn [snd].
  destruct (UpdateMatrix_settles type s) as ((_ & HL & HU) & _).
  sets_flag Update_None; try keeps_mark Hs.
  - intros t [Hloc Hup]. left. split; [by rewrite <- HL|].
    destruct (updated (s_matrices s t)) eqn:E; [|done].
    apply HU in E. congruence.
  - intros Hres. left. intros t. rewrite HL. apply Hres.
Qed.

Lemma assign_unit_marks W s (unit : N) (u u' : TextureUnit Sampler) :
  marks_sound W s →
  (unit < s_maxTextureUnit s)%N →
  s_textureUnits s !! N.to_nat unit = Some u →
  marks_sound W
    (set_s_updateFlags (Z.lor (s_updateFlags s) Update_Textures)
       (set_s_dirtyTextureUnits ({[unit]} ∪ s_dirtyTextureUnits s)
          (set_s_textureUnits
             (<[N.to_nat unit := u']> (s_textureUnits s)) s))).
Proof.
  intros Hs Hmax Hu. sets_flag Update_Textures; try keeps_mark Hs.
  - destruct (marks_range _ _ Hs) as [Hlen Hdirty]. split; cbn.
    + by rewrite length_insert.
    + intros i [->%elem_of_singleton|Hi]%elem_of_union; [done|by apply Hdirty].
  - intros j (u0 & Hu0 & Hp). cbn in Hu0. split; [|by right]. cbn.
    apply elem_of_union.
    apply list_lookup_insert_Some in Hu0 as [(<- & _ & _)|[Hne Hu0]].
    + left. apply elem_of_singleton. lia.
    + right. apply (marks_textures _ _ Hs). by exists u0.
Qed.

Lemma SetTexture_marks W (unit : N) (tex : ptr) s :
  marks_sound W s → marks_sound W (SetTexture W unit tex s).
Proof.
  intros Hs. unfold SetTexture. case_bool_decide as Hmax; [done|].
  destruct (s_textureUnits s !! N.to_nat unit) as [u|] eqn:Hu; [|done].
  case_bool_decide; [|done]. apply (assign_unit_marks W s unit u); [done|lia|done].
Qed.

Lemma SetTextureSampler_marks W (unit : N) (smp : Sampler) s :
  marks_sound W s → marks_sound W (SetTextureSampler W unit smp s).
Proof.
  intros Hs. unfold SetTextureSampler. case_bool_decide as Hmax; [done|].
  destruct (s_textureUnits s !! N.to_nat unit) as [u|] eqn:Hu; [|done].
  apply (assign_unit_marks W s unit u); [done|lia|done].
Qed.

Lemma GetInstanceBuffer_marks W D s :
  marks_sound W s → marks_sound W (GetInstanceBuffer W D s).2.
Proof.
  intros Hs. unfold GetInstanceBuffer. destruct (cap_Instancing D); [|done].
  cbn [negb snd]. sets_flag Update_VAO; keeps_mark Hs.
Qed.

Lemma OnResourceReleased_marks W (resource : ptr) (index : Z) s :
  marks_sound W s → marks_sound W (OnResourceReleased resource index s).
Proof.
  intros Hs. unfold OnResourceReleased.
  repeat case_match; try done; sets_flag Update_None; keeps_mark Hs.
Qed.

Lemma OnProgramReleased_marks W (program : ptr) s :
  marks_sound W s → marks_sound W (OnProgramReleased program s).
Proof.
  intros Hs. unfold OnProgramReleased. case_bool_decide; [|done].
  sets_flag Update_Program; try keeps_mark Hs. intros _. by right.
Qed.

Lemma OnTextureReleased_pending (tex : ptr) s (j : nat) :
  unit_pending (OnTextureReleased tex s) j → unit_pending s j.
Proof.
  intros (u & Hu & Ht & Hp). cbn in Hu.
  rewrite list_lookup_fmap in Hu.
  destruct (s_textureUnits s !! j) as [u0|] eqn:Hu0; [|done].
  cbn in Hu. injection Hu as <-. exists u0. split; [done|].
  by case_bool_decide.
Qed.

Lemma OnTextureReleased_marks W (tex : ptr) s :
  marks_sound W s → marks_sound W (OnTextureReleased tex s).
Proof.
  intros Hs. sets_flag Update_None; try keeps_mark Hs.
  - destruct (marks_range _ _ Hs) as [Hlen Hdirty]. split; [|done].
    cbn. by rewrite length_fmap.
  - intros j Hj%OnTextureReleased_pending. split; [|by left].
    by apply (marks_textures _ _ Hs).
Qed.

Lemma EnsureStateUpdate_marks W s :
  marks_sound W s → marks_sound W (EnsureStateUpdate W s).1.2.
Proof.
  intros Hs.
  destruct (decide (NzContext_GetCurrent W = nullptr ∨ s_program s = nullptr
                    ∨ s_target s = nullptr)) as [Hpre|Hpre].
  { by rewrite EnsureStateUpdate_precondition. }
  assert (NzContext_GetCurrent W ≠ nullptr ∧ s_program s ≠ nullptr
          ∧ s_target s ≠ nullptr) as (Hctx & Hprog & Htarget) by tauto.
  pose proof (EnsureStateUpdate_flags_wf W s (marks_flags _ _ Hs)) as Hwf.
  destruct (EnsureStateUpdate W s) as [[ok s'] c] eqn:Hrun. cbn [fst snd] in *.
  destruct (EnsureStateUpdate_walk W s ok s' c Hs Hctx Hprog Htarget Hrun)
    as (Hlen & Hsub & Hunits & Hslots & Hres & Hvb).
  destruct (EnsureStateUpdate_cases W s ok s' c (marks_flags _ _ Hs)
              Hctx Hprog Htarget Hrun) as (Hb & _ & Hcases).
  destruct (marks_range _ _ Hs) as [Hlen0 Hdirty0].
  split; try done.
  - split.
    + rewrite Hlen, Hlen0. unfold bindings in Hb. congruence.
    + intros i Hi. assert (s_maxTextureUnit s' = s_maxTextureUnit s) as ->
        by (unfold bindings in Hb; congruence).
      by apply Hdirty0, Hsub.
  - intros j Hj. by apply Hunits in Hj.
  - intros t Ht. by apply Hslots in Ht.
  - intros Hnull.
    destruct Hcases as [(_ & _ & _ & -> & _)|[-> _]]; [by vm_compute|].
    destruct (bindings_inv _ _ Hb) as (_ & _ & Hsame & _).
    rewrite Hsame in Hnull. by apply Hvb in Hnull.
Qed.

Lemma update_then_draw_state W
    (draw : State → DrawCall Matrix Sampler RenderStates) s :
  (update_then_draw W draw s).1 = (EnsureStateUpdate W s).1.2.
Proof.
  unfold update_then_draw.
  by destruct (EnsureStateUpdate W s) as [[[] s'] c].
Qed.

Lemma run_draw_marks W D (d : Draw) s :
  marks_sound W s → marks_sound W (run_draw W D d s).1.
Proof.
  intros Hs.
  destruct d; cbn [run_draw];
    unfold DrawFullscreenQuad, DrawIndexedPrimitives,
      DrawIndexedPrimitivesInstanced, DrawPrimitives, DrawPrimitivesInstanced;
    repeat (case_match; try done);
    rewrite update_then_draw_state; apply EnsureStateUpdate_marks;
    repeat first [ apply EnableInstancing_marks | apply SetIndexBuffer_marks
                 | apply SetVertexBuffer_marks ]; done.
Qed.

Lemma step_marks W D (o : Operation) s :
  marks_sound W s → marks_sound W (step W D o s).
Proof.
  intros Hs. destruct o; cbn [step].
  - by apply EnableInstancing_marks.
  - by apply SetIndexBuffer_marks.
  - by apply SetVertexBuffer_marks.
  - by apply SetShaderProgram_marks.
  - by apply SetTarget_marks.
  - by apply SetMatrix_marks.
  - by apply GetMatrix_marks.
  - by apply SetTexture_marks.
  - by apply SetTextureSampler_marks.
  - by apply GetInstanceBuffer_marks.
  - by apply OnResourceReleased_marks.
  - by apply OnProgramReleased_marks.
  - by apply OnTextureReleased_marks.
  - by apply EnsureStateUpdate_marks.
  - by apply run_draw_marks.
Qed.

Lemma run_marks W D (ops : list Operation) s :
  marks_sound W s → marks_sound W (run W D ops s).
Proof.
  unfold run. revert s. induction ops as [|o ops IH]; intros s Hs; [done|].
  cbn [foldl]. by apply IH, step_marks.
Qed.

End InvariantFacts.

(** ** What the marks give *)

Section RendererCoverage.
Import Renderer Drawing.
Context {Matrix Sampler RenderStates : Type}.
Context `{!NzMatrix4 Matrix} `{!NzTextureSamplerOps Sampler}.

Abbreviation State := (State Matrix Sampler RenderStates).
Abbreviation Call := (Call Matrix Sampler RenderStates).
Abbreviation DrawCall := (DrawCall Matrix Sampler RenderStates).
Abbreviation Slots := (nzMatrixType → MatrixUnit Matrix).
Abbreviation Operation := (@Operation Matrix Sampler).
Implicit Types (s : State) (W : World) (D : Device) (ms : Slots).

Lemma reached_marks W D (ops : list Operation) (a b : bool) (n : N)
    (states : RenderStates) :
  marks_sound W (reached W D ops a b n states).
Proof. apply run_marks, Initialize_marks_sound. Qed.

(** A call that returns [true] passed the three preconditions. *)
Lemma EnsureStateUpdate_true W s s' (c : list Call) :
  EnsureStateUpdate W s = (true, s', c) →
  NzContext_GetCurrent W ≠ nullptr ∧ s_program s ≠ nullptr
  ∧ s_target s ≠ nullptr.
Proof.
  intros Hrun.
  destruct (decide (NzContext_GetCurrent W = nullptr ∨ s_program s = nullptr
                    ∨ s_target s = nullptr)) as [Hpre|Hpre]; [|tauto].
  rewrite EnsureStateUpdate_precondition in Hrun by done. done.
Qed.

(** X1.  In every state reached from [Initialize], the vector of texture
    units has an element for each unit below [s_maxTextureUnit], the bound
    that [SetTexture] and [SetTextureSampler] check, and for each unit of
    the set of dirty units, which [EnsureStateUpdate] walks: no access to
    [s_textureUnits] is out of range. *)
Theorem texture_unit_accesses_in_range W D (ops : list Operation)
    (useSamplerObjects useVertexArrayObjects : bool) (maxTextureUnit : N)
    (states : RenderStates) :
  let s :=
    reached W D ops useSamplerObjects useVertexArrayObjects maxTextureUnit
      states in
  (∀ unit : N, (unit < s_maxTextureUnit s)%N →
     is_Some (s_textureUnits s !! N.to_nat unit))
  ∧ (∀ unit : N, unit ∈ s_dirtyTextureUnits s →
       is_Some (s_textureUnits s !! N.to_nat unit)).
Proof.
  cbn zeta.
  destruct (marks_range _ _
              (reached_marks W D ops useSamplerObjects useVertexArrayObjects
                 maxTextureUnit states)) as [Hlen Hdirty].
  assert (∀ unit : N,
            (unit < s_maxTextureUnit
                      (reached W D ops useSamplerObjects useVertexArrayObjects
                         maxTextureUnit states))%N →
            is_Some (s_textureUnits
                       (reached W D ops useSamplerObjects
                          useVertexArrayObjects maxTextureUnit states)
                     !! N.to_nat unit)) as Hin.
  { intros unit Hunit. apply lookup_lt_is_Some. rewrite Hlen. lia. }
  split; [done|]. intros unit Hunit. by apply Hin, Hdirty.
Qed.

(** X2.  When [EnsureStateUpdate] returns [true] in a state reached from
    [Initialize], every texture unit that holds a texture has had its
    texture bound and its sampler applied: both of its flags are set,
    whether or not the unit was in the set of dirty units. *)
Theorem EnsureStateUpdate_applies_every_texture W D (ops : list Operation)
    (useSamplerObjects useVertexArrayObjects : bool) (maxTextureUnit : N)
    (states : RenderStates) s' (c : list Call) :
  EnsureStateUpdate W
    (reached W D ops useSamplerObjects useVertexArrayObjects maxTextureUnit
       states) = (true, s', c) →
  ∀ (unit : nat) (u : TextureUnit Sampler),
    s_textureUnits s' !! unit = Some u → texture u ≠ nullptr →
    textureUpdated u = true ∧ samplerUpdated u = true.
Proof.
  intros Hrun unit u Hu Htex.
  destruct (EnsureStateUpdate_true _ _ _ _ Hrun) as (Hctx & Hprog & Htarget).
  destruct (EnsureStateUpdate_walk _ _ _ _ _ (reached_marks _ _ _ _ _ _ _)
              Hctx Hprog Htarget Hrun) as (_ & _ & Hunits & _).
  destruct (textureUpdated u) eqn:Htu, (samplerUpdated u) eqn:Hsu; try done;
    destruct (Hunits unit); exists u; auto.
Qed.

(** X3.  When [EnsureStateUpdate] returns [true] in a state reached from
    [Initialize], the location cached for each matrix slot is the location
    of the slot's uniform in the bound program, and every slot the program
    has a uniform for holds a current matrix. *)
Theorem EnsureStateUpdate_applies_every_matrix W D (ops : list Operation)
    (useSamplerObjects useVertexArrayObjects : bool) (maxTextureUnit : N)
    (states : RenderStates) s' (c : list Call) :
  EnsureStateUpdate W
    (reached W D ops useSamplerObjects useVertexArrayObjects maxTextureUnit
       states) = (true, s', c) →
  ∀ type : nzMatrixType,
    location (s_matrices s' type)
    = GetUniformLocation W (s_program s') (matrix_uniform type)
    ∧ (location (s_matrices s' type) ≠ (-1)%Z →
       updated (s_matrices s' type) = true).
Proof.
  intros Hrun type.
  destruct (EnsureStateUpdate_true _ _ _ _ Hrun) as (Hctx & Hprog & Htarget).
  destruct (EnsureStateUpdate_walk _ _ _ _ _ (reached_marks _ _ _ _ _ _ _)
              Hctx Hprog Htarget Hrun) as (_ & _ & _ & Hslots & Hres & _).
  split; [apply Hres|]. intros Hloc.
  destruct (updated (s_matrices s' type)) eqn:Hup; [done|].
  by destruct (Hslots type).
Qed.

(** What [EnsureStateUpdate] never assigns, it leaves. *)
Lemma EnsureStateUpdate_bindings W s :
  marks_sound W s →
  bindings (EnsureStateUpdate W s).1.2 = bindings s.
Proof.
  intros Hs.
  destruct (decide (NzContext_GetCurrent W = nullptr ∨ s_program s = nullptr
                    ∨ s_target s = nullptr)) as [Hpre|Hpre].
  { by rewrite EnsureStateUpdate_precondition. }
  assert (NzContext_GetCurrent W ≠ nullptr ∧ s_program s ≠ nullptr
          ∧ s_target s ≠ nullptr) as (Hctx & Hprog & Htarget) by tauto.
  destruct (EnsureStateUpdate W s) as [[ok s'] c] eqn:Hrun.
  by destruct (EnsureStateUpdate_cases W s ok s' c (marks_flags _ _ Hs)
                 Hctx Hprog Htarget Hrun) as (Hb & _).
Qed.

(** X4.  [EnsureStateUpdate] returns [true] in a state reached from
    [Initialize] only with an active context, a program, a target and a
    vertex buffer: [Update_VAO] is set from [Initialize] until a vertex
    buffer is bound, no function unbinds one, and the call fails on the
    flag. *)
Theorem EnsureStateUpdate_succeeds_with_vertex_buffer W D
    (ops : list Operation)
    (useSamplerObjects useVertexArrayObjects : bool) (maxTextureUnit : N)
    (states : RenderStates) s' (c : list Call) :
  EnsureStateUpdate W
    (reached W D ops useSamplerObjects useVertexArrayObjects maxTextureUnit
       states) = (true, s', c) →
  NzContext_GetCurrent W ≠ nullptr ∧ s_program s' ≠ nullptr
  ∧ s_target s' ≠ nullptr ∧ s_vertexBuffer s' ≠ nullptr.
Proof.
  intros Hrun.
  destruct (EnsureStateUpdate_true _ _ _ _ Hrun) as (Hctx & Hprog & Htarget).
  destruct (EnsureStateUpdate_walk _ _ _ _ _ (reached_marks _ _ _ _ _ _ _)
              Hctx Hprog Htarget Hrun) as (_ & _ & _ & _ & _ & Hvb).
  pose proof (EnsureStateUpdate_bindings W _ (reached_marks W D ops
                useSamplerObjects useVertexArrayObjects maxTextureUnit states))
    as Hb.
  rewrite Hrun in Hb. cbn [fst snd] in Hb.
  destruct (bindings_inv _ _ Hb) as (-> & -> & -> & _). auto.
Qed.


(** ** The draw functions *)

Lemma EnableInstancing_fields (instancing : bool) s :
  let s' := EnableInstancing instancing s in
  s_instancing s' = instancing
  ∧ s_indexBuffer s' = s_indexBuffer s
  ∧ s_vertexBuffer s' = s_vertexBuffer s
  ∧ s_program s' = s_program s ∧ s_target s' = s_target s.
Proof.
  unfold EnableInstancing. case_bool_decide as Hne; [done|].
  cbn zeta. repeat split.
  by destruct (decide (s_instancing s = instancing)).
Qed.

Lemma bindings_fields s s' :
  bindings s' = bindings s →
  s_instancing s' = s_instancing s ∧ s_indexBuffer s' = s_indexBuffer s.
Proof. unfold bindings. intros [=]. by split. Qed.

(** The draw call of [update_then_draw], when there is one: it follows
    the calls of a successful [EnsureStateUpdate] and precedes the
    unbinding. *)
Lemma update_then_draw_issues W (draw : State → DrawCall) s s'
    (c : list DrawCall) (call : DrawCall) :
  update_then_draw W draw s = (s', c) →
  call ∈ c → is_draw call = true →
  ∃ c0 : list Call,
    EnsureStateUpdate W s = (true, s', c0)
    ∧ c = (call_state <$> c0) ++ call :: unbind_vertex_array s'.
Proof.
  unfold update_then_draw.
  destruct (EnsureStateUpdate W s) as [[ok s1] c0].
  assert (∀ l : list Call, call ∈ call_state <$> l → is_draw call = false)
    as Hstate.
  { intros l (x & -> & _)%list_elem_of_fmap. done. }
  destruct ok; intros [= <- <-] Hin Hdraw.
  - exists c0. split; [done|].
    rewrite elem_of_app in Hin. cbn [app] in Hin. rewrite elem_of_cons in Hin.
    destruct Hin as [Hin|[->|Hin]]; [|done|].
    + apply Hstate in Hin. congruence.
    + unfold unbind_vertex_array in Hin.
      destruct (s_useVertexArrayObjects s1);
        [apply list_elem_of_singleton in Hin as ->
        |by apply elem_of_nil in Hin]. done.
  - apply Hstate in Hin. congruence.
Qed.

Lemma run_draw_issues W D (d : Draw) s s' (c : list DrawCall)
    (call : DrawCall) :
  run_draw W D d s = (s', c) →
  call ∈ c → is_draw call = true →
  (indexed d = true → s_indexBuffer s ≠ nullptr)
  ∧ ∃ c0 : list Call,
      EnsureStateUpdate W (prepared W D d s) = (true, s', c0)
      ∧ c = (call_state <$> c0) ++ call :: unbind_vertex_array s'.
Proof.
  intros Hrun Hin Hdraw.
  assert (∀ s0 : State, (s0, @nil DrawCall) = (s', c) → False) as Hnil.
  { intros s0 [= <- <-]. by apply elem_of_nil in Hin. }
  destruct d; cbn [run_draw] in Hrun;
    unfold DrawFullscreenQuad, DrawIndexedPrimitives,
      DrawIndexedPrimitivesInstanced, DrawPrimitives, DrawPrimitivesInstanced
      in Hrun;
    repeat (case_match; try (by destruct (Hnil _ Hrun)));
    (split; [|by eapply update_then_draw_issues]); try done;
    intros _; by eapply bool_decide_eq_false_1.
Qed.

Lemma prepared_fields W D (d : Draw) s :
  s_instancing (prepared W D d s) = instanced d
  ∧ (indexed d = true →
     s_indexBuffer (prepared W D d s) = s_indexBuffer s).
Proof.
  destruct d; cbn [prepared instanced indexed];
    try (destruct (EnableInstancing_fields true s) as (? & ? & _); done);
    try (destruct (EnableInstancing_fields false s) as (? & ? & _); done).
  split; [|done].
  unfold SetVertexBuffer, SetIndexBuffer.
  destruct (EnableInstancing_fields false s) as (Hi & _).
  repeat case_match; done.
Qed.

Lemma prepared_marks W D (d : Draw) s :
  marks_sound W s → marks_sound W (prepared W D d s).
Proof.
  intros Hs. destruct d; cbn [prepared];
    repeat first [ apply EnableInstancing_marks | apply SetIndexBuffer_marks
                 | apply SetVertexBuffer_marks ]; done.
Qed.

(** X5.  A draw function called in a state reached from [Initialize]
    issues a draw call only after an [EnsureStateUpdate] that returned
    [true]: the call comes after the calls of the state cache and is
    followed by the unbinding of the vertex array alone; at that point
    instancing is on exactly for the two instanced functions, an index
    buffer is bound for the two indexed ones, and a vertex buffer, a
    program and a target are bound. *)
Theorem draw_call_issued_when_ready W D (ops : list Operation)
    (useSamplerObjects useVertexArrayObjects : bool) (maxTextureUnit : N)
    (states : RenderStates) (d : Draw) s' (c : list DrawCall)
    (call : DrawCall) :
  run_draw W D d
    (reached W D ops useSamplerObjects useVertexArrayObjects maxTextureUnit
       states) = (s', c) →
  call ∈ c → is_draw call = true →
  (∃ c0 : list Call, c = (call_state <$> c0) ++ call :: unbind_vertex_array s')
  ∧ s_instancing s' = instanced d
  ∧ (indexed d = true → s_indexBuffer s' ≠ nullptr)
  ∧ s_vertexBuffer s' ≠ nullptr
  ∧ s_program s' ≠ nullptr
  ∧ s_target s' ≠ nullptr.
Proof.
  intros Hrun Hin Hdraw.
  destruct (run_draw_issues _ _ _ _ _ _ _ Hrun Hin Hdraw)
    as (Hindex & c0 & Hupdate & Hc).
  pose proof (prepared_marks W D d _ (reached_marks W D ops
                useSamplerObjects useVertexArrayObjects maxTextureUnit states))
    as Hmarks.
  destruct (EnsureStateUpdate_true _ _ _ _ Hupdate)
    as (Hctx & Hprog & Htarget).
  destruct (EnsureStateUpdate_walk _ _ _ _ _ Hmarks Hctx Hprog Htarget
              Hupdate) as (_ & _ & _ & _ & _ & Hvb).
  pose proof (EnsureStateUpdate_bindings W _ Hmarks) as Hb.
  rewrite Hupdate in Hb. cbn [fst snd] in Hb.
  destruct (bindings_inv _ _ Hb) as (Ep & Et & Ev & _).
  destruct (bindings_fields _ _ Hb) as (Ei & Ex).
  destruct (prepared_fields W D d
              (reached W D ops useSamplerObjects useVertexArrayObjects
                 maxTextureUnit states)) as (Hi & Hx).
  split; [by exists c0|]. split; [congruence|].
  split; [intros Hd; rewrite Ex, (Hx Hd); by apply Hindex|].
  rewrite Ep, Et, Ev. auto.
Qed.


(** X6.  [DrawFullscreenQuad] does not put back what it replaces: with an
    active context, whether or not the quad gets drawn, the call leaves
    the quad's buffer bound as the vertex buffer, no index buffer bound
    and instancing off. *)
Theorem DrawFullscreenQuad_leaves_quad_bound W D (ops : list Operation)
    (useSamplerObjects useVertexArrayObjects : bool) (maxTextureUnit : N)
    (states : RenderStates) :
  NzContext_GetCurrent W ≠ nullptr →
  s_fullscreenQuadBuffer D ≠ nullptr →
  IsHardware W (s_fullscreenQuadBuffer D) = true →
  let s' :=
    (DrawFullscreenQuad W D
       (reached W D ops useSamplerObjects useVertexArrayObjects
          maxTextureUnit states)).1 in
  s_vertexBuffer s' = s_fullscreenQuadBuffer D
  ∧ s_indexBuffer s' = nullptr
  ∧ s_instancing s' = false.
Proof.
  intros Hctx Hquad Hhw. cbn zeta. unfold DrawFullscreenQuad.
  rewrite bool_decide_eq_false_2 by done. rewrite update_then_draw_state.
  pose proof (reached_marks W D ops useSamplerObjects useVertexArrayObjects
                maxTextureUnit states) as Hs.
  set (s := reached W D ops useSamplerObjects useVertexArrayObjects
              maxTextureUnit states) in *.
  pose proof (prepared_marks W D draw_FullscreenQuad s Hs) as Hmarks.
  pose proof (EnsureStateUpdate_bindings W _ Hmarks) as Hb.
  cbn [prepared] in Hb.
  destruct (bindings_inv _ _ Hb) as (_ & _ & -> & _).
  destruct (bindings_fields _ _ Hb) as (-> & ->).
  destruct (EnableInstancing_fields false s) as (Hi & _).
  unfold SetVertexBuffer, SetIndexBuffer. rewrite Hhw.
  rewrite (bool_decide_eq_false_2 (nullptr ≠ nullptr)) by (by intros []).
  rewrite (bool_decide_eq_true_2 (s_fullscreenQuadBuffer D ≠ nullptr)) by done.
  cbn [negb andb].
  repeat case_bool_decide; cbn; repeat split; try done;
    match goal with
    | H : ¬ _ ≠ _ |- _ => by apply dec_stable in H
    end.
Qed.

(** Without a program or without a target, no draw function makes a
    call. *)
Lemma run_draw_unbound W D (d : Draw) s :
  s_program s = nullptr ∨ s_target s = nullptr →
  (run_draw W D d s).2 = [].
Proof.
  intros Hun.
  assert (∀ (draw : State → DrawCall) s0,
            s_program s0 = s_program s → s_target s0 = s_target s →
            (update_then_draw W draw s0).2 = []) as Hnone.
  { intros draw s0 Hp Ht. unfold update_then_draw.
    rewrite EnsureStateUpdate_precondition; [done|].
    rewrite Hp, Ht. tauto. }
  destruct (EnableInstancing_fields false s) as (_ & _ & _ & Hp0 & Ht0).
  destruct (EnableInstancing_fields true s) as (_ & _ & _ & Hp1 & Ht1).
  destruct d; cbn [run_draw];
    unfold DrawFullscreenQuad, DrawIndexedPrimitives,
      DrawIndexedPrimitivesInstanced, DrawPrimitives, DrawPrimitivesInstanced;
    repeat (case_match; try done); try (by apply Hnone).
  apply Hnone; unfold SetVertexBuffer, SetIndexBuffer;
    repeat case_match; done.
Qed.

(** X7.  A [SetTarget] that returns [false] has unbound the previous
    target and bound none, and has left the update flags alone; until a
    target is bound, no draw function makes a call. *)
Theorem SetTarget_failure_leaves_no_target W D (target : ptr) s s'
    (c : list Call) :
  SetTarget W target s = (false, s', c) →
  s_target s' = nullptr
  ∧ s_updateFlags s' = s_updateFlags s
  ∧ ∀ d : Draw, (run_draw W D d s').2 = [].
Proof.
  intros Hset.
  assert (s_target s' = nullptr) as Hnull.
  { revert Hset. unfold SetTarget.
    case_bool_decide as Hsame; [done|].
    case_bool_decide as Hold; (case_bool_decide as Hnew; [|done]);
      repeat (case_match; try done); intros [= <- <-]; try done.
    all: by apply dec_stable in Hold. }
  split; [done|]. split.
  - pose proof (SetTarget_flags W target s) as Hf. by rewrite Hset in Hf.
  - intros d. apply run_draw_unbound. by right.
Qed.

(** X8.  Once the bound program is released, no program is bound and
    [Update_Program] is set; no draw function makes a call until another
    program is bound.  The release of a program that is not the bound one
    changes nothing. *)
Theorem OnProgramReleased_unbinds_the_program W D (program : ptr) s :
  let s' := OnProgramReleased program s in
  if bool_decide (s_program s = program) then
    s_program s' = nullptr
    ∧ s_updateFlags s' = Z.lor (s_updateFlags s) Update_Program
    ∧ ∀ d : Draw, (run_draw W D d s').2 = []
  else s' = s.
Proof.
  cbn zeta. unfold OnProgramReleased. case_bool_decide; [|done].
  do 2 (split; [done|]). intros d. apply run_draw_unbound. by left.
Qed.

(** X9.  After [OnTextureReleased], no texture unit holds the released
    texture; the units that held another texture, or none, are what they
    were, and so are the units' flags, the set of dirty units and the
    update flags. *)
Theorem OnTextureReleased_unbinds_the_texture (tex : ptr) s :
  tex ≠ nullptr →
  let s' := OnTextureReleased tex s in
  (∀ (unit : nat) (u : TextureUnit Sampler),
     s_textureUnits s' !! unit = Some u → texture u ≠ tex)
  ∧ (∀ (unit : nat) (u : TextureUnit Sampler),
       s_textureUnits s !! unit = Some u →
       ∃ u' : TextureUnit Sampler,
         s_textureUnits s' !! unit = Some u'
         ∧ texture u' = (if bool_decide (texture u = tex) then nullptr
                         else texture u)
         ∧ sampler u' = sampler u
         ∧ textureUpdated u' = textureUpdated u
         ∧ samplerUpdated u' = samplerUpdated u)
  ∧ s_dirtyTextureUnits s' = s_dirtyTextureUnits s
  ∧ s_updateFlags s' = s_updateFlags s.
Proof.
  intros Htex. cbn zeta. split; [|split; [|done]].
  - intros unit u Hu. cbn in Hu. rewrite list_lookup_fmap in Hu.
    destruct (s_textureUnits s !! unit) as [u0|]; [|done].
    cbn in Hu. injection Hu as <-. case_bool_decide; cbn; congruence.
  - intros unit u Hu. cbn. rewrite list_lookup_fmap, Hu. cbn.
    eexists. split; [done|]. by case_bool_decide.
Qed.

(** ** Reading the matrices *)

(** X10.  A matrix that was set is read back as it was set, and the read
    recomputes nothing: it returns the state it was given.  This holds for
    the nine derived slots as for the three base ones. *)
Theorem GetMatrix_after_SetMatrix (type : nzMatrixType) (m : Matrix) s :
  GetMatrix type (SetMatrix type m s) = (m, SetMatrix type m s).
Proof.
  unfold GetMatrix. rewrite SetMatrix_updated.
  destruct type; reflexivity.
Qed.

(** X11.  A second read of a slot returns what the first returned and
    changes nothing: the first read leaves the slot marked current. *)
Theorem GetMatrix_twice (type : nzMatrixType) s :
  GetMatrix type (GetMatrix type s).2 = GetMatrix type s.
Proof.
  unfold GetMatrix at 2 3.
  destruct (updated (s_matrices s type)) eqn:Hup; cbn [snd].
  - unfold GetMatrix. by rewrite Hup.
  - destruct (UpdateMatrix_settles type s) as [_ Hu].
    unfold GetMatrix. by rewrite Hu.
Qed.

End RendererCoverage.

(** ** The derived matrices *)

Section MatrixCoherence.
Import Renderer Drawing.
Context {Matrix Sampler RenderStates : Type}.
Context `{!NzMatrix4 Matrix} `{!NzTextureSamplerOps Sampler}.

Abbreviation State := (State Matrix Sampler RenderStates).
Abbreviation Slots := (nzMatrixType → MatrixUnit Matrix).
Implicit Types (s : State) (ms : Slots).

Lemma set_base_matrices_coherent (p v w : Matrix) s :
  slots_coherent p v w (λ t, matrix (s_matrices s t))
    (s_matrices (set_base_matrices p v w s)).
Proof.
  unfold slots_coherent. do 3 (split; [reflexivity|]).
  intros type. destruct type; reflexivity.
Qed.

Lemma matrix_set_matrix (t t' : nzMatrixType) (m : Matrix) ms :
  matrix (set_matrix t m ms t')
  = if decide (t = t') then m else matrix (ms t').
Proof.
  unfold set_matrix. destruct (decide (t = t')) as [->|Hne].
  - by rewrite fn_lookup_insert.
  - by rewrite fn_lookup_insert_ne.
Qed.

Lemma matrix_set_updated (t t' : nzMatrixType) (b : bool) ms :
  matrix (set_updated t b ms t') = matrix (ms t').
Proof.
  unfold set_updated. destruct (decide (t = t')) as [->|Hne].
  - by rewrite fn_lookup_insert.
  - by rewrite fn_lookup_insert_ne.
Qed.

Ltac slot_values :=
  repeat (rewrite ?matrix_set_matrix, ?matrix_set_updated,
            ?updated_set_updated, ?updated_set_matrix;
          repeat first [ rewrite decide_True by done
                       | rewrite decide_False by done ]).

Lemma UpdateMatrix_rec_coherent (p v w : Matrix) (old : nzMatrixType → Matrix)
    (type : nzMatrixType) ms :
  slots_coherent p v w old ms →
  updated (ms type) = false →
  slots_coherent p v w old (UpdateMatrix_rec 3 type ms).
Proof.
  intros (HP & HV & HW & Hcoh) Hup.
  pose proof (Hcoh nzMatrixType_Projection) as CP.
  pose proof (Hcoh nzMatrixType_View) as CV.
  pose proof (Hcoh nzMatrixType_World) as CW.
  pose proof (Hcoh nzMatrixType_ViewProj) as CVP.
  pose proof (Hcoh nzMatrixType_WorldView) as CWV.
  pose proof (Hcoh nzMatrixType_WorldViewProj) as CWVP.
  pose proof (Hcoh nzMatrixType_InvProjection) as CIP.
  pose proof (Hcoh nzMatrixType_InvView) as CIV.
  pose proof (Hcoh nzMatrixType_InvViewProj) as CIVP.
  pose proof (Hcoh nzMatrixType_InvWorld) as CIW.
  pose proof (Hcoh nzMatrixType_InvWorldView) as CIWV.
  pose proof (Hcoh nzMatrixType_InvWorldViewProj) as CIWVP.
  rewrite ?HP, ?HV, ?HW in *. cbn [derived_matrix] in CP, CV, CW.
  clear Hcoh.
  destruct type; try congruence; rewrite Hup in *;
    cbn [UpdateMatrix_rec]; unfold UpdateInverse;
    rewrite ?HP, ?HV, ?HW;
    repeat match goal with
    | |- context [if updated (ms ?x) then _ else _] =>
        let E := fresh "E" in destruct (updated (ms x)) eqn:E; rewrite ?E in *
    end;
    cbn [UpdateMatrix_rec];
    repeat match goal with
    | |- context [GetInverse ?a ?b] =>
        let G := fresh "G" in destruct (GetInverse a b) eqn:G
    end;
    (split; [by slot_values|]); (split; [by slot_values|]);
    (split; [by slot_values|]).
  all: intros t; destruct t; slot_values;
    rewrite ?HP, ?HV, ?HW, ?Hup; try done.
  all: repeat match goal with
       | G : GetInverse _ _ = _ |- _ => revert G
       end;
    slot_values;
    repeat match goal with
    | H : updated _ = _ |- _ => rewrite H
    end;
    rewrite ?CP, ?CV, ?CW, ?CVP, ?CWV, ?CWVP, ?CIP, ?CIV, ?CIVP, ?CIW,
      ?CIWV, ?CIWVP;
    cbn [derived_matrix]; try done.
  all: repeat match goal with
       | |- GetInverse _ _ = _ → _ => let G := fresh "G" in intros G
       end; try done.
  all: by rewrite G.
Qed.

Lemma GetMatrix_coherent (p v w : Matrix) (old : nzMatrixType → Matrix)
    (type : nzMatrixType) s :
  slots_coherent p v w old (s_matrices s) →
  (GetMatrix type s).1 = derived_matrix p v w old type
  ∧ slots_coherent p v w old (s_matrices (GetMatrix type s).2).
Proof.
  intros Hcoh. unfold GetMatrix.
  destruct (updated (s_matrices s type)) eqn:Hup; cbn [fst snd].
  - split; [|done]. destruct Hcoh as (_ & _ & _ & Hcoh).
    by rewrite Hcoh, Hup.
  - pose proof (UpdateMatrix_rec_coherent p v w old type _ Hcoh Hup) as Hnew.
    split; [|done]. unfold UpdateMatrix. cbn [set_s_matrices s_matrices].
    destruct Hnew as (_ & _ & _ & Hnew).
    by rewrite Hnew, UpdateMatrix_rec_updated.
Qed.

(** X12.  Once the projection, the view and the world matrices are set,
    in this order, every slot is read as the value computed from the three
    of them, after any sequence of reads of any slots: ViewProj is the
    product of view and projection, WorldView the affine concatenation of
    world and view, WorldViewProj the concatenation of WorldView and
    projection, and each Inv slot the result of [GetInverse] on its
    source, written over what the slot held before the three were set. *)
Theorem derived_matrices_follow_base_matrices (projection view world : Matrix)
    (types : list nzMatrixType) (type : nzMatrixType) s :
  (GetMatrix type
     (read_matrices types (set_base_matrices projection view world s))).1
  = derived_matrix projection view world (λ t, matrix (s_matrices s t)) type.
Proof.
  pose proof (set_base_matrices_coherent projection view world s) as Hcoh.
  revert Hcoh.
  generalize (set_base_matrices projection view world s) as s0.
  unfold read_matrices.
  induction types as [|t types IH]; intros s0 Hcoh; cbn [foldl].
  - by apply GetMatrix_coherent.
  - apply IH. by apply GetMatrix_coherent.
Qed.

End MatrixCoherence.

(** ** The table of vertex arrays *)

Section VertexArrayFacts.
Import Renderer Drawing.
Context {Matrix Sampler RenderStates : Type}.
Context `{!NzMatrix4 Matrix} `{!NzTextureSamplerOps Sampler}.

Abbreviation State := (State Matrix Sampler RenderStates).
Abbreviation Call := (Call Matrix Sampler RenderStates).
Implicit Types (s : State) (W : World) (D : Device).

(** The table of vertex arrays and the current vertex array. *)
Lemma frame_vaos s s' :
  frame s' = frame s →
  s_vaos s' = s_vaos s ∧ s_currentVAO s' = s_currentVAO s.
Proof. unfold frame. intros [=]. by split. Qed.

Lemma UpdateTextures_vaos s :
  let s' := (UpdateTextures s).1 in
  s_vaos s' = s_vaos s ∧ s_currentVAO s' = s_currentVAO s.
Proof.
  unfold UpdateTextures.
  match goal with
  | |- context [for_each ?body ?l s] =>
      pose proof (for_each_preserves frame body l s) as Hframe
  end.
  destruct (for_each _ _ s) as [s1 c1]. cbn [fst] in *.
  destruct (frame_vaos s s1) as [Hv Hc]; [|done].
  apply Hframe. intros i s0.
  destruct (s_useSamplerObjects s);
    [apply UpdateTextureUnit_samplerObjects_frame
    |apply UpdateTextureUnit_fallback_frame].
Qed.

Lemma UpdateMatrices_vaos s :
  let s' := (UpdateMatrices s).1 in
  s_vaos s' = s_vaos s ∧ s_currentVAO s' = s_currentVAO s.
Proof.
  unfold UpdateMatrices.
  pose proof (for_each_preserves frame SendMatrixUnit all_matrix_types s
                SendMatrixUnit_frame) as Hframe.
  destruct (for_each _ _ s) as [s1 c1]. cbn [fst] in *.
  by destruct (frame_vaos s s1 Hframe).
Qed.

(** A call that finds [Update_VAO] set and a vertex buffer bound, past the
    three preconditions, ends with [UpdateVAO] on a state that has the
    table of vertex arrays and the bindings of the state given. *)
Lemma EnsureStateUpdate_reaches_UpdateVAO W s :
  flags_wf (s_updateFlags s) →
  NzContext_GetCurrent W ≠ nullptr →
  s_program s ≠ nullptr →
  s_target s ≠ nullptr →
  has_flag (s_updateFlags s) Update_VAO = true →
  ∃ s4 : State,
    s_vaos s4 = s_vaos s
    ∧ bindings s4 = bindings s
    ∧ (EnsureStateUpdate W s).1.1
      = negb (bool_decide (s_vertexBuffer s = nullptr))
    ∧ (s_vertexBuffer s ≠ nullptr →
       (EnsureStateUpdate W s).1.2 = (UpdateVAO W s4).1).
Proof.
  intros Hwf Hctx Hprog Htarget Hvao. unfold EnsureStateUpdate.
  rewrite !bool_decide_eq_false_2 by done.
  destruct (flags_arith_marks _ Hwf) as (_ & _ & _ & _ & A5 & A6).
  pose proof (Program_stage W s) as (B1 & F1 & _).
  assert (s_vaos (if has_flag (s_updateFlags s) Update_Program
                  then ResolveUniformLocations W s else (s, [])).1
          = s_vaos s) as V1
    by (destruct (has_flag (s_updateFlags s) Update_Program); reflexivity).
  destruct (if has_flag (s_updateFlags s) Update_Program then _ else _)
    as [s1 c1]. cbn [fst] in B1, F1, V1.
  pose proof (SendTargetSize_spec W s1) as (B2 & F2 & _).
  assert (s_vaos (SendTargetSize W s1).1 = s_vaos s1) as V2
    by (unfold SendTargetSize; case_bool_decide; reflexivity).
  destruct (SendTargetSize W s1) as [s2 c2]. cbn [fst] in B2, F2, V2.
  rewrite F1 in F2. rewrite B1 in B2. rewrite V1 in V2. clear B1 F1 V1.
  rewrite bool_decide_eq_true_2.
  2:{ rewrite F2. intros Hnone. apply A5 in Hnone as (_ & _ & _ & Hnone).
      congruence. }
  pose proof (Textures_stage s2) as (B3 & F3 & _).
  assert (s_vaos (if has_flag (s_updateFlags s2) Update_Textures
                  then UpdateTextures s2 else (s2, [])).1
          = s_vaos s2) as V3.
  { destruct (has_flag (s_updateFlags s2) Update_Textures); [|done].
    apply UpdateTextures_vaos. }
  destruct (if has_flag (s_updateFlags s2) Update_Textures then _ else _)
    as [s3 c3]. cbn [fst] in B3, F3, V3.
  pose proof (Matrices_stage s3) as (B4 & F4 & _).
  assert (s_vaos (if has_flag (s_updateFlags s3) Update_Matrices
                  then UpdateMatrices s3 else (s3, [])).1
          = s_vaos s3) as V4.
  { destruct (has_flag (s_updateFlags s3) Update_Matrices); [|done].
    apply UpdateMatrices_vaos. }
  destruct (if has_flag (s_updateFlags s3) Update_Matrices then _ else _)
    as [s4 c4]. cbn [fst] in B4, F4, V4.
  rewrite F2 in F3. rewrite F3 in F4. rewrite B3, B2 in B4.
  rewrite V3, V2 in V4.
  rewrite F4.
  destruct (has_flag
              (after_matrices
                 (after_textures (after_program (s_updateFlags s))))
              Update_VAO) eqn:Hv.
  2:{ specialize (A6 eq_refl). congruence. }
  destruct (bindings_inv _ _ B4) as (_ & _ & Hsame & _).
  exists s4. split; [done|]. split; [done|]. rewrite Hsame.
  case_bool_decide as Hnull; [done|].
  by destruct (UpdateVAO W s4) as [s5 c5].
Qed.

(** X13.  With vertex array objects in use, a call of [EnsureStateUpdate]
    that finds [Update_VAO] set and returns [true] leaves as the current
    vertex array the one cached, in the table of the active context, under
    the key made of the bound index buffer, the bound vertex buffer, its
    declaration and, when instancing is on, the instancing declaration.
    If the key was in the table, its vertex array is the one taken and
    the table is left as it was; if not, the name returned by
    [glGenVertexArrays] is recorded under the key. *)
Theorem EnsureStateUpdate_binds_cached_vertex_array W s s' (c : list Call) :
  flags_wf (s_updateFlags s) →
  s_useVertexArrayObjects s = true →
  has_flag (s_updateFlags s) Update_VAO = true →
  EnsureStateUpdate W s = (true, s', c) →
  let context := NzContext_GetCurrent W in
  cached_vao s' context (current_key W s') = Some (s_currentVAO s')
  ∧ current_key W s' = current_key W s
  ∧ match cached_vao s context (current_key W s) with
    | Some vao => s_currentVAO s' = vao ∧ s_vaos s' = s_vaos s
    | None => s_currentVAO s' = glGenVertexArrays_name W
    end.
Proof.
  intros Hwf Huse Hvao Hrun. cbn zeta.
  destruct (EnsureStateUpdate_true _ _ _ _ Hrun) as (Hctx & Hprog & Htarget).
  destruct (EnsureStateUpdate_reaches_UpdateVAO W s Hwf Hctx Hprog Htarget
              Hvao) as (s4 & Hvaos & Hb & Hok & Hstate).
  rewrite Hrun in Hok, Hstate. cbn [fst snd] in Hok, Hstate.
  assert (s_vertexBuffer s ≠ nullptr) as Hvb
    by (intros Hnull; by rewrite bool_decide_eq_true_2 in Hok).
  specialize (Hstate Hvb). subst s'.
  assert (current_key W s4 = current_key W s) as Hkey.
  { unfold current_key, bindings in *. by injection Hb as _ -> _ _ -> -> ->. }
  assert (s_useVertexArrayObjects s4 = true) as Huse4
    by (destruct (bindings_inv _ _ Hb) as (_ & _ & _ & ->); done).
  pose proof (UpdateVAO_spec W s4) as (Hb5 & _).
  assert (current_key W (UpdateVAO W s4).1 = current_key W s) as Hkey5.
  { rewrite <- Hkey. unfold current_key, bindings in *.
    by injection Hb5 as _ -> _ _ -> -> ->. }
  rewrite Hkey5.
  assert (∀ s5 : State,
            cached_vao
              (set_s_updateFlags
                 (Z.land (s_updateFlags s5) (not32 Update_VAO)) s5)
            = cached_vao s5) as Hflags by done.
  unfold UpdateVAO. rewrite Huse4.
  fold (current_key W s4). rewrite Hkey.
  pose proof (FindOrCreateVAO_cached W (NzContext_GetCurrent W)
                (current_key W s) s4) as Hcached.
  pose proof (FindOrCreateVAO_frame W (NzContext_GetCurrent W)
                (current_key W s) s4) as (Hb6 & _).
  destruct (cached_vao s (NzContext_GetCurrent W) (current_key W s))
    as [vao|] eqn:Hlook.
  - assert (cached_vao s4 (NzContext_GetCurrent W) (current_key W s)
            = Some vao) as Hlook4 by (unfold cached_vao in *; by rewrite Hvaos).
    rewrite (FindOrCreateVAO_hit W _ _ s4 vao Hlook4) in *.
    cbn [fst snd s_useVertexArrayObjects set_s_vaos set_s_currentVAO] in *.
    rewrite Huse4. cbn [fst].
    split; [by rewrite Hflags|]. split; [done|]. by split.
  - assert (cached_vao s4 (NzContext_GetCurrent W) (current_key W s) = None)
      as Hlook4 by (unfold cached_vao in *; by rewrite Hvaos).
    destruct (FindOrCreateVAO W (NzContext_GetCurrent W) (current_key W s) s4)
      as [[s5 update] c5] eqn:Hfind. cbn [fst snd] in *.
    assert (s_useVertexArrayObjects s5 = true) as ->
      by (destruct (bindings_inv _ _ Hb6) as (_ & _ & _ & ->); done).
    cbn [fst]. split; [by rewrite Hflags|]. split; [done|].
    revert Hfind. unfold FindOrCreateVAO, cached_vao in *.
    destruct (s_vaos s4 !! NzContext_GetCurrent W) as [vaos|] eqn:Htable;
      cbn in *.
    + rewrite Htable. cbn. rewrite Hlook4. by intros [= <- _ _].
    + rewrite lookup_insert_eq. cbn. rewrite lookup_empty.
      by intros [= <- _ _].
Qed.


(** X14.  When a context is released, the vertex arrays recorded for it
    are forgotten and those of the other contexts are kept.  The next
    look-up in that context finds no table: it listens to the context
    anew, takes the name [glGenVertexArrays] returns and asks for the
    vertex array to be programmed.  A release under a tag that is none of
    the four changes nothing. *)
Theorem OnResourceReleased_context_forgets_its_vertex_arrays W
    (context : ptr) key s :
  let s' :=
    OnResourceReleased context (index_of_ResourceType ResourceType_Context)
      s in
  (∀ (context' : ptr) (key' : N * N * N * N),
     cached_vao s' context' key'
     = if bool_decide (context' = context) then None
       else cached_vao s context' key')
  ∧ (let again := FindOrCreateVAO W context key s' in
     again.1.2 = true
     ∧ s_currentVAO again.1.1 = glGenVertexArrays_name W
     ∧ head again.2
       = Some (call_AddResourceListener context ResourceType_Context))
  ∧ (∀ (resource : ptr) (index : Z),
       ResourceType_of_index index = None →
       OnResourceReleased resource index s = s).
Proof.
  assert (OnResourceReleased context
            (index_of_ResourceType ResourceType_Context) s
          = set_s_vaos (delete context (s_vaos s)) s) as -> by reflexivity.
  cbn zeta. split; [|split].
  - intros context' key'. unfold cached_vao. cbn [set_s_vaos s_vaos].
    case_bool_decide as Hctx.
    + subst. by rewrite lookup_delete_eq.
    + by rewrite lookup_delete_ne.
  - unfold FindOrCreateVAO. cbn [set_s_vaos s_vaos].
    rewrite lookup_delete_eq. rewrite lookup_insert_eq. cbn [default id].
    by rewrite (lookup_empty key).
  - intros resource index Hnone. unfold OnResourceReleased. by rewrite Hnone.
Qed.

End VertexArrayFacts.

(** ** The calls of an update *)

Section TraceFacts.
Import Renderer Drawing.
Context {Matrix Sampler RenderStates : Type}.
Context `{!NzMatrix4 Matrix} `{!NzTextureSamplerOps Sampler}.

Abbreviation State := (State Matrix Sampler RenderStates).
Abbreviation Call := (Call Matrix Sampler RenderStates).
Abbreviation Slots := (nzMatrixType → MatrixUnit Matrix).
Abbreviation Operation := (@Operation Matrix Sampler).
Implicit Types (s : State) (W : World) (D : Device) (ms : Slots).

(** ** The textures of the units *)

Lemma textures_insert (l : list (TextureUnit Sampler)) (i : nat)
    (u u' : TextureUnit Sampler) :
  l !! i = Some u → texture u' = texture u →
  texture <$> <[i := u']> l = texture <$> l.
Proof.
  intros Hu Ht. rewrite list_fmap_insert, Ht.
  apply list_insert_id. by rewrite list_lookup_fmap, Hu.
Qed.

Lemma UpdateTextures_textures s :
  texture <$> s_textureUnits (UpdateTextures s).1
  = texture <$> s_textureUnits s.
Proof.
  unfold UpdateTextures.
  set (body := if s_useSamplerObjects s then _ else _).
  pose proof (for_each_preserves (λ s, texture <$> s_textureUnits s) body
                (dirty_units_in_order (s_dirtyTextureUnits s)) s) as Hloop.
  destruct (for_each body _ s) as [s1 c1]. cbn [fst] in *.
  apply Hloop. intros i s0. unfold body.
  destruct (s_useSamplerObjects s).
  - unfold UpdateTextureUnit_samplerObjects.
    destruct (s_textureUnits s0 !! N.to_nat i) as [u|] eqn:Hu; [|done].
    case_bool_decide; [|done].
    destruct (textureUpdated u), (samplerUpdated u); cbn;
      by apply (textures_insert _ _ u).
  - unfold UpdateTextureUnit_fallback.
    destruct (s_textureUnits s0 !! N.to_nat i) as [u|] eqn:Hu; [|done].
    case_bool_decide; [|done]. cbn. by apply (textures_insert _ _ u).
Qed.

(** A call that returns [true] has left the textures of the units where
    they were and ends with the calls of [BindCurrentState]. *)
Lemma EnsureStateUpdate_ends_bound W s s' (c : list Call) :
  EnsureStateUpdate W s = (true, s', c) →
  texture <$> s_textureUnits s' = texture <$> s_textureUnits s
  ∧ bindings s' = bindings s
  ∧ ∃ c0 : list Call, c = c0 ++ BindCurrentState W s'.
Proof.
  intros Hrun.
  destruct (EnsureStateUpdate_true _ _ _ _ Hrun) as (Hctx & Hprog & Htarget).
  revert Hrun. unfold EnsureStateUpdate.
  rewrite !bool_decide_eq_false_2 by done.
  pose proof (Program_stage W s) as (B1 & _).
  pose proof (Program_stage_slots W s) as (U1 & _).
  destruct (if has_flag (s_updateFlags s) Update_Program then _ else _)
    as [s1 c1]. cbn [fst] in B1, U1.
  pose proof (SendTargetSize_spec W s1) as (B2 & _).
  pose proof (SendTargetSize_slots W s1) as (U2 & _).
  destruct (SendTargetSize W s1) as [s2 c2]. cbn [fst] in B2, U2.
  rewrite B1 in B2. rewrite U1 in U2. clear B1 U1.
  case_bool_decide as Hdirty.
  2:{ intros [= <- <-]. split; [by rewrite U2|]. split; [done|].
      eexists. rewrite ?app_comm_cons. reflexivity. }
  pose proof (Textures_stage s2) as (B3 & _).
  assert (texture <$> s_textureUnits
            (if has_flag (s_updateFlags s2) Update_Textures
             then UpdateTextures s2 else (s2, [])).1
          = texture <$> s_textureUnits s2) as T3.
  { destruct (has_flag (s_updateFlags s2) Update_Textures); [|done].
    apply UpdateTextures_textures. }
  destruct (if has_flag (s_updateFlags s2) Update_Textures then _ else _)
    as [s3 c3]. cbn [fst] in B3, T3.
  pose proof (Matrices_stage s3) as (B4 & _).
  pose proof (Matrices_stage_slots s3) as (U4 & _).
  destruct (if has_flag (s_updateFlags s3) Update_Matrices then _ else _)
    as [s4 c4]. cbn [fst] in B4, U4.
  rewrite B3, B2 in B4. rewrite U2 in T3. rewrite <- U4 in T3.
  destruct (has_flag (s_updateFlags s4) Update_VAO).
  - case_bool_decide; [done|].
    pose proof (UpdateVAO_spec W s4) as (B5 & _).
    pose proof (UpdateVAO_slots W s4) as (U5 & _).
    destruct (UpdateVAO W s4) as [s5 c5]. cbn [fst] in B5, U5.
    intros [= <- <-]. split; [by rewrite U5|]. split; [congruence|].
    eexists. rewrite ?app_comm_cons, !app_assoc. reflexivity.
  - intros [= <- <-]. split; [done|]. split; [done|].
    eexists. rewrite ?app_comm_cons, !app_assoc. reflexivity.
Qed.

(** X23.  A call of [EnsureStateUpdate] that returns [true] has, whatever
    was dirty, bound the texture of every unit below [s_maxTextureUnit]
    that holds one, under the type and the name the texture reports, and,
    with vertex array objects in use, bound the vertex array it leaves
    current; the last call it makes applies the render states. *)
Theorem EnsureStateUpdate_binds_every_texture W s s' (c : list Call) :
  EnsureStateUpdate W s = (true, s', c) →
  last c = Some (call_ApplyStates (s_states s))
  ∧ (s_useVertexArrayObjects s = true →
     call_glBindVertexArray (s_currentVAO s') ∈ c)
  ∧ ∀ (unit : N) (u : TextureUnit Sampler),
      (unit < s_maxTextureUnit s)%N →
      s_textureUnits s !! N.to_nat unit = Some u →
      texture u ≠ nullptr →
      call_BindTexture unit (GetType W (texture u))
        (GetOpenGLID W (texture u)) ∈ c.
Proof.
  intros Hrun.
  destruct (EnsureStateUpdate_ends_bound W s s' c Hrun)
    as (Htex & Hb & c0 & ->).
  assert (s_states s' = s_states s ∧ s_maxTextureUnit s' = s_maxTextureUnit s
          ∧ s_useVertexArrayObjects s' = s_useVertexArrayObjects s)
    as (Hstates & Hmax & Huse) by (unfold bindings in Hb; by simplify_eq).
  unfold BindCurrentState. rewrite Hstates, Hmax, Huse.
  split; [by rewrite !app_assoc, last_snoc|]. split.
  - intros ->. rewrite !elem_of_app. right. left. apply list_elem_of_here.
  - intros unit u Hunit Hu Ht. rewrite !elem_of_app. right. right. left.
    apply list_elem_of_In, in_concat.
    assert (∃ u', s_textureUnits s' !! N.to_nat unit = Some u'
                  ∧ texture u' = texture u) as (u' & Hu' & Htu).
    { assert ((texture <$> s_textureUnits s') !! N.to_nat unit
              = Some (texture u)) as Hl
        by (by rewrite Htex, list_lookup_fmap, Hu).
      rewrite list_lookup_fmap in Hl.
      destruct (s_textureUnits s' !! N.to_nat unit) as [u'|]; [|done].
      exists u'. split; [done|]. by injection Hl. }
    eexists. split.
    + apply in_map_iff. exists (N.to_nat unit). split; [reflexivity|].
      apply in_seq. lia.
    + cbn beta. rewrite Hu', Htu, bool_decide_eq_true_2 by done.
      rewrite N2Nat.id. by left.
Qed.


(** ** The matrices sent *)

Lemma for_each_calls {A : Type} (Inv : State → Prop) (P : A → Prop)
    (call_of : A → Call) (body : A → State → State * list Call)
    (l : list A) s (x : A) :
  (∀ y s, Inv s → Inv (body y s).1) →
  (∀ y s, Inv s → P y → call_of y ∈ (body y s).2) →
  Inv s → x ∈ l → P x →
  call_of x ∈ (for_each body l s).2.
Proof.
  intros Hkeep Hcall. revert s.
  induction l as [|y l IH]; intros s Hs Hx Hp; [by apply elem_of_nil in Hx|].
  cbn [for_each].
  pose proof (Hkeep y s Hs) as Hs1. pose proof (Hcall y s Hs) as Hc1.
  destruct (body y s) as [s1 c1]. cbn [fst snd] in *.
  specialize (IH s1 Hs1).
  destruct (for_each body l s1) as [s2 c2]. cbn [snd] in *.
  apply elem_of_app. apply elem_of_cons in Hx as [->|Hx]; [left|right]; auto.
Qed.

Lemma foldl_set_location_matrix (f : nzMatrixType → Z)
    (ts : list nzMatrixType) (t : nzMatrixType) ms :
  matrix (foldl (λ ms t, set_location t (f t) ms) ms ts t) = matrix (ms t).
Proof.
  revert ms. induction ts as [|t0 ts IH]; intros ms; [done|].
  cbn [foldl]. rewrite IH. unfold set_location.
  destruct (decide (t0 = t)) as [->|Hne].
  - by rewrite fn_lookup_insert.
  - by rewrite fn_lookup_insert_ne.
Qed.

(** The slots agree with the base matrices whatever their locations. *)
Lemma slots_coherent_ext (p v w : Matrix) (old : nzMatrixType → Matrix)
    ms ms' :
  (∀ t, matrix (ms' t) = matrix (ms t) ∧ updated (ms' t) = updated (ms t)) →
  slots_coherent p v w old ms → slots_coherent p v w old ms'.
Proof.
  intros Hsame (HP & HV & HW & Hcoh).
  split; [by rewrite (proj2 (Hsame _))|].
  split; [by rewrite (proj2 (Hsame _))|].
  split; [by rewrite (proj2 (Hsame _))|].
  intros t. destruct (Hsame t) as [-> ->]. apply Hcoh.
Qed.

Lemma SendMatrixUnit_sends (p v w : Matrix) (old : nzMatrixType → Matrix)
    (program : ptr) (loc : nzMatrixType → Z) (type : nzMatrixType) s :
  let Inv (s : State) :=
    slots_coherent p v w old (s_matrices s)
    ∧ s_program s = program
    ∧ ∀ t, location (s_matrices s t) = loc t in
  Inv s →
  Inv (SendMatrixUnit type s).1
  ∧ (loc type ≠ (-1)%Z →
     call_SendMatrix program (loc type) (derived_matrix p v w old type)
     ∈ (SendMatrixUnit type s).2).
Proof.
  cbn zeta. intros (Hcoh & Hprog & Hloc). unfold SendMatrixUnit.
  rewrite Hloc. case_bool_decide as Hl; [|done].
  destruct (GetMatrix_coherent p v w old type s Hcoh) as [Hval Hcoh'].
  unfold GetMatrix in Hval, Hcoh'.
  destruct (updated (s_matrices s type)) eqn:Hup; cbn [fst snd] in *.
  - split; [done|]. intros _. rewrite Hprog, Hloc, Hval.
    apply list_elem_of_here.
  - destruct (UpdateMatrix_settles type s) as ((_ & HL & _) & _).
    split.
    + split; [done|]. split; [done|]. intros t. by rewrite HL.
    + intros _. rewrite HL, Hloc, Hval.
      assert (s_program (UpdateMatrix type s) = program) as -> by done.
      apply list_elem_of_here.
Qed.

Lemma UpdateMatrices_sends (p v w : Matrix) (old : nzMatrixType → Matrix)
    (type : nzMatrixType) s :
  slots_coherent p v w old (s_matrices s) →
  location (s_matrices s type) ≠ (-1)%Z →
  call_SendMatrix (s_program s) (location (s_matrices s type))
    (derived_matrix p v w old type)
  ∈ (UpdateMatrices s).2.
Proof.
  intros Hcoh Hloc. unfold UpdateMatrices.
  pose proof (for_each_calls
                (λ s0, slots_coherent p v w old (s_matrices s0)
                       ∧ s_program s0 = s_program s
                       ∧ ∀ t, location (s_matrices s0 t)
                              = location (s_matrices s t))
                (λ t, location (s_matrices s t) ≠ (-1)%Z)
                (λ t, call_SendMatrix (s_program s)
                        (location (s_matrices s t))
                        (derived_matrix p v w old t))
                SendMatrixUnit all_matrix_types s type) as Hin.
  destruct (for_each SendMatrixUnit all_matrix_types s) as [s1 c1].
  cbn [snd] in *. apply Hin; try done.
  - intros t s0 Hs0.
    by destruct (SendMatrixUnit_sends p v w old (s_program s)
                   (λ t, location (s_matrices s t)) t s0 Hs0).
  - intros t s0 Hs0.
    by destruct (SendMatrixUnit_sends p v w old (s_program s)
                   (λ t, location (s_matrices s t)) t s0 Hs0).
  - apply elem_of_all_matrix_types.
Qed.

Lemma flags_arith_matrices (f : Z) :
  flags_wf f →
  has_flag f Update_Matrices = true →
  after_program f ≠ Update_None
  ∧ has_flag (after_textures (after_program f)) Update_Matrices = true.
Proof.
  intros Hwf. apply flags_cases in Hwf.
  repeat (destruct Hwf as [->|Hwf]); try rewrite Hwf;
    vm_compute; intros; split; congruence.
Qed.


(** With [Update_Matrices] set, a call that passes the three preconditions
    makes the calls of [UpdateMatrices] on a state that has the matrices
    of the state given, the locations of the bound program and the
    program itself. *)
Lemma EnsureStateUpdate_updates_matrices W s (ok : bool) s' (c : list Call) :
  marks_sound W s →
  NzContext_GetCurrent W ≠ nullptr →
  s_program s ≠ nullptr →
  s_target s ≠ nullptr →
  has_flag (s_updateFlags s) Update_Matrices = true →
  EnsureStateUpdate W s = (ok, s', c) →
  ∃ s3 : State,
    (∀ t, matrix (s_matrices s3 t) = matrix (s_matrices s t)
          ∧ updated (s_matrices s3 t) = updated (s_matrices s t))
    ∧ locations_resolved W s3
    ∧ s_program s3 = s_program s
    ∧ ∀ call : Call, call ∈ (UpdateMatrices s3).2 → call ∈ c.
Proof.
  intros Hs Hctx Hprog Htarget Hmat. unfold EnsureStateUpdate.
  rewrite !bool_decide_eq_false_2 by done.
  destruct (flags_arith_matrices _ (marks_flags _ _ Hs) Hmat) as [Hne Hmat2].
  pose proof (Program_stage W s) as (B1 & F1 & _).
  assert (let r := if has_flag (s_updateFlags s) Update_Program
                   then ResolveUniformLocations W s else (s, []) in
          (∀ t, matrix (s_matrices r.1 t) = matrix (s_matrices s t)
                ∧ updated (s_matrices r.1 t) = updated (s_matrices s t))
          ∧ locations_resolved W r.1) as [M1 L1].
  { destruct (has_flag (s_updateFlags s) Update_Program) eqn:E; cbn zeta.
    - destruct (ResolveUniformLocations_slots W s) as (_ & Hres & Hup).
      split; [|done]. intros t. split; [|done].
      unfold ResolveUniformLocations. cbn [fst set_s_updateFlags
        set_s_targetSize set_s_matrices s_matrices].
      apply foldl_set_location_matrix.
    - split; [done|]. by apply (marks_program _ _ Hs). }
  destruct (if has_flag (s_updateFlags s) Update_Program then _ else _)
    as [s1 c1]. cbn [fst] in B1, F1, M1, L1.
  pose proof (SendTargetSize_spec W s1) as (B2 & F2 & _).
  pose proof (SendTargetSize_slots W s1) as (_ & M2).
  destruct (SendTargetSize W s1) as [s2 c2]. cbn [fst] in B2, F2, M2.
  rewrite F1 in F2. rewrite B1 in B2.
  rewrite bool_decide_eq_true_2 by (by rewrite F2).
  pose proof (Textures_stage s2) as (B3 & F3 & _).
  pose proof (Textures_stage_units s2) as (M3 & _).
  destruct (if has_flag (s_updateFlags s2) Update_Textures then _ else _)
    as [s3 c3]. cbn [fst] in B3, F3, M3.
  rewrite F2 in F3. rewrite B2 in B3. rewrite M2 in M3.
  assert (has_flag (s_updateFlags s3) Update_Matrices = true) as ->
    by (by rewrite F3).
  assert (s_program s3 = s_program s) as Hp3
    by (by destruct (bindings_inv _ _ B3) as (-> & _)).
  assert (locations_resolved W s3) as Hres3.
  { intros t. rewrite M3, Hp3.
    destruct (bindings_inv _ _ B1) as (<- & _). apply L1. }
  assert (∀ t, matrix (s_matrices s3 t) = matrix (s_matrices s t)
               ∧ updated (s_matrices s3 t) = updated (s_matrices s t))
    as Hsame3 by (by rewrite M3).
  destruct (UpdateMatrices s3) as [s4 c4] eqn:Hum.
  assert (∀ (call : Call) (l : list Call),
            call ∈ (UpdateMatrices s3).2 →
            (call ∈ c4 → call ∈ l) → call ∈ l) as Hin.
  { intros call l Hcall Hl. apply Hl. by rewrite Hum in Hcall. }
  destruct (has_flag (s_updateFlags s4) Update_VAO).
  - case_bool_decide.
    + intros [= <- <- <-]. exists s3. do 3 (split; [done|]).
      intros call Hcall. apply (Hin call _ Hcall). intros Hc4.
      repeat (rewrite elem_of_cons || rewrite elem_of_app). tauto.
    + destruct (UpdateVAO W s4) as [s5 c5]. intros [= <- <- <-].
      exists s3. do 3 (split; [done|]).
      intros call Hcall. apply (Hin call _ Hcall). intros Hc4.
      repeat (rewrite elem_of_cons || rewrite elem_of_app). tauto.
  - intros [= <- <- <-]. exists s3. do 3 (split; [done|]).
    intros call Hcall. apply (Hin call _ Hcall). intros Hc4.
    repeat (rewrite elem_of_cons || rewrite elem_of_app). tauto.
Qed.

(** X24.  The projection, the view and the world matrices are set, in a
    state reached from [Initialize] with a program and a target bound,
    and any slots are read.  The next [EnsureStateUpdate], if the context
    is active, sends to every matrix uniform the program has (location
    other than -1), at the location the program gives, the value of the
    slot computed from the three matrices set: the product for
    WorldViewProj, the result of [GetInverse] on its source for an Inv
    slot.  It does so whether it then returns [true] or fails on a
    missing vertex buffer. *)
Theorem EnsureStateUpdate_sends_derived_matrices W D (ops : list Operation)
    (useSamplerObjects useVertexArrayObjects : bool) (maxTextureUnit : N)
    (states : RenderStates) (projection view world : Matrix)
    (types : list nzMatrixType) (ok : bool) s' (c : list Call) :
  let s0 :=
    reached W D ops useSamplerObjects useVertexArrayObjects maxTextureUnit
      states in
  let s := read_matrices types (set_base_matrices projection view world s0) in
  NzContext_GetCurrent W ≠ nullptr →
  s_program s0 ≠ nullptr →
  s_target s0 ≠ nullptr →
  EnsureStateUpdate W s = (ok, s', c) →
  ∀ type : nzMatrixType,
    let location := GetUniformLocation W (s_program s0) (matrix_uniform type) in
    location ≠ (-1)%Z →
    call_SendMatrix (s_program s0) location
      (derived_matrix projection view world (λ t, matrix (s_matrices s0 t))
         type)
    ∈ c.
Proof.
  cbn zeta. intros Hctx Hprog Htarget Hrun type Hloc.
  set (s0 := reached W D ops useSamplerObjects useVertexArrayObjects
               maxTextureUnit states) in *.
  pose proof (reached_marks W D ops useSamplerObjects useVertexArrayObjects
                maxTextureUnit states) as Hs0. fold s0 in Hs0.
  assert (∀ (reads : list nzMatrixType) (s1 : State),
            marks_sound W s1 →
            has_flag (s_updateFlags s1) Update_Matrices = true →
            slots_coherent projection view world
              (λ t, matrix (s_matrices s0 t)) (s_matrices s1) →
            s_program s1 = s_program s0 ∧ s_target s1 = s_target s0 →
            let s2 := read_matrices reads s1 in
            marks_sound W s2
            ∧ has_flag (s_updateFlags s2) Update_Matrices = true
            ∧ slots_coherent projection view world
                (λ t, matrix (s_matrices s0 t)) (s_matrices s2)
            ∧ s_program s2 = s_program s0 ∧ s_target s2 = s_target s0)
    as Hreads.
  { unfold read_matrices. induction reads as [|t reads IH];
      intros s1 Hm Hf Hc Hb; [done|].
    cbn [foldl]. apply IH.
    - by apply GetMatrix_marks.
    - unfold GetMatrix. by destruct (updated (s_matrices s1 t)).
    - by apply GetMatrix_coherent.
    - unfold GetMatrix. by destruct (updated (s_matrices s1 t)). }
  destruct (Hreads types (set_base_matrices projection view world s0))
    as (Hm & Hf & Hc & Hp & Ht).
  { unfold set_base_matrices. by repeat apply SetMatrix_marks. }
  { unfold set_base_matrices, SetMatrix at 1.
    cbn [s_updateFlags set_s_updateFlags].
    assert (flags_wf
              (s_updateFlags
                 (SetMatrix nzMatrixType_View view
                    (SetMatrix nzMatrixType_Projection projection s0))))
      as Hwf by (apply marks_flags with W; by repeat apply SetMatrix_marks).
    destruct (flags_lor_marks _ Update_Matrices Hwf) as (_ & -> & _);
      [unfold one_flag; tauto|].
    by rewrite bool_decide_eq_true_2, orb_true_r. }
  { apply set_base_matrices_coherent. }
  { done. }
  clear Hreads.
  destruct (EnsureStateUpdate_updates_matrices W _ ok s' c Hm Hctx
              ltac:(by rewrite Hp) ltac:(by rewrite Ht) Hf Hrun)
    as (s3 & Hsame & Hres & Hp3 & Hin).
  apply Hin.
  pose proof (UpdateMatrices_sends projection view world
                (λ t, matrix (s_matrices s0 t)) type s3) as Hsend.
  rewrite (Hres type), Hp3, Hp in Hsend. apply Hsend; [|done].
  by apply (slots_coherent_ext _ _ _ _ _ _ Hsame).
Qed.

End TraceFacts.

(** * Further properties of the deferred render queue *)

Section QueueCoverage.
Import DeferredRenderQueue QueueCommands.
Context {Matrix SkeletalData : Type}.

Abbreviation Queue := (Queue Matrix SkeletalData).
Abbreviation BatchedModel := (BatchedModel Matrix SkeletalData).
Abbreviation Command := (@Command Matrix).
Implicit Types (S : Scene) (M : Models Matrix) (q : Queue) (c : Command).

(** ** What one [AddSubMesh] does to the tables *)

Lemma AddSubMesh_elsewhere S (material subMesh : ptr) (t : Matrix) q :
  let q' := AddSubMesh S material subMesh t q in
  sprites q' = sprites q
  ∧ directionalLights q' = directionalLights q
  ∧ pointLights q' = pointLights q
  ∧ spotLights q' = spotLights q.
Proof. unfold AddSubMesh. repeat case_match; by simplify_eq. Qed.

Lemma AddSubMesh_skipped S (material subMesh : ptr) (t : Matrix) q :
  GetAnimationType S subMesh = nzAnimationType_Skeletal
  ∨ IsBlendEnabled S material = true →
  opaqueModels (AddSubMesh S material subMesh t q) = opaqueModels q
  ∧ listeners (AddSubMesh S material subMesh t q) = listeners q.
Proof.
  unfold AddSubMesh. intros [->| ->]; [done|]. by case_match.
Qed.

Lemma length_resize_and_assign_back (t : Matrix) (data : list Matrix) :
  N.of_nat
    (length
       (resize_and_assign_back ((N.of_nat (length data) + 1) `mod` 2 ^ 32)%N
          t data))
  = ((N.of_nat (length data) + 1) `mod` 2 ^ 32)%N.
Proof.
  unfold resize_and_assign_back.
  pose proof (N.Div0.mod_le (N.of_nat (length data) + 1) (2 ^ 32)%N) as Hle.
  revert Hle.
  generalize ((N.of_nat (length data) + 1) `mod` 2 ^ 32)%N as instanceCount.
  intros instanceCount Hle.
  case_bool_decide as Hzero; [by rewrite Hzero|].
  rewrite length_app, length_take. cbn [length]. lia.
Qed.

(** The batch of the material after an opaque static submesh is added. *)
Lemma AddSubMesh_batched S (material subMesh : ptr) (t : Matrix) q :
  GetAnimationType S subMesh = nzAnimationType_Static →
  IsBlendEnabled S material = false →
  let q' := AddSubMesh S material subMesh t q in
  let entry := default new_BatchedModel (opaqueModels q !! material) in
  ∃ (entry' : BatchedModel) (data' : list Matrix),
    opaqueModels q' = <[material := entry']> (opaqueModels q)
    ∧ used entry' = true
    ∧ skeletalMeshes entry' = skeletalMeshes entry
    ∧ staticMeshes entry' = <[subMesh := data']> (staticMeshes entry)
    ∧ ((NAZARA_GRAPHICS_INSTANCING_MIN_INSTANCES_COUNT S
        ≤ N.of_nat (length data'))%N → enableInstancing entry' = true)
    ∧ (enableInstancing entry = true → enableInstancing entry' = true)
    ∧ (∀ r : ptr, r ≠ material → r ≠ subMesh →
         listeners q' !! r = listeners q !! r)
    ∧ (material ≠ subMesh →
       (listeners q' !! material = Some 0%Z
        ∨ is_Some (opaqueModels q !! material)
          ∧ listeners q' !! material = listeners q !! material)
       ∧ (listeners q' !! subMesh = Some 2%Z
          ∨ is_Some (staticMeshes entry !! subMesh)
            ∧ listeners q' !! subMesh = listeners q !! subMesh)).
Proof.
  intros Hstatic Hopaque. unfold AddSubMesh. rewrite Hstatic, Hopaque.
  cbn zeta.
  assert (∀ (entry : BatchedModel) (q0 : Queue) (data : list Matrix)
            (q1 : Queue),
    default [] (staticMeshes entry !! subMesh) = data →
    ∃ (entry' : BatchedModel) (data' : list Matrix),
      opaqueModels
        (set_opaqueModels
           (<[material :=
                {| used := true;
                   enableInstancing :=
                     if bool_decide
                          (NAZARA_GRAPHICS_INSTANCING_MIN_INSTANCES_COUNT S
                           ≤ (N.of_nat (length data) + 1) `mod` 2 ^ 32)%N
                     then true else enableInstancing entry;
                   skeletalMeshes := skeletalMeshes entry;
                   staticMeshes :=
                     <[subMesh :=
                         resize_and_assign_back
                           ((N.of_nat (length data) + 1) `mod` 2 ^ 32)%N t
                           data]> (staticMeshes entry) |}]>
              (opaqueModels q1)) q1)
      = <[material := entry']> (opaqueModels q1)
      ∧ used entry' = true
      ∧ skeletalMeshes entry' = skeletalMeshes entry
      ∧ staticMeshes entry' = <[subMesh := data']> (staticMeshes entry)
      ∧ ((NAZARA_GRAPHICS_INSTANCING_MIN_INSTANCES_COUNT S
          ≤ N.of_nat (length data'))%N → enableInstancing entry' = true)
      ∧ (enableInstancing entry = true → enableInstancing entry' = true))
    as Hentry.
  { intros entry q0 data q1 Hdata. eexists _, _.
    split; [reflexivity|]. cbn. do 3 (split; [done|]). split.
    - rewrite length_resize_and_assign_back. intros Hle.
      by rewrite bool_decide_eq_true_2.
    - intros ->. by case_bool_decide. }
  destruct (opaqueModels q !! material) as [entry|] eqn:Hmat; cbn [default].
  - destruct (staticMeshes entry !! subMesh) as [data|] eqn:Hmesh.
    + destruct (Hentry entry q data q) as (entry' & data' & H1 & H2 & H3 & H4
                                           & H5 & H6); [by rewrite Hmesh|].
      exists entry', data'. do 6 (split; [done|]). split; [done|].
      intros Hne. split; right; split; done.
    + destruct (Hentry entry q []
                  (AddResourceListener subMesh ResourceType_StaticMesh q))
        as (entry' & data' & H1 & H2 & H3 & H4 & H5 & H6);
        [by rewrite Hmesh|].
      exists entry', data'. do 6 (split; [done|]). cbn. split.
      * intros r _ Hr. by rewrite lookup_insert_ne.
      * intros Hne. split.
        -- right. split; [done|]. by rewrite lookup_insert_ne.
        -- left. by rewrite lookup_insert_eq.
  - change (staticMeshes (@new_BatchedModel Matrix SkeletalData) !! subMesh)
      with (@None (list Matrix)).
    destruct (Hentry new_BatchedModel q []
                (AddResourceListener subMesh ResourceType_StaticMesh
                   (AddResourceListener material ResourceType_Material q)))
      as (entry' & data' & H1 & H2 & H3 & H4 & H5 & H6); [done|].
    exists entry', data'. do 6 (split; [done|]). cbn. split.
    + intros r Hm Hr. by rewrite !lookup_insert_ne.
    + intros Hne. split; left.
      * rewrite lookup_insert_ne by done. by rewrite lookup_insert_eq.
      * by rewrite lookup_insert_eq.
Qed.


(** ** What the other functions do to the tables *)

Lemma AddLight_tables S (light : ptr) q :
  opaqueModels (AddLight S light q) = opaqueModels q
  ∧ sprites (AddLight S light q) = sprites q
  ∧ listeners (AddLight S light q) = listeners q.
Proof. unfold AddLight. by repeat case_match. Qed.

Lemma AddSprite_tables S (sprite : ptr) q :
  opaqueModels (AddSprite S sprite q) = opaqueModels q
  ∧ listeners (AddSprite S sprite q) = listeners q
  ∧ (sprites (AddSprite S sprite q) = sprites q
     ∨ IsBlendEnabled S (GetMaterial S sprite) = false
       ∧ sprites (AddSprite S sprite q)
         = <[GetMaterial S sprite :=
               default [] (sprites q !! GetMaterial S sprite) ++ [sprite]]>
             (sprites q)).
Proof.
  unfold AddSprite. repeat case_match; repeat split; try done; by auto.
Qed.

Lemma destroy_resource_cases (resource : ptr) q :
  let q' := destroy_resource resource q in
  sprites q' = sprites q
  ∧ directionalLights q' = directionalLights q
  ∧ pointLights q' = pointLights q
  ∧ spotLights q' = spotLights q
  ∧ listeners q' !! resource = None
  ∧ (∀ r : ptr, r ≠ resource → listeners q' !! r = listeners q !! r)
  ∧ match listeners q !! resource with
    | None => opaqueModels q' = opaqueModels q
    | Some index =>
        match ResourceType_of_index index with
        | Some ResourceType_Material =>
            opaqueModels q' = delete resource (opaqueModels q)
        | Some ResourceType_SkeletalMesh =>
            opaqueModels q'
            = (λ e : BatchedModel,
                 {| used := used e; enableInstancing := enableInstancing e;
                    skeletalMeshes := delete resource (skeletalMeshes e);
                    staticMeshes := staticMeshes e |}) <$> opaqueModels q
        | Some ResourceType_StaticMesh =>
            opaqueModels q'
            = (λ e : BatchedModel,
                 {| used := used e; enableInstancing := enableInstancing e;
                    skeletalMeshes := skeletalMeshes e;
                    staticMeshes := delete resource (staticMeshes e) |})
              <$> opaqueModels q
        | None => opaqueModels q' = opaqueModels q
        end
    end.
Proof.
  unfold destroy_resource. cbn zeta.
  destruct (listeners q !! resource) as [index|] eqn:Hreg.
  - unfold OnResourceReleased, OnResourceDestroy. cbn [snd].
    destruct (ResourceType_of_index index) as [[]|]; cbn;
      (do 4 (split; [done|])); (split; [apply lookup_delete_eq|]);
      (split; [|done]); intros r Hr; by rewrite lookup_delete_ne.
  - by repeat split.
Qed.

(** ** Sequences of commands *)

(** What every function keeps, under a condition on the materials and the
    submeshes given to [AddSubMesh], every sequence of commands that meets
    the condition keeps. *)
Lemma execute_all_keeps (I : Queue → Prop) (T : ptr * ptr → Prop) S M
    (cs : list Command) q :
  (∀ q light, I q → I (AddLight S light q)) →
  (∀ q sprite, I q → I (AddSprite S sprite q)) →
  (∀ q material subMesh t,
     T (material, subMesh) → I q → I (AddSubMesh S material subMesh t q)) →
  (∀ q fully, I q → I (Clear fully q)) →
  (∀ q resource, I q → I (destroy_resource resource q)) →
  Forall (λ c, ∀ part, part ∈ command_parts M c → T part) cs →
  I q → I (execute_all S M cs q).
Proof.
  intros Hlight Hsprite Hmesh Hclear Hdestroy Hcs. unfold execute_all.
  revert q. induction Hcs as [|c cs Hc _ IH]; intros q Hq; [done|].
  cbn [foldl]. apply IH. destruct c; cbn [execute]; auto.
  - unfold AddModel. repeat case_match; try done.
    cbn [command_parts] in Hc. revert Hc q Hq.
    generalize (model_parts M model) as parts.
    induction parts as [|[material subMesh] parts IHp]; intros Hc q Hq;
      [done|].
    cbn [foldl fst snd]. apply IHp.
    + intros part Hpart. apply Hc. by right.
    + apply Hmesh; [|done]. apply Hc. by left.
  - apply Hmesh; [|done]. apply Hc. cbn. by left.
Qed.

Lemma Forall_untyped M (cs : list Command) :
  Forall (λ c, ∀ part, part ∈ command_parts M c → (λ _, True) part) cs.
Proof. by apply Forall_forall. Qed.


(** ** The registrations *)

Lemma keys_registered_AddSubMesh (is_material : ptr → bool) S
    (material subMesh : ptr) (t : Matrix) q :
  is_material material = true ∧ is_material subMesh = false →
  keys_registered is_material q →
  keys_registered is_material (AddSubMesh S material subMesh t q).
Proof.
  intros [Hmat Hmesh] (Hmats & Hmeshes & Hskel).
  assert (material ≠ subMesh) as Hne by (intros ->; congruence).
  destruct (GetAnimationType S subMesh) eqn:Hanim.
  { destruct (AddSubMesh_skipped S material subMesh t q) as [Ho Hl];
      [by left|]. unfold keys_registered. by rewrite Ho, Hl. }
  destruct (IsBlendEnabled S material) eqn:Hblend.
  { destruct (AddSubMesh_skipped S material subMesh t q) as [Ho Hl];
      [by right|]. unfold keys_registered. by rewrite Ho, Hl. }
  destruct (AddSubMesh_batched S material subMesh t q Hanim Hblend)
    as (entry' & data' & Ho & _ & Hsk & Hst & _ & _ & Hother & Hthese).
  destruct (Hthese Hne) as [Hlmat Hlmesh]. clear Hthese.
  assert (∀ mesh : ptr,
            is_Some
              (staticMeshes
                 (default new_BatchedModel (opaqueModels q !! material))
               !! mesh) →
            is_material mesh = false
            ∧ listeners q !! mesh
              = Some (index_of_ResourceType ResourceType_StaticMesh))
    as Hold.
  { intros mesh Hin.
    destruct (opaqueModels q !! material) as [entry|] eqn:Hentry;
      [by apply (Hmeshes material entry)|].
    cbn in Hin. rewrite lookup_empty in Hin. by destruct Hin. }
  assert (listeners (AddSubMesh S material subMesh t q) !! subMesh
          = Some (index_of_ResourceType ResourceType_StaticMesh)) as Hreg.
  { destruct Hlmesh as [->|[Hin ->]]; [done|]. by apply Hold. }
  split; [|split].
  - intros m. rewrite Ho. intros Hin.
    destruct (decide (m = material)) as [->|Hm].
    + split; [done|]. destruct Hlmat as [->|[Hin' ->]]; [done|].
      by apply Hmats.
    + rewrite lookup_insert_ne in Hin by done.
      destruct (Hmats m Hin) as [Hk Hl]. split; [done|].
      rewrite Hother; [done|done|]. intros ->. congruence.
  - intros m e mesh. rewrite Ho. intros He Hin.
    destruct (decide (m = material)) as [->|Hm].
    + rewrite lookup_insert_eq in He. injection He as <-.
      rewrite Hst in Hin.
      destruct (decide (mesh = subMesh)) as [->|Hs]; [done|].
      rewrite lookup_insert_ne in Hin by done.
      destruct (Hold mesh Hin) as [Hk Hl]. split; [done|].
      rewrite Hother; [done| |done]. intros ->. congruence.
    + rewrite lookup_insert_ne in He by done.
      destruct (Hmeshes m e mesh He Hin) as [Hk Hl]. split; [done|].
      destruct (decide (mesh = subMesh)) as [->|Hs]; [done|].
      rewrite Hother; [done| |done]. intros ->. congruence.
  - intros m e. rewrite Ho. intros He.
    destruct (decide (m = material)) as [->|Hm].
    + rewrite lookup_insert_eq in He. injection He as <-. rewrite Hsk.
      destruct (opaqueModels q !! material) as [entry|] eqn:Hentry;
        [by apply (Hskel material)|done].
    + rewrite lookup_insert_ne in He by done. by apply (Hskel m).
Qed.

Lemma keys_registered_destroy_resource (is_material : ptr → bool)
    (resource : ptr) q :
  keys_registered is_material q →
  keys_registered is_material (destroy_resource resource q).
Proof.
  intros (Hmats & Hmeshes & Hskel).
  destruct (destroy_resource_cases resource q)
    as (_ & _ & _ & _ & _ & Hother & Ho).
  destruct (listeners q !! resource) as [index|] eqn:Hreg.
  2:{ assert (∀ r, listeners (destroy_resource resource q) !! r
                   = listeners q !! r) as Hl.
      { intros r. destruct (decide (r = resource)) as [->|Hr];
          [|by apply Hother]. unfold destroy_resource. by rewrite Hreg. }
      unfold keys_registered. rewrite Ho.
      split; [|split]; intros; rewrite ?Hl; eauto. }
  assert (∀ r tag, listeners q !! r = Some tag → tag ≠ index →
                   listeners (destroy_resource resource q) !! r = Some tag)
    as Hkeep.
  { intros r tag Hr Htag. rewrite Hother; [done|]. intros ->. congruence. }
  unfold ResourceType_of_index in Ho.
  repeat case_decide; subst.
  - (* a material *)
    split; [|split].
    + intros m. rewrite Ho. intros Hin.
      destruct (decide (m = resource)) as [->|Hm];
        [by rewrite lookup_delete_eq in Hin; destruct Hin|].
      rewrite lookup_delete_ne in Hin by done.
      destruct (Hmats m Hin) as [Hk Hl]. split; [done|].
      by rewrite Hother.
    + intros m e mesh. rewrite Ho. intros He Hin.
      apply lookup_delete_Some in He as [_ He].
      destruct (Hmeshes m e mesh He Hin) as [Hk Hl]. split; [done|].
      by apply Hkeep.
    + intros m e. rewrite Ho. intros [_ He]%lookup_delete_Some.
      by apply (Hskel m).
  - (* a skeletal mesh *)
    split; [|split].
    + intros m. rewrite Ho, lookup_fmap, fmap_is_Some. intros Hin.
      destruct (Hmats m Hin) as [Hk Hl]. split; [done|]. by apply Hkeep.
    + intros m e mesh. rewrite Ho, lookup_fmap.
      intros (e0 & He0 & ->)%fmap_Some Hin. cbn in Hin.
      destruct (Hmeshes m e0 mesh He0 Hin) as [Hk Hl]. split; [done|].
      by apply Hkeep.
    + intros m e. rewrite Ho, lookup_fmap.
      intros (e0 & He0 & ->)%fmap_Some. cbn.
      rewrite (Hskel m e0 He0). apply delete_empty.
  - (* a static mesh *)
    split; [|split].
    + intros m. rewrite Ho, lookup_fmap, fmap_is_Some. intros Hin.
      destruct (Hmats m Hin) as [Hk Hl]. split; [done|]. by apply Hkeep.
    + intros m e mesh. rewrite Ho, lookup_fmap.
      intros (e0 & He0 & ->)%fmap_Some Hin. cbn in Hin.
      destruct (decide (mesh = resource)) as [->|Hm];
        [by rewrite lookup_delete_eq in Hin; destruct Hin|].
      rewrite lookup_delete_ne in Hin by done.
      destruct (Hmeshes m e0 mesh He0 Hin) as [Hk Hl]. split; [done|].
      by rewrite Hother.
    + intros m e. rewrite Ho, lookup_fmap.
      intros (e0 & He0 & ->)%fmap_Some. cbn. by apply (Hskel m).
  - (* another tag *)
    split; [|split].
    + intros m. rewrite Ho. intros Hin.
      destruct (Hmats m Hin) as [Hk Hl]. split; [done|]. by apply Hkeep.
    + intros m e mesh. rewrite Ho. intros He Hin.
      destruct (Hmeshes m e mesh He Hin) as [Hk Hl]. split; [done|].
      by apply Hkeep.
    + intros m e. rewrite Ho. by apply Hskel.
Qed.

Lemma keys_registered_Clear (is_material : ptr → bool) (fully : bool) q :
  keys_registered is_material q →
  keys_registered is_material (Clear fully q).
Proof.
  destruct fully.
  - intros _.
    assert (opaqueModels (Clear true q) = ∅) as Ho by reflexivity.
    unfold keys_registered. rewrite Ho.
    split; [|split]; intros m; rewrite ?lookup_empty;
      [by intros []|by intros ?? [=]|by intros ? [=]].
  - done.
Qed.

Lemma execute_all_keys_registered (is_material : ptr → bool) S M
    (cs : list Command) :
  Forall (well_typed is_material M) cs →
  keys_registered is_material (execute_all S M cs (empty_queue : Queue)).
Proof.
  intros Hcs.
  apply (execute_all_keeps
           (@keys_registered Matrix SkeletalData is_material)
           (λ part, is_material part.1 = true ∧ is_material part.2 = false));
    try done.
  - intros q light. unfold keys_registered.
    by destruct (AddLight_tables S light q) as (-> & _ & ->).
  - intros q sprite. unfold keys_registered.
    by destruct (AddSprite_tables S sprite q) as (-> & -> & _).
  - intros q material subMesh t. apply keys_registered_AddSubMesh.
  - intros q fully. apply keys_registered_Clear.
  - intros q resource. apply keys_registered_destroy_resource.
  - split; [|split]; intros m; cbn; rewrite ?lookup_empty;
      [by intros []|by intros ?? [=]|by intros ? [=]].
Qed.

(** X15.  Whatever sequence of submissions, clears and destructions the
    queue has gone through, with materials given where the source has
    [NzMaterial*] and submeshes where it has [NzSubMesh*], once a resource
    is destroyed it is no key of the table of batches and no key of the
    table of meshes of any batch: the queue was listening to it, under
    the tag that makes [OnResourceDestroy] erase it. *)
Theorem destroyed_resource_is_purged (is_material : ptr → bool) S M
    (cs : list Command) (resource : ptr) :
  Forall (well_typed is_material M) cs →
  ¬ batched (destroy_resource resource (execute_all S M cs (empty_queue : Queue)))
      resource.
Proof.
  intros Hcs.
  pose proof (keys_registered_destroy_resource is_material resource _
                (execute_all_keys_registered is_material S M cs Hcs))
    as (Hmats & Hmeshes & Hskel).
  destruct (destroy_resource_cases resource (execute_all S M cs (empty_queue : Queue)))
    as (_ & _ & _ & _ & Hgone & _).
  intros [Hin|(m & e & He & [Hin|Hin])].
  - destruct (Hmats resource Hin) as [_ Hl]. congruence.
  - rewrite (Hskel m e He), lookup_empty in Hin. by destruct Hin.
  - destruct (Hmeshes m e resource He Hin) as [_ Hl]. congruence.
Qed.


(** ** What the tables hold *)

(** X16.  After any sequence of commands on an empty queue, every batch
    and every list of sprites is under a material that does not blend,
    every batch is marked used, and no batch has a skeletal mesh: blended
    geometry and sprites go to the forward queue, and a skeletal submesh
    is dropped. *)
Theorem tables_hold_opaque_static_geometry S M (cs : list Command) :
  let q := execute_all S M cs (empty_queue : Queue) in
  (∀ (material : ptr) entry,
     opaqueModels q !! material = Some entry →
     IsBlendEnabled S material = false
     ∧ used entry = true
     ∧ skeletalMeshes entry = ∅)
  ∧ (∀ material : ptr,
       is_Some (sprites q !! material) → IsBlendEnabled S material = false).
Proof.
  cbn zeta.
  apply (execute_all_keeps
           (λ q : Queue,
              (∀ (material : ptr) entry,
                 opaqueModels q !! material = Some entry →
                 IsBlendEnabled S material = false
                 ∧ used entry = true
                 ∧ skeletalMeshes entry = ∅)
              ∧ (∀ material : ptr,
                   is_Some (sprites q !! material) →
                   IsBlendEnabled S material = false))
           (λ _, True)); try (by apply Forall_forall).
  - intros q light.
    by destruct (AddLight_tables S light q) as (-> & -> & _).
  - intros q sprite [Hmodels Hsprites].
    destruct (AddSprite_tables S sprite q) as (-> & _ & [->|[Hblend ->]]);
      [done|].
    split; [done|]. intros material.
    destruct (decide (material = GetMaterial S sprite)) as [->|Hne]; [done|].
    rewrite lookup_insert_ne by done. apply Hsprites.
  - intros q material subMesh t _ [Hmodels Hsprites].
    destruct (AddSubMesh_elsewhere S material subMesh t q) as (-> & _).
    split; [|done].
    destruct (GetAnimationType S subMesh) eqn:Hanim.
    { by destruct (AddSubMesh_skipped S material subMesh t q) as [-> _];
        [left|]. }
    destruct (IsBlendEnabled S material) eqn:Hblend.
    { by destruct (AddSubMesh_skipped S material subMesh t q) as [-> _];
        [right|]. }
    destruct (AddSubMesh_batched S material subMesh t q Hanim Hblend)
      as (entry' & data' & -> & Hused & Hsk & _).
    intros m e He.
    destruct (decide (m = material)) as [->|Hne].
    + rewrite lookup_insert_eq in He. injection He as <-.
      do 2 (split; [done|]). rewrite Hsk.
      destruct (opaqueModels q !! material) as [entry|] eqn:Hentry; [|done].
      by apply (Hmodels material).
    + rewrite lookup_insert_ne in He by done. by apply Hmodels.
  - intros q [] [Hmodels Hsprites]; [|done].
    split; intros m; cbn; rewrite lookup_empty; [by intros ? [=]|by intros []].
  - intros q resource [Hmodels Hsprites].
    destruct (destroy_resource_cases resource q)
      as (-> & _ & _ & _ & _ & _ & Ho).
    split; [|done].
    destruct (listeners q !! resource) as [index|]; [|by rewrite Ho].
    destruct (ResourceType_of_index index) as [[]|]; rewrite Ho;
      intros m e.
    + intros [_ He]%lookup_delete_Some. by apply Hmodels.
    + rewrite lookup_fmap. intros (e0 & He0 & ->)%fmap_Some. cbn.
      destruct (Hmodels m e0 He0) as (? & ? & ->).
      by rewrite delete_empty.
    + rewrite lookup_fmap. intros (e0 & He0 & ->)%fmap_Some. cbn.
      by apply Hmodels.
    + by apply Hmodels.
  - split; intros m; cbn; rewrite lookup_empty; [by intros ? [=]|by intros []].
Qed.

(** X17.  After any sequence of commands on an empty queue, a batch in
    which some mesh has at least
    [NAZARA_GRAPHICS_INSTANCING_MIN_INSTANCES_COUNT] instances has
    instancing enabled. *)
Theorem instancing_enabled_from_threshold S M (cs : list Command) :
  let q := execute_all S M cs (empty_queue : Queue) in
  ∀ (material : ptr) entry (mesh : ptr) (data : list Matrix),
    opaqueModels q !! material = Some entry →
    staticMeshes entry !! mesh = Some data →
    (NAZARA_GRAPHICS_INSTANCING_MIN_INSTANCES_COUNT S
     ≤ N.of_nat (length data))%N →
    enableInstancing entry = true.
Proof.
  cbn zeta.
  apply (execute_all_keeps
           (λ q : Queue,
              ∀ (material : ptr) entry (mesh : ptr) (data : list Matrix),
                opaqueModels q !! material = Some entry →
                staticMeshes entry !! mesh = Some data →
                (NAZARA_GRAPHICS_INSTANCING_MIN_INSTANCES_COUNT S
                 ≤ N.of_nat (length data))%N →
                enableInstancing entry = true)
           (λ _, True)); try (by apply Forall_forall).
  - intros q light. by destruct (AddLight_tables S light q) as (-> & _).
  - intros q sprite. by destruct (AddSprite_tables S sprite q) as (-> & _).
  - intros q material subMesh t _ Hq.
    destruct (GetAnimationType S subMesh) eqn:Hanim.
    { by destruct (AddSubMesh_skipped S material subMesh t q) as [-> _];
        [left|]. }
    destruct (IsBlendEnabled S material) eqn:Hblend.
    { by destruct (AddSubMesh_skipped S material subMesh t q) as [-> _];
        [right|]. }
    destruct (AddSubMesh_batched S material subMesh t q Hanim Hblend)
      as (entry' & data' & -> & _ & _ & Hst & Hnew & Hold & _).
    intros m e mesh data He Hdata Hle.
    destruct (decide (m = material)) as [->|Hne].
    + rewrite lookup_insert_eq in He. injection He as <-.
      rewrite Hst in Hdata.
      destruct (decide (mesh = subMesh)) as [->|Hs].
      * rewrite lookup_insert_eq in Hdata. injection Hdata as <-.
        by apply Hnew.
      * rewrite lookup_insert_ne in Hdata by done. apply Hold.
        destruct (opaqueModels q !! material) as [entry|] eqn:Hentry;
          [by apply (Hq material entry mesh data)|].
        cbn in Hdata. by rewrite lookup_empty in Hdata.
    + rewrite lookup_insert_ne in He by done.
      by apply (Hq m e mesh data).
  - intros q [] Hq; [|done]. intros m e mesh data. cbn.
    by rewrite lookup_empty.
  - intros q resource Hq.
    destruct (destroy_resource_cases resource q)
      as (_ & _ & _ & _ & _ & _ & Ho).
    destruct (listeners q !! resource) as [index|]; [|by rewrite Ho].
    destruct (ResourceType_of_index index) as [[]|]; rewrite Ho;
      intros m e mesh data.
    + intros [_ He]%lookup_delete_Some. by apply (Hq m e mesh data).
    + rewrite lookup_fmap. intros (e0 & He0 & ->)%fmap_Some. cbn.
      by apply (Hq m e0 mesh data).
    + rewrite lookup_fmap. intros (e0 & He0 & ->)%fmap_Some. cbn.
      intros [_ Hdata]%lookup_delete_Some. by apply (Hq m e0 mesh data).
    + by apply (Hq m e mesh data).
  - intros m e mesh data. cbn. by rewrite lookup_empty.
Qed.


(** ** Sprites and lights *)

Lemma AddModel_sprites S M (model : ptr) q :
  sprites (AddModel S M model q) = sprites q.
Proof.
  unfold AddModel. repeat case_match; try done.
  generalize (model_parts M model) as parts. revert q.
  intros q parts. revert q.
  induction parts as [|part parts IH]; intros q; [done|].
  cbn [foldl]. rewrite IH.
  by destruct (AddSubMesh_elsewhere S part.1 part.2
                 (GetTransformMatrix M model) q) as (-> & _).
Qed.

(** X18.  A sprite the queue holds stays where it is, in the list of its
    material and at its position, through every command but
    [Clear(true)]: the list of each material only grows at its end.  The
    destruction of the sprite or of its material is such a command: the
    queue listens to neither. *)
Theorem sprites_stay_until_full_clear S M (cs : list Command) q
    (material : ptr) :
  Forall (λ c, c ≠ cmd_Clear true) cs →
  default [] (sprites q !! material)
  `prefix_of` default [] (sprites (execute_all S M cs q) !! material).
Proof.
  intros Hcs. unfold execute_all. revert q.
  induction Hcs as [|c cs Hc _ IH]; intros q; [done|].
  cbn [foldl]. etrans; [|apply IH].
  destruct c as [light|model|sprite|mat subMesh t|fully|resource];
    cbn [execute].
  - by destruct (AddLight_tables S light q) as (_ & -> & _).
  - by rewrite AddModel_sprites.
  - destruct (AddSprite_tables S sprite q) as (_ & _ & [->|[_ ->]]); [done|].
    destruct (decide (material = GetMaterial S sprite)) as [->|Hne].
    + rewrite lookup_insert_eq. cbn [default]. by apply prefix_app_r.
    + by rewrite lookup_insert_ne.
  - by destruct (AddSubMesh_elsewhere S mat subMesh t q) as (-> & _).
  - by destruct fully.
  - by destruct (destroy_resource_cases resource q) as (-> & _).
Qed.

Lemma AddLight_lists S (light : ptr) q (type : nzLightType) :
  let list_of (q : Queue) :=
    match type with
    | nzLightType_Directional => directionalLights q
    | nzLightType_Point => pointLights q
    | nzLightType_Spot => spotLights q
    end in
  list_of (AddLight S light q)
  = list_of q ++ lights_of_type S type [light]
  ∧ m_forwardQueue (AddLight S light q)
    = m_forwardQueue q
      ++ (forward_AddLight <$> filter (λ l, l ≠ nullptr) [light]).
Proof.
  cbn zeta. unfold AddLight, lights_of_type.
  case_bool_decide as Hnull.
  - rewrite !filter_cons_False, !filter_nil by tauto.
    rewrite !app_nil_r. by destruct type.
  - rewrite (filter_cons_True (λ l, l ≠ nullptr)) by done.
    destruct type, (GetLightType S light) eqn:Hkind; cbn [forward set_lights
      directionalLights pointLights spotLights m_forwardQueue];
      (rewrite filter_cons_True by done) || (rewrite filter_cons_False
        by (intros [_ ?]; congruence));
      by rewrite ?app_nil_r.
Qed.

(** X19.  Lights submitted one after the other land each in the list of
    its type, in the order of submission, and each is handed on to the
    forward queue; a null light is skipped by both. *)
Theorem AddLight_sorts_by_type S (lights : list ptr) q :
  let q' := foldl (λ q light, AddLight S light q) q lights in
  directionalLights q'
  = directionalLights q ++ lights_of_type S nzLightType_Directional lights
  ∧ pointLights q'
    = pointLights q ++ lights_of_type S nzLightType_Point lights
  ∧ spotLights q' = spotLights q ++ lights_of_type S nzLightType_Spot lights
  ∧ m_forwardQueue q'
    = m_forwardQueue q
      ++ (forward_AddLight <$> filter (λ l, l ≠ nullptr) lights)
  ∧ opaqueModels q' = opaqueModels q
  ∧ sprites q' = sprites q
  ∧ listeners q' = listeners q.
Proof.
  cbn zeta. revert q. induction lights as [|light lights IH]; intros q.
  { cbn. by rewrite !app_nil_r. }
  cbn [foldl].
  destruct (IH (AddLight S light q)) as (-> & -> & -> & -> & -> & -> & ->).
  destruct (AddLight_lists S light q nzLightType_Directional) as [-> ->].
  destruct (AddLight_lists S light q nzLightType_Point) as [-> _].
  destruct (AddLight_lists S light q nzLightType_Spot) as [-> _].
  destruct (AddLight_tables S light q) as (-> & -> & ->).
  unfold lights_of_type.
  rewrite <- !app_assoc, <- !fmap_app.
  by rewrite <- !(filter_app _ [light] lights).
Qed.

End QueueCoverage.

(** ** The comparators of the other tables *)

Section ComparatorCoverage.
Import DeferredRenderQueue QueueCommands.
Implicit Types (S : Scene).

(** X20.  The comparator of the table of sprites is a strict total order
    on materials (on their addresses): no material is before itself, the
    relation is transitive, and of two distinct materials exactly one is
    before the other. *)
Theorem BatchedSpriteMaterialComparator_strict_total_order S :
  strict_total_order (BatchedSpriteMaterialComparator S).
Proof.
  assert (∀ a b : ptr,
            BatchedSpriteMaterialComparator S a b = true
            ↔ (GetShaderProgram S a (nzShaderFlags_Deferred S)
               < GetShaderProgram S b (nzShaderFlags_Deferred S)
               ∨ GetShaderProgram S a (nzShaderFlags_Deferred S)
                 = GetShaderProgram S b (nzShaderFlags_Deferred S)
                 ∧ (GetDiffuseMap S a < GetDiffuseMap S b
                    ∨ GetDiffuseMap S a = GetDiffuseMap S b ∧ a < b))%N)
    as Hlt.
  { intros a b. unfold BatchedSpriteMaterialComparator.
    cbn [compare_programs].
    repeat case_bool_decide; split; intros; try done; lia. }
  split; [|split].
  - intros a. apply not_true_is_false. rewrite Hlt. lia.
  - intros a b c. rewrite !Hlt. lia.
  - intros a b Hne.
    destruct (BatchedSpriteMaterialComparator S b a) eqn:Hba; cbn [negb].
    + apply not_true_is_false. revert Hba. rewrite !Hlt. lia.
    + apply not_true_iff_false in Hba. revert Hba. rewrite !Hlt. lia.
Qed.

(** X21.  The comparator of the static meshes of a batch is a strict
    total order on submeshes (on their addresses), whatever buffers the
    submeshes share. *)
Theorem BatchedStaticMeshComparator_strict_total_order S :
  strict_total_order (BatchedStaticMeshComparator S).
Proof.
  assert (∀ a b : ptr,
            BatchedStaticMeshComparator S a b = true
            ↔ (index_storage S a < index_storage S b
               ∨ index_storage S a = index_storage S b
                 ∧ (vertex_storage S a < vertex_storage S b
                    ∨ vertex_storage S a = vertex_storage S b ∧ a < b))%N)
    as Hlt.
  { intros a b. unfold BatchedStaticMeshComparator.
    fold (index_storage S a) (index_storage S b)
      (vertex_storage S a) (vertex_storage S b).
    repeat case_bool_decide; split; intros; try done; lia. }
  split; [|split].
  - intros a. apply not_true_is_false. rewrite Hlt. lia.
  - intros a b c. rewrite !Hlt. lia.
  - intros a b Hne.
    destruct (BatchedStaticMeshComparator S b a) eqn:Hba; cbn [negb].
    + apply not_true_is_false. revert Hba. rewrite !Hlt. lia.
    + apply not_true_iff_false in Hba. revert Hba. rewrite !Hlt. lia.
Qed.

(** X22.  The comparator of the skeletal meshes of a batch, which reads
    the index buffer of its first argument for both sides, is a strict
    total order on submeshes all the same: the order of their
    addresses. *)
Theorem BatchedSkeletalMeshComparator_strict_total_order S :
  strict_total_order (BatchedSkeletalMeshComparator S).
Proof.
  assert (∀ a b : ptr,
            BatchedSkeletalMeshComparator S a b = true ↔ (a < b)%N) as Hlt.
  { intros a b. rewrite BatchedSkeletalMeshComparator_raw.
    apply bool_decide_eq_true. }
  split; [|split].
  - intros a. apply not_true_is_false. rewrite Hlt. lia.
  - intros a b c. rewrite !Hlt. lia.
  - intros a b Hne.
    destruct (BatchedSkeletalMeshComparator S b a) eqn:Hba; cbn [negb].
    + apply not_true_is_false. revert Hba. rewrite !Hlt. lia.
    + apply not_true_iff_false in Hba. revert Hba. rewrite !Hlt. lia.
Qed.

End ComparatorCoverage.

Section QueueRegistrations.
Import DeferredRenderQueue QueueCommands.
Context {Matrix SkeletalData : Type}.

Abbreviation Queue := (Queue Matrix SkeletalData).
Abbreviation BatchedModel := (BatchedModel Matrix SkeletalData).
Abbreviation Command := (@Command Matrix).
Implicit Types (S : Scene) (M : Models Matrix) (q : Queue) (c : Command).

(** ** The registrations the queue leaves behind *)

Lemma batched_AddSubMesh S (material subMesh : ptr) (t : Matrix) q
    (r : ptr) :
  batched q r → batched (AddSubMesh S material subMesh t q) r.
Proof.
  intros Hr.
  destruct (GetAnimationType S subMesh) eqn:Hanim.
  { destruct (AddSubMesh_skipped S material subMesh t q) as [Ho _];
      [by left|]. unfold batched. by rewrite Ho. }
  destruct (IsBlendEnabled S material) eqn:Hblend.
  { destruct (AddSubMesh_skipped S material subMesh t q) as [Ho _];
      [by right|]. unfold batched. by rewrite Ho. }
  destruct (AddSubMesh_batched S material subMesh t q Hanim Hblend)
    as (entry' & data' & Ho & _ & Hsk & Hst & _).
  unfold batched. rewrite Ho.
  destruct Hr as [Hr|(m & e & He & Hr)].
  - left. destruct (decide (r = material)) as [->|Hne];
      [by rewrite lookup_insert_eq|by rewrite lookup_insert_ne].
  - right. destruct (decide (m = material)) as [->|Hne].
    + exists material, entry'. rewrite lookup_insert_eq. split; [done|].
      rewrite Hsk, Hst, He. cbn [default].
      destruct Hr as [Hr|Hr]; [by left|right].
      destruct (decide (r = subMesh)) as [->|Hs];
        [by rewrite lookup_insert_eq|by rewrite lookup_insert_ne].
    + exists m, e. by rewrite lookup_insert_ne.
Qed.

(** The queue listens to keys of its model tables only. *)
Lemma listeners_batched_AddSubMesh S (material subMesh : ptr) (t : Matrix)
    q :
  material ≠ subMesh →
  (∀ r, is_Some (listeners q !! r) → batched q r) →
  ∀ r, is_Some (listeners (AddSubMesh S material subMesh t q) !! r) →
       batched (AddSubMesh S material subMesh t q) r.
Proof.
  intros Hne Hq r Hr.
  destruct (GetAnimationType S subMesh) eqn:Hanim.
  { destruct (AddSubMesh_skipped S material subMesh t q) as [Ho Hl];
      [by left|]. unfold batched. rewrite Ho. rewrite Hl in Hr. by apply Hq. }
  destruct (IsBlendEnabled S material) eqn:Hblend.
  { destruct (AddSubMesh_skipped S material subMesh t q) as [Ho Hl];
      [by right|]. unfold batched. rewrite Ho. rewrite Hl in Hr.
    by apply Hq. }
  destruct (AddSubMesh_batched S material subMesh t q Hanim Hblend)
    as (entry' & data' & Ho & _ & Hsk & Hst & _ & _ & Hother & _).
  destruct (decide (r = material)) as [->|Hm].
  { left. by rewrite Ho, lookup_insert_eq. }
  destruct (decide (r = subMesh)) as [->|Hs].
  { right. exists material, entry'. rewrite Ho, lookup_insert_eq.
    split; [done|]. right. by rewrite Hst, lookup_insert_eq. }
  apply batched_AddSubMesh, Hq. by rewrite <- Hother.
Qed.

Lemma Clear_true_listeners q :
  (∀ r, is_Some (listeners q !! r) → batched q r) →
  listeners (Clear true q) = ∅.
Proof.
  intros Hq. apply map_eq. intros r. rewrite lookup_empty.
  unfold Clear. rewrite remove_all_listeners_eq.
  cbn [listeners set_lights forward set_sprites set_opaqueModels
       set_listeners opaqueModels].
  rewrite lookup_foldl_delete. case_bool_decide as Hin; [done|].
  destruct (listeners q !! r) as [index|] eqn:Hreg; [|done].
  exfalso. apply Hin.
  assert (∀ (m : ptr) (e : BatchedModel),
            opaqueModels q !! m = Some e →
            r ∈ resources_of (m, e) →
            r ∈ concat (resources_of <$> map_to_list (opaqueModels q)))
    as Hres.
  { intros m e He Hr. apply list_elem_of_In, in_concat.
    exists (resources_of (m, e)). split; [|by apply list_elem_of_In].
    apply in_map, list_elem_of_In. by apply elem_of_map_to_list. }
  destruct (Hq r) as [[e He]|(m & e & He & Hr)]; [by rewrite Hreg|..].
  - apply (Hres r e He). unfold resources_of. apply list_elem_of_here.
  - apply (Hres m e He). unfold resources_of. cbn [fst snd].
    apply list_elem_of_further, elem_of_app.
    destruct Hr as [[d Hd]|[d Hd]]; [left|right];
      apply list_elem_of_fmap; exists (r, d);
      (split; [done|by apply elem_of_map_to_list]).
Qed.

(** X25. The destructor of the queue is [Clear(true)].  After any
    sequence of submissions, clears and destructions of resources, in
    which materials and meshes are distinct resources and no material is
    destroyed, a full clear leaves the queue registered as a listener of
    no resource at all: every registration made by [AddSubMesh] is taken
    back, either by the destruction of the mesh or by the full clear. *)
Theorem Clear_true_deregisters_everywhere (is_material : ptr → bool) S M
    (cs : list Command) :
  Forall (well_typed is_material M) cs →
  Forall (λ c, ∀ r : ptr, c = cmd_destroy r → is_material r = false) cs →
  listeners (Clear true (execute_all S M cs (empty_queue : Queue))) = ∅.
Proof.
  intros Htyped Hkept. apply Clear_true_listeners.
  assert (∀ q : Queue,
            keys_registered is_material q
            ∧ (∀ r, is_Some (listeners q !! r) → batched q r) →
            keys_registered is_material (execute_all S M cs q)
            ∧ (∀ r, is_Some (listeners (execute_all S M cs q) !! r) →
                    batched (execute_all S M cs q) r)) as Hall.
  { unfold execute_all. revert Hkept.
    induction Htyped as [|c cs Hc _ IH]; intros Hkept q Hq; [done|].
    apply Forall_cons in Hkept as [Hd Hkept].
    cbn [foldl]. apply IH; [done|]. clear IH Hkept.
    destruct Hq as [Hreg Hin].
    destruct c as [light|model|sprite|mat subMesh t|fully|resource];
      cbn [execute].
    - destruct (AddLight_tables S light q) as (Ho & _ & Hl).
      unfold keys_registered, batched. by rewrite Ho, Hl.
    - unfold AddModel. repeat case_match; try done.
      unfold well_typed in Hc. cbn [command_parts] in Hc.
      revert Hc q Hreg Hin. generalize (model_parts M model) as parts.
      induction parts as [|[material subMesh] parts IHp];
        intros Hc q Hreg Hin; [done|].
      cbn [foldl fst snd].
      destruct (Hc (material, subMesh)) as [Hk1 Hk2]; [by left|].
      cbn [fst snd] in Hk1, Hk2.
      apply IHp.
      + intros part Hpart. apply Hc. by right.
      + by apply keys_registered_AddSubMesh.
      + apply listeners_batched_AddSubMesh; [|done]. intros ->. congruence.
    - destruct (AddSprite_tables S sprite q) as (Ho & Hl & _).
      unfold keys_registered, batched. by rewrite Ho, Hl.
    - destruct (Hc (mat, subMesh)) as [Hk1 Hk2]; [cbn; by left|].
      cbn [fst snd] in Hk1, Hk2. split.
      + by apply keys_registered_AddSubMesh.
      + apply listeners_batched_AddSubMesh; [|done]. intros ->. congruence.
    - split; [by apply keys_registered_Clear|].
      destruct fully; [|done].
      rewrite (Clear_true_listeners q Hin). intros r.
      rewrite lookup_empty. by intros [].
    - split; [by apply keys_registered_destroy_resource|].
      specialize (Hd resource eq_refl).
      destruct (destroy_resource_cases resource q)
        as (_ & _ & _ & _ & Hgone & Hother & Ho).
      destruct (listeners q !! resource) as [index|] eqn:Hidx.
      2:{ intros r Hr. destruct (decide (r = resource)) as [->|Hne];
            [rewrite Hgone in Hr; by destruct Hr|].
          rewrite Hother in Hr by done. unfold batched. rewrite Ho.
          by apply Hin. }
      destruct Hreg as (Hmats & Hmeshes & Hskel).
      assert (index = index_of_ResourceType ResourceType_StaticMesh) as ->.
      { destruct (Hin resource) as [He|(m & e & He & [Hr|Hr])];
          [by rewrite Hidx| | |].
        - destruct (Hmats resource He) as [? _]. congruence.
        - rewrite (Hskel m e He), lookup_empty in Hr. by destruct Hr.
        - destruct (Hmeshes m e resource He Hr) as [_ ?]. congruence. }
      cbn in Ho. intros r Hr.
      destruct (decide (r = resource)) as [->|Hne];
        [rewrite Hgone in Hr; by destruct Hr|].
      rewrite Hother in Hr by done. unfold batched. rewrite Ho.
      destruct (Hin r Hr) as [He|(m & e & He & Hm)].
      + left. by rewrite lookup_fmap, fmap_is_Some.
      + right. eexists m, _. rewrite lookup_fmap, He. split; [done|]. cbn.
        destruct Hm as [Hm|Hm]; [by left|right].
        by rewrite lookup_delete_ne. }
  apply Hall. split.
  - split; [|split]; intros m; cbn; rewrite ?lookup_empty;
      [by intros []|by intros ?? [=]|by intros ? [=]].
  - intros r. cbn. rewrite lookup_empty. by intros [].
Qed.

End QueueRegistrations.

(** * The further properties on concrete instances *)

Section RendererCoverageEvaluations.
Import Renderer Drawing Examples CoverageExamples.

Lemma EnsureStateUpdate_applies_every_texture_witness :
  let r := EnsureStateUpdate world ready in
  r = (true, r.1.2, r.2)
  ∧ ∀ (unit : nat) (u : TextureUnit bool),
      s_textureUnits r.1.2 !! unit = Some u → texture u ≠ nullptr →
      textureUpdated u = true ∧ samplerUpdated u = true.
Proof.
  cbv zeta.
  assert (EnsureStateUpdate world ready
          = (true, (EnsureStateUpdate world ready).1.2,
             (EnsureStateUpdate world ready).2)) as Hrun
    by (vm_compute; reflexivity).
  split; [exact Hrun|].
  exact (EnsureStateUpdate_applies_every_texture world device frame_setup
           true true 2%N () _ _ Hrun).
Defined.

Lemma EnsureStateUpdate_applies_every_matrix_witness :
  let r := EnsureStateUpdate world ready in
  r = (true, r.1.2, r.2)
  ∧ ∀ type : nzMatrixType,
      location (s_matrices r.1.2 type)
      = GetUniformLocation world (s_program r.1.2) (matrix_uniform type)
      ∧ (location (s_matrices r.1.2 type) ≠ (-1)%Z →
         updated (s_matrices r.1.2 type) = true).
Proof.
  cbv zeta.
  assert (EnsureStateUpdate world ready
          = (true, (EnsureStateUpdate world ready).1.2,
             (EnsureStateUpdate world ready).2)) as Hrun
    by (vm_compute; reflexivity).
  split; [exact Hrun|].
  exact (EnsureStateUpdate_applies_every_matrix world device frame_setup
           true true 2%N () _ _ Hrun).
Defined.

Lemma EnsureStateUpdate_succeeds_with_vertex_buffer_witness :
  let r := EnsureStateUpdate world ready in
  r = (true, r.1.2, r.2)
  ∧ NzContext_GetCurrent world ≠ nullptr ∧ s_program r.1.2 ≠ nullptr
  ∧ s_target r.1.2 ≠ nullptr ∧ s_vertexBuffer r.1.2 ≠ nullptr.
Proof.
  cbv zeta.
  assert (EnsureStateUpdate world ready
          = (true, (EnsureStateUpdate world ready).1.2,
             (EnsureStateUpdate world ready).2)) as Hrun
    by (vm_compute; reflexivity).
  split; [exact Hrun|].
  exact (EnsureStateUpdate_succeeds_with_vertex_buffer world device
           frame_setup true true 2%N () _ _ Hrun).
Defined.

(** [DrawPrimitives] of three vertices in that state: the calls of the
    state cache, the draw call, and the unbinding of the vertex array. *)
Lemma draw_call_issued_when_ready_witness :
  let r := run_draw world device (draw_Primitives 0%N 0%N 3%N) ready in
  let call : DrawCall SymMatrix bool unit := call_glDrawArrays 0%N 0%N 3%N in
  call ∈ r.2
  ∧ is_draw call = true
  ∧ (∃ c0, r.2 = (call_state <$> c0) ++ call :: unbind_vertex_array r.1)
  ∧ s_instancing r.1 = false
  ∧ s_vertexBuffer r.1 ≠ nullptr
  ∧ s_program r.1 ≠ nullptr
  ∧ s_target r.1 ≠ nullptr.
Proof.
  cbv zeta.
  assert (call_glDrawArrays 0%N 0%N 3%N
          ∈ (run_draw world device (draw_Primitives 0%N 0%N 3%N) ready).2)
    as Hin.
  { apply list_elem_of_In. vm_compute.
    repeat first [left; reflexivity | right]. }
  split; [exact Hin|]. split; [reflexivity|].
  destruct (draw_call_issued_when_ready world device frame_setup true true
              2%N () (draw_Primitives 0%N 0%N 3%N) _ _ _
              (surjective_pairing _) Hin eq_refl)
    as (Hc & Hi & _ & Hvb & Hp & Ht).
  split; [exact Hc|]. split; [exact Hi|]. split; [exact Hvb|].
  split; [exact Hp|exact Ht].
Defined.

Lemma DrawFullscreenQuad_leaves_quad_bound_witness :
  let s' := (DrawFullscreenQuad world device ready).1 in
  s_vertexBuffer ready = 30%N
  ∧ s_vertexBuffer s' = 90%N
  ∧ s_indexBuffer s' = nullptr
  ∧ s_instancing s' = false.
Proof.
  cbv zeta. split; [reflexivity|].
  exact (DrawFullscreenQuad_leaves_quad_bound world device frame_setup true
           true 2%N () ltac:(discriminate) ltac:(discriminate) eq_refl).
Defined.

(** A target that cannot be rendered to is given while target 20 is
    bound. *)
Lemma SetTarget_failure_leaves_no_target_witness :
  let r := SetTarget world_with_one_target 21%N ready in
  s_target ready = 20%N
  ∧ r = (false, r.1.2, r.2)
  ∧ s_target r.1.2 = nullptr
  ∧ s_updateFlags r.1.2 = s_updateFlags ready
  ∧ ∀ d : Draw, (run_draw world_with_one_target device d r.1.2).2 = [].
Proof.
  cbv zeta. split; [reflexivity|].
  assert (SetTarget world_with_one_target 21%N ready
          = (false, (SetTarget world_with_one_target 21%N ready).1.2,
             (SetTarget world_with_one_target 21%N ready).2)) as Hset
    by (vm_compute; reflexivity).
  split; [exact Hset|].
  exact (SetTarget_failure_leaves_no_target world_with_one_target device
           21%N ready _ _ Hset).
Defined.

Lemma OnTextureReleased_unbinds_the_texture_witness :
  let s' := OnTextureReleased 60%N ready in
  (texture <$> s_textureUnits ready) = [60%N; 0%N]
  ∧ (∀ (unit : nat) (u : TextureUnit bool),
       s_textureUnits s' !! unit = Some u → texture u ≠ 60%N)
  ∧ s_dirtyTextureUnits s' = s_dirtyTextureUnits ready
  ∧ s_updateFlags s' = s_updateFlags ready.
Proof.
  cbv zeta. split; [reflexivity|].
  destruct (OnTextureReleased_unbinds_the_texture 60%N ready
              ltac:(discriminate)) as (Hnone & _ & Hdirty & Hflags).
  split; [exact Hnone|]. split; [exact Hdirty|exact Hflags].
Defined.

(** The first update in [ready] creates the vertex array of the bound
    buffers and names it 7. *)
Lemma EnsureStateUpdate_binds_cached_vertex_array_witness :
  let r := EnsureStateUpdate world ready in
  flags_wf (s_updateFlags ready)
  ∧ r = (true, r.1.2, r.2)
  ∧ cached_vao ready 1%N (current_key world ready) = None
  ∧ cached_vao r.1.2 1%N (current_key world r.1.2) = Some 7%N
  ∧ s_currentVAO r.1.2 = 7%N.
Proof.
  cbv zeta.
  assert (flags_wf (s_updateFlags ready)) as Hwf by (by vm_compute).
  assert (EnsureStateUpdate world ready
          = (true, (EnsureStateUpdate world ready).1.2,
             (EnsureStateUpdate world ready).2)) as Hrun
    by (vm_compute; reflexivity).
  split; [exact Hwf|]. split; [exact Hrun|].
  assert (cached_vao ready 1%N (current_key world ready) = None) as Hmiss
    by (by vm_compute).
  split; [exact Hmiss|].
  destruct (EnsureStateUpdate_binds_cached_vertex_array world ready _ _ Hwf
              eq_refl eq_refl Hrun) as (Hcached & _ & Hnew).
  change (NzContext_GetCurrent world) with 1%N in Hcached, Hnew.
  rewrite Hmiss in Hnew. rewrite Hnew in Hcached.
  split; [exact Hcached|exact Hnew].
Defined.

(** The update in [ready] binds texture 60 of unit 0, of type 1 and
    name 160. *)
Lemma EnsureStateUpdate_binds_every_texture_witness :
  let r := EnsureStateUpdate world ready in
  r = (true, r.1.2, r.2)
  ∧ last r.2 = Some (call_ApplyStates ())
  ∧ call_BindTexture 0%N 1%N 160%N ∈ r.2.
Proof.
  cbv zeta.
  assert (EnsureStateUpdate world ready
          = (true, (EnsureStateUpdate world ready).1.2,
             (EnsureStateUpdate world ready).2)) as Hrun
    by (vm_compute; reflexivity).
  split; [exact Hrun|].
  destruct (EnsureStateUpdate_binds_every_texture world ready _ _ Hrun)
    as (Hlast & _ & Hbind).
  split; [exact Hlast|].
  exact (Hbind 0%N
           {| sampler := true; texture := 60%N; samplerUpdated := false;
              textureUpdated := false |}
           eq_refl eq_refl ltac:(discriminate)).
Defined.

(** The matrices [Sym_Var 11], [Sym_Var 12] and [Sym_Var 13] are set in
    [ready]; the program has a uniform for WorldViewProj at location 1. *)
Lemma EnsureStateUpdate_sends_derived_matrices_witness :
  let s := set_base_matrices (Sym_Var 11%N) (Sym_Var 12%N) (Sym_Var 13%N)
             ready in
  s_program ready = 10%N
  ∧ call_SendMatrix 10%N 1%Z
      (Sym_Concatenate
         (Sym_ConcatenateAffine (Sym_Var 13%N) (Sym_Var 12%N))
         (Sym_Var 11%N))
    ∈ (EnsureStateUpdate world s).2.
Proof.
  cbv zeta. split; [reflexivity|].
  assert (∀ r : bool * ExState * list (Call SymMatrix bool unit),
            r = (r.1.1, r.1.2, r.2)) as Hpair by (by intros [[? ?] ?]).
  exact (EnsureStateUpdate_sends_derived_matrices world device frame_setup
           true true 2%N () (Sym_Var 11%N) (Sym_Var 12%N) (Sym_Var 13%N) []
           _ _ _ ltac:(discriminate) ltac:(discriminate) ltac:(discriminate)
           (Hpair _) nzMatrixType_WorldViewProj ltac:(discriminate)).
Defined.

End RendererCoverageEvaluations.

Section QueueCoverageEvaluations.
Import DeferredRenderQueue QueueCommands Examples CoverageExamples.

(** Submesh 2 was batched under material 5 by the model and by the
    submission; destroyed a first time by the sequence, or a second time,
    it is in no table. *)
Lemma destroyed_resource_is_purged_witness :
  Forall (well_typed is_material models) frame_commands
  ∧ ¬ batched
        (destroy_resource 2%N
           (execute_all scene models frame_commands (empty_queue : ExQueue)))
        2%N.
Proof.
  assert (Forall (well_typed is_material models) frame_commands) as Htyped.
  { repeat apply Forall_cons_2; try apply Forall_nil_2;
      intros part Hpart; apply list_elem_of_In in Hpart;
      vm_compute in Hpart;
      repeat (destruct Hpart as [<-|Hpart]; [by vm_compute|]);
      destruct Hpart. }
  split; [exact Htyped|].
  exact (destroyed_resource_is_purged is_material scene models frame_commands
           2%N Htyped).
Defined.

(** Submesh 2 is submitted three times with material 5, and three
    instances are the threshold of [scene]. *)
Lemma instancing_enabled_from_threshold_witness :
  let cs : list (@Command SymMatrix) :=
    [ cmd_AddSubMesh 5%N 2%N (Sym_Var 1%N);
      cmd_AddSubMesh 5%N 2%N (Sym_Var 2%N);
      cmd_AddSubMesh 5%N 2%N (Sym_Var 3%N) ] in
  let data := [Sym_Var 1%N; Sym_Var 2%N; Sym_Var 3%N] in
  let entry : BatchedModel SymMatrix unit := batch_of scene 2%N data in
  let q := execute_all scene models cs (empty_queue : ExQueue) in
  opaqueModels q !! 5%N = Some entry
  ∧ staticMeshes entry !! 2%N = Some data
  ∧ enableInstancing entry = true.
Proof.
  cbv zeta.
  assert (opaqueModels
            (execute_all scene models
               [ cmd_AddSubMesh 5%N 2%N (Sym_Var 1%N);
                 cmd_AddSubMesh 5%N 2%N (Sym_Var 2%N);
                 cmd_AddSubMesh 5%N 2%N (Sym_Var 3%N) ]
               (empty_queue : ExQueue)) !! 5%N
          = Some (batch_of scene 2%N
                    [Sym_Var 1%N; Sym_Var 2%N; Sym_Var 3%N])) as Hentry
    by (vm_compute; reflexivity).
  assert (staticMeshes
            (batch_of scene 2%N [Sym_Var 1%N; Sym_Var 2%N; Sym_Var 3%N]
             : BatchedModel SymMatrix unit) !! 2%N
          = Some [Sym_Var 1%N; Sym_Var 2%N; Sym_Var 3%N]) as Hdata
    by (vm_compute; reflexivity).
  split; [exact Hentry|]. split; [exact Hdata|].
  exact (instancing_enabled_from_threshold scene models _ 5%N _ 2%N _
           Hentry Hdata ltac:(by vm_compute)).
Defined.

(** Sprite 80 is queued under material 5; the material and the sprite are
    destroyed and the lights cleared, and the sprite is still first in
    the list. *)
Lemma sprites_stay_until_full_clear_witness :
  let q : ExQueue := AddSprite scene 80%N empty_queue in
  let cs := [ cmd_destroy 5%N; cmd_destroy 80%N; cmd_Clear false ] in
  Forall (λ c : @Command SymMatrix, c ≠ cmd_Clear true) cs
  ∧ default [] (sprites q !! 5%N) = [80%N]
  ∧ [80%N] `prefix_of` default [] (sprites (execute_all scene models cs q) !! 5%N).
Proof.
  cbv zeta.
  assert (Forall (λ c : @Command SymMatrix, c ≠ cmd_Clear true)
            [ cmd_destroy 5%N; cmd_destroy 80%N; cmd_Clear false ]) as Hcs
    by (repeat constructor; discriminate).
  split; [exact Hcs|]. split; [reflexivity|].
  exact (sprites_stay_until_full_clear scene models _
           (AddSprite scene 80%N empty_queue) 5%N Hcs).
Defined.

(** The sequence destroys submesh 2 only, which is no material; the full
    clear that follows leaves no registration. *)
Lemma Clear_true_deregisters_everywhere_witness :
  Forall (well_typed is_material models) frame_commands
  ∧ Forall (λ c, ∀ r : ptr, c = cmd_destroy r → is_material r = false)
      frame_commands
  ∧ listeners
      (Clear true
         (execute_all scene models frame_commands (empty_queue : ExQueue)))
    = ∅.
Proof.
  assert (Forall (well_typed is_material models) frame_commands) as Htyped.
  { repeat apply Forall_cons_2; try apply Forall_nil_2;
      intros part Hpart; apply list_elem_of_In in Hpart;
      vm_compute in Hpart;
      repeat (destruct Hpart as [<-|Hpart]; [by vm_compute|]);
      destruct Hpart. }
  assert (Forall (λ c : @Command SymMatrix,
                    ∀ r : ptr, c = cmd_destroy r → is_material r = false)
            frame_commands) as Hkept.
  { repeat apply Forall_cons_2; try apply Forall_nil_2;
      intros r [= <-]; reflexivity. }
  split; [exact Htyped|]. split; [exact Hkept|].
  exact (Clear_true_deregisters_everywhere is_material scene models
           frame_commands Htyped Hkept).
Defined.

End QueueCoverageEvaluations.
